(** * linux-monitoring: the system health monitor and the disk monitor

    A shallow embedding of [system-health-monitor.js] and of
    [disk-monitor.js], and the properties of their providers, threshold
    evaluation, cooldown gate, alert composition and persistence of the
    last-alert time.

    The file has three parts: a model of the pieces of the JavaScript
    runtime the monitors rely on (modules [JS] and [JSDate]), the monitors
    themselves (module [Monitor], one definition per source function, in
    source order, module [Startup] for the script part of the health
    monitor, and module [DiskMonitor]), and the properties. *)

From Stdlib Require Import ZArith List String Ascii Bool Lia SpecFloat.
Import ListNotations.

Local Open Scope string_scope.
Local Open Scope Z_scope.

(** ** The JavaScript runtime

    Strings are sequences of code units, one [ascii] each; the few literals
    of the source outside ASCII (emoji and bullets) are written in UTF-8,
    which changes their length only, and the monitor takes the length of
    process commands alone.

    Times are integral Numbers: [Date.now()] is an integer of magnitude at
    most 8.64e15, below 2^53, so the differences the monitor forms are exact
    and are computed on [Z].  Percentages, load averages and minutes are
    binary64 values and are computed as such. *)

Module JS.

(** *** Numbers

    A JavaScript Number is an IEEE 754 binary64 value.  [spec_float] is the
    Standard Library's specification of such values; every operation below
    is instantiated at precision 53 and maximal exponent 1024.  A finite
    value [S754_finite s m e] denotes (-1)^s * m * 2^e. *)

Definition number := spec_float.

Definition prec : Z := 53.
Definition emax : Z := 1024.

Definition NaN : number := S754_nan.

(** The Number denoted by an integer literal or by an integral result. *)
Definition of_Z (z : Z) : number := binary_normalize prec emax z 0 false.

Definition div (x y : number) : number := SFdiv prec emax x y.

(** [x >= y] and [x < y]: both are false as soon as one side is NaN. *)
Definition ge (x y : number) : bool :=
  match SFcompare x y with
  | Some Gt | Some Eq => true
  | _ => false
  end.

Definition lt (x y : number) : bool := SFltb x y.

(** *** Strings of digits *)

Definition digit_of_Z (d : Z) : ascii := ascii_of_N (48 + Z.to_N d).

Definition is_digit (c : ascii) : bool :=
  let n := N_of_ascii c in ((48 <=? n) && (n <=? 57))%N.

Definition digit_val (c : ascii) : Z := Z.of_N (N_of_ascii c) - 48.

(** Decimal digits of a non-negative integer, most significant first; the
    empty string for 0.  The fuel bounds the number of digits. *)
Fixpoint digits_fuel (fuel : nat) (n : Z) (acc : string) : string :=
  match fuel with
  | O => acc
  | S fuel' =>
      if n <=? 0 then acc
      else digits_fuel fuel' (n / 10) (String (digit_of_Z (n mod 10)) acc)
  end.

Definition digits (n : Z) : string :=
  digits_fuel (S (Z.to_nat (Z.log2 n))) n "".

(** The decimal representation of a non-negative integer. *)
Definition decimal (n : Z) : string :=
  if n <=? 0 then "0" else digits n.

(** ToString applied to an integral Number below 10^21. *)
Definition int_toString (z : Z) : string :=
  if z <? 0 then "-" ++ decimal (- z) else decimal z.

Fixpoint zeros (n : nat) : string :=
  match n with
  | O => ""
  | S n' => String "0" (zeros n')
  end.

(** [substring(0, n)] and the rest of the string. *)
Definition take (n : nat) (s : string) : string := substring 0 n s.
Definition drop (n : nat) (s : string) : string := substring n (length s - n) s.

(** *** Number.prototype.toFixed

    For a finite x below 10^21 in magnitude, [toFixed f] prints the integer
    n for which n / 10^f is nearest to the exact value of x (the larger n on
    a tie), with a decimal point before its last f digits.  The value of
    [S754_finite s m e] is exact, so n is computed on integers. *)

Definition scaled_nearest (m : positive) (e : Z) (f : nat) : Z :=
  let v := Z.pos m * 10 ^ Z.of_nat f in
  if 0 <=? e then v * 2 ^ e
  else (2 * v + 2 ^ (- e)) / 2 ^ (1 - e).

Definition at_least_1e21 (m : positive) (e : Z) : bool :=
  if 0 <=? e then 10 ^ 21 <=? Z.pos m * 2 ^ e
  else 10 ^ 21 * 2 ^ (- e) <=? Z.pos m.

Definition fixed_digits (n : Z) (f : nat) : string :=
  let m := decimal n in
  match f with
  | O => m
  | S _ =>
      let m := if (length m <=? f)%nat then zeros (f + 1 - length m) ++ m else m in
      let k := length m in
      take (k - f) m ++ "." ++ drop (k - f) m
  end.

(** *** Number::toString

    The shortest decimal that reads back as the same binary64 value.  All
    reals are kept as numerators over 2^1076, which is fine enough for half
    the gap between any two neighbouring values. *)

Record interval := {
  iv_x : Z;         (* the value itself *)
  iv_lo : Z;        (* midpoint towards the value below *)
  iv_hi : Z;        (* midpoint towards the value above *)
  iv_closed : bool  (* midpoints round to this value: even mantissa *)
}.

Definition rounding_interval (m : positive) (e : Z) : interval :=
  let X := Z.shiftl (Z.pos m) (e + 1076) in
  let half := Z.shiftl 1 (e + 1075) in
  let below :=
    if (Z.pos m =? 2 ^ 52) && (-1074 <? e) then Z.shiftl 1 (e + 1074) else half in
  {| iv_x := X; iv_lo := X - below; iv_hi := X + half;
     iv_closed := Z.even (Z.pos m) |}.

Definition below_pow10 (X n : Z) : bool :=
  if 0 <=? n then X <? 10 ^ n * 2 ^ 1076 else X * 10 ^ (- n) <? 2 ^ 1076.

(** The least n with x < 10^n, searched upwards from [n]. *)
Fixpoint find_exponent (fuel : nat) (X n : Z) : Z :=
  match fuel with
  | O => n
  | S fuel' => if below_pow10 X n then n else find_exponent fuel' X (n + 1)
  end.

Definition decimal_exponent (X : Z) : Z := find_exponent 700 X (-330).

(** A k-digit s with s * 10^(n-k) inside the rounding interval, the nearest
    to x when both neighbours qualify. *)
Definition candidate (iv : interval) (n k : Z) : option Z :=
  let p := n - k in
  let up := if p <? 0 then 10 ^ (- p) else 1 in
  let unit := if p <? 0 then 2 ^ 1076 else 2 ^ 1076 * 10 ^ p in
  let X := iv_x iv * up in
  let lo := iv_lo iv * up in
  let hi := iv_hi iv * up in
  let inside V :=
    if iv_closed iv then (lo <=? V) && (V <=? hi) else (lo <? V) && (V <? hi) in
  let s1 := X / unit in
  let s2 := s1 + 1 in
  match inside (s1 * unit), inside (s2 * unit) with
  | true, true =>
      if X - s1 * unit <? s2 * unit - X then Some s1
      else if s2 * unit - X <? X - s1 * unit then Some s2
      else Some (if Z.even s1 then s1 else s2)
  | true, false => Some s1
  | false, true => Some s2
  | false, false => None
  end.

Fixpoint shortest (fuel : nat) (iv : interval) (n k : Z) : Z * Z :=
  match fuel with
  | O => (iv_x iv / 2 ^ 1076, k)
  | S fuel' =>
      match candidate iv n k with
      | Some s => (s, k)
      | None => shortest fuel' iv n (k + 1)
      end
  end.

Definition toString_pos (m : positive) (e : Z) : string :=
  let iv := rounding_interval m e in
  let n0 := decimal_exponent (iv_x iv) in
  let '(s, k) := shortest 17 iv n0 1 in
  let '(s, k, n) := if s =? 10 ^ k then (1, 1, n0 + 1) else (s, k, n0) in
  let ds := decimal s in
  if (k <=? n) && (n <=? 21) then ds ++ zeros (Z.to_nat (n - k))
  else if (0 <? n) && (n <=? 21) then
    take (Z.to_nat n) ds ++ "." ++ drop (Z.to_nat n) ds
  else if (-6 <? n) && (n <=? 0) then "0." ++ zeros (Z.to_nat (- n)) ++ ds
  else
    let ex := n - 1 in
    let sign := if ex <? 0 then "-" else "+" in
    let mant := if k =? 1 then ds else take 1 ds ++ "." ++ drop 1 ds in
    mant ++ "e" ++ sign ++ decimal (Z.abs ex).

Definition toString (x : number) : string :=
  match x with
  | S754_nan => "NaN"
  | S754_zero _ => "0"
  | S754_infinity s => if s then "-Infinity" else "Infinity"
  | S754_finite s m e => (if s then "-" else "") ++ toString_pos m e
  end.

Definition toFixed (x : number) (f : nat) : string :=
  match x with
  | S754_nan | S754_infinity _ => toString x
  | S754_zero _ => fixed_digits 0 f
  | S754_finite s m e =>
      (if s then "-" else "") ++
      (if at_least_1e21 m e then toString_pos m e
       else fixed_digits (scaled_nearest m e f) f)
  end.

(** *** Trimming and parsing

    White space is the ASCII part of the WhiteSpace and LineTerminator
    productions: tab, line feed, vertical tab, form feed, carriage return
    and space. *)

Definition is_space (c : ascii) : bool :=
  let n := N_of_ascii c in ((n =? 32) || ((9 <=? n) && (n <=? 13)))%N.

Fixpoint trimStart (s : string) : string :=
  match s with
  | String c s' => if is_space c then trimStart s' else s
  | EmptyString => EmptyString
  end.

Definition reverse (s : string) : string :=
  string_of_list_ascii (rev (list_ascii_of_string s)).

Definition trim (s : string) : string :=
  reverse (trimStart (reverse (trimStart s))).

(** [s.split(sep)] for a separator of one character. *)
Fixpoint split_on (sep : ascii) (s : string) : list string :=
  match s with
  | EmptyString => [EmptyString]
  | String c s' =>
      if (c =? sep)%char then EmptyString :: split_on sep s'
      else
        match split_on sep s' with
        | t :: ts => String c t :: ts
        | [] => [String c EmptyString]
        end
  end.

(** [s.split(/\s+/)]: the pieces between the runs of white space; a run at
    either end leaves an empty piece there. *)
Fixpoint split_spaces_from (after_space : bool) (s : string) : list string :=
  match s with
  | EmptyString => [EmptyString]
  | String c s' =>
      if is_space c then
        if after_space then split_spaces_from true s'
        else EmptyString :: split_spaces_from true s'
      else
        match split_spaces_from false s' with
        | t :: ts => String c t :: ts
        | [] => [String c EmptyString]
        end
  end.

Definition split_spaces (s : string) : list string := split_spaces_from false s.

(** A string or undefined, as a template literal prints it. *)
Definition template (o : option string) : string :=
  match o with
  | Some s => s
  | None => "undefined"
  end.

(** The longest prefix of decimal digits, and what follows it. *)
Fixpoint span_digits (s : string) : string * string :=
  match s with
  | String c s' =>
      if is_digit c then let '(d, r) := span_digits s' in (String c d, r)
      else (EmptyString, s)
  | EmptyString => (EmptyString, EmptyString)
  end.

Fixpoint digits_value (acc : Z) (s : string) : Z :=
  match s with
  | String c s' => digits_value (10 * acc + digit_val c) s'
  | EmptyString => acc
  end.

Definition hex_val (c : ascii) : option Z :=
  let n := Z.of_N (N_of_ascii c) in
  if (48 <=? n) && (n <=? 57) then Some (n - 48)
  else if (65 <=? n) && (n <=? 70) then Some (n - 55)
  else if (97 <=? n) && (n <=? 102) then Some (n - 87)
  else None.

(** Value of the longest prefix of hexadecimal digits; [None] if empty. *)
Fixpoint hex_value (acc : option Z) (s : string) : option Z :=
  match s with
  | String c s' =>
      match hex_val c with
      | Some d => hex_value (Some (16 * match acc with Some a => a | None => 0 end + d)) s'
      | None => acc
      end
  | EmptyString => acc
  end.

Definition strip_sign (s : string) : bool * string :=
  match s with
  | String "-" s' => (true, s')
  | String "+" s' => (false, s')
  | _ => (false, s)
  end.

(** The integer spelled at the head of an unsigned string: hexadecimal
    after the prefix 0x or 0X, decimal otherwise; [None] if there is no
    digit. *)
Definition magnitude (s : string) : option Z :=
  match s with
  | String "0" (String "x" s') | String "0" (String "X" s') => hex_value None s'
  | _ =>
      let '(d, _) := span_digits s in
      match d with
      | EmptyString => None
      | _ => Some (digits_value 0 d)
      end
  end.

(** [parseInt(s)] without a radix.  The result is an integral Number or NaN
    ([None]); the integer is kept exact, and -0 is read as 0. *)
Definition parseInt (s : string) : option Z :=
  let '(neg, s) := strip_sign (trimStart s) in
  option_map (fun v => if neg then - v else v) (magnitude s).

(** The Number nearest to d * 10^x (ties to even). *)
Definition decimal_value (neg : bool) (d x : Z) : number :=
  match d with
  | Zpos p =>
      if 0 <=? x then binary_round prec emax neg (p * Z.to_pos (10 ^ x))%positive 0
      else SFdiv prec emax (S754_finite neg p 0)
                 (S754_finite false (Z.to_pos (10 ^ (- x))) 0)
  | _ => S754_zero neg
  end.

(** Value of the exponent part at the head of [s], 0 when there is none. *)
Definition exponent_part (s : string) : Z :=
  match s with
  | String c s' =>
      if (c =? "e")%char || (c =? "E")%char then
        let '(neg, s'') := strip_sign s' in
        let '(d, _) := span_digits s'' in
        match d with
        | EmptyString => 0
        | _ => let v := digits_value 0 d in if neg then - v else v
        end
      else 0
  | EmptyString => 0
  end.

(** [parseFloat(s)]: the value of the longest prefix of the trimmed string
    that is a decimal literal, NaN when there is none. *)
Definition parseFloat (s : string) : number :=
  let '(neg, s) := strip_sign (trimStart s) in
  if prefix "Infinity" s then S754_infinity neg
  else
    let '(ip, r) := span_digits s in
    let '(fp, r') :=
      match r with
      | String "." t => span_digits t
      | _ => (EmptyString, r)
      end in
    match ip, fp with
    | EmptyString, EmptyString => NaN
    | _, _ =>
        decimal_value neg (digits_value 0 (ip ++ fp))
                      (exponent_part r' - Z.of_nat (length fp))
    end.

End JS.

(** ** The monitor *)

Module Monitor.
Import JS.

(** *** Configuration (lines 15-24) *)

Definition CPU_THRESHOLD : Z := 90.
Definition MEM_THRESHOLD : Z := 90.
Definition SWAP_THRESHOLD : Z := 50.
Definition CPU_OVER_THRESHOLD_DURATION : Z := 5 * 60 * 1000.
Definition CHECK_INTERVAL : Z := 5 * 60 * 1000.
Definition ALERT_COOLDOWN : Z := 30 * 60 * 1000.

(** *** Data *)

Definition nl : string := String "010" EmptyString.

(** One row of [ps aux], as the process-list providers build it. *)
Record ProcessRecord := {
  user : string;
  pid : string;
  cpu : number;
  mem : number;
  vsz : string;
  rss : string;
  tty : string;
  stat : string;
  start : string;
  time : string;
  command : string
}.

(** The objects built from [free -h] and [df -h]: a field is undefined
    ([None]) when the line has too few columns. *)
Record MemoryInfo := {
  mem_total : option string;
  mem_used : option string;
  mem_free : option string;
  mem_shared : option string;
  mem_cache : option string;
  mem_available : option string
}.

Record SwapInfo := {
  swap_total : option string;
  swap_used : option string;
  swap_free : option string
}.

Record LoadInfo := {
  load_1min : number;
  load_5min : number;
  load_15min : number
}.

Record DiskInfo := {
  filesystem : option string;
  size : option string;
  disk_used : option string;
  disk_available : option string;
  usagePercent : option string;
  mountpoint : option string
}.

Record Field := {
  field_title : string;
  field_value : string;
  short : bool
}.

(** An alert descriptor, as pushed on [alerts]; [fields] may be missing
    when [sendSlackAlert] is called directly. *)
Record Alert := {
  title : string;
  value : string;
  fields : option (list Field)
}.

Record Attachment := {
  color : string;
  att_title : string;
  text : string;
  att_fields : list Field;
  ts : Z
}.

Record Message := {
  msg_text : string;
  attachments : list Attachment
}.

(** *** The outside world

    What a call into the operating system, the file system or the network
    does: it returns, or it throws an error with a message. *)

Inductive outcome (A : Type) : Type :=
| Returns (a : A)
| Throws (message : string).
Arguments Returns {A} a.
Arguments Throws {A} message.

(** The places where the monitor runs a command. *)
Inductive site :=
| at_cpu | at_top_cpu | at_mem | at_free_mem | at_top_mem
| at_swap | at_free_swap | at_load | at_uptime | at_disk.

(** Everything the outside world answers during one run of
    [checkSystemHealth]: what [execSync] does with a command at each place
    (each place is reached at most once in a check), the host name, the
    clock readings, and whether the file system and the webhook fail. *)
Record Env := {
  SLACK_WEBHOOK_URL : string;
  exec : site -> string -> outcome string;
  hostname : string;
  clock_check : Z;          (* Date.now() on line 265 *)
  clock_attach : nat -> Z;  (* Date.now() for the attachment at an index *)
  clock_write : Z;          (* Date.now() on line 209 *)
  read_error : option string;   (* fs.readFileSync throws with this message *)
  write_error : option string;  (* fs.writeFileSync throws with this message *)
  post_error : option string    (* axios.post rejects with this message *)
}.

Inductive stream := stdout | stderr.

(** The state the monitor acts on: the module variable
    [cpuOverThresholdSince], the file [LAST_ALERT_FILE] ([None] while it does
    not exist), the console, and the requests handed to [axios.post]. *)
Record World := {
  cpuOverThresholdSince : option Z;
  last_alert_file : option string;
  console : list (stream * string);
  posted : list (string * Message)
}.

(** *** Effects

    A computation reads the environment, updates the world, and either
    returns a value or throws; what it did to the world before throwing
    stays done. *)

Inductive result (A : Type) : Type :=
| Ok (a : A)
| Thrown (message : string).
Arguments Ok {A} a.
Arguments Thrown {A} message.

Definition M (A : Type) : Type := Env -> World -> result A * World.

Definition ret {A} (a : A) : M A := fun _ w => (Ok a, w).

Definition bind {A B} (m : M A) (k : A -> M B) : M B :=
  fun env w =>
    match m env w with
    | (Ok a, w') => k a env w'
    | (Thrown e, w') => (Thrown e, w')
    end.

Definition throw {A} (e : string) : M A := fun _ w => (Thrown e, w).

Definition try_catch {A} (body : M A) (handler : string -> M A) : M A :=
  fun env w =>
    match body env w with
    | (Ok a, w') => (Ok a, w')
    | (Thrown e, w') => handler e env w'
    end.

Declare Scope monitor_scope.
Delimit Scope monitor_scope with monitor.
Notation "x <- m ;; k" := (bind m (fun x => k))
  (at level 100, m at next level, right associativity) : monitor_scope.
Notation "m ;; k" := (bind m (fun _ => k))
  (at level 100, right associativity) : monitor_scope.
Local Open Scope monitor_scope.

Definition ask {A} (f : Env -> A) : M A := fun env w => (Ok (f env), w).

Definition call {A} (f : Env -> outcome A) : M A :=
  fun env w =>
    match f env with
    | Returns a => (Ok a, w)
    | Throws e => (Thrown e, w)
    end.

Definition execSync (place : site) (command : string) : M string :=
  call (fun env => exec env place command).

Definition console_write (s : stream) (line : string) : M unit :=
  fun _ w =>
    (Ok tt, {| cpuOverThresholdSince := cpuOverThresholdSince w;
               last_alert_file := last_alert_file w;
               console := console w ++ [(s, line)];
               posted := posted w |}).

Definition console_log : string -> M unit := console_write stdout.
Definition console_error : string -> M unit := console_write stderr.

Definition get_cpuOverThresholdSince : M (option Z) :=
  fun _ w => (Ok (cpuOverThresholdSince w), w).

Definition set_cpuOverThresholdSince (v : option Z) : M unit :=
  fun _ w =>
    (Ok tt, {| cpuOverThresholdSince := v;
               last_alert_file := last_alert_file w;
               console := console w;
               posted := posted w |}).

Definition fs_existsSync : M bool :=
  fun _ w => (Ok (match last_alert_file w with Some _ => true | None => false end), w).

Definition fs_readFileSync : M string :=
  fun env w =>
    match read_error env, last_alert_file w with
    | Some e, _ => (Thrown e, w)
    | None, Some content => (Ok content, w)
    | None, None => (Thrown "ENOENT: no such file or directory", w)
    end.

Definition fs_writeFileSync (content : string) : M unit :=
  fun env w =>
    match write_error env with
    | Some e => (Thrown e, w)
    | None =>
        (Ok tt, {| cpuOverThresholdSince := cpuOverThresholdSince w;
                   last_alert_file := Some content;
                   console := console w;
                   posted := posted w |})
    end.

(** [await axios.post(url, message)]: the request goes out, then the
    promise resolves or rejects.  The continuation of [sendSlackAlert] is run
    in place, that is, the request settles before the next check starts. *)
Definition axios_post (url : string) (message : Message) : M unit :=
  fun env w =>
    let w' := {| cpuOverThresholdSince := cpuOverThresholdSince w;
                 last_alert_file := last_alert_file w;
                 console := console w;
                 posted := posted w ++ [(url, message)] |} in
    match post_error env with
    | Some e => (Thrown e, w')
    | None => (Ok tt, w')
    end.

(** *** Metric providers (lines 26-193) *)

Definition cpu_command : string :=
  "top -bn1 | grep 'Cpu(s)' | awk '{print $2 + $4}'".
Definition mem_command : string :=
  "free | grep Mem | awk '{print $3/$2 * 100.0}'".
Definition swap_command : string :=
  "free | grep Swap | awk '{if ($2==0) print 0; else print $3/$2 * 100.0}'".
Definition top_command (column : string) (limit : Z) : string :=
  "ps aux --sort=-%" ++ column ++ " | head -" ++ int_toString (limit + 1) ++
  " | tail -" ++ int_toString limit.

Definition getCpuUsage : M (option number) :=
  try_catch
    (output <- execSync at_cpu cpu_command ;;
     ret (Some (parseFloat (trim output))))
    (fun error =>
       console_error ("Error getting CPU usage: " ++ error) ;;
       ret None).

(** The callback of [map] in the process-list providers: a row of at least
    11 columns becomes a record, anything else null. *)
Definition processOfLine (line : string) : option ProcessRecord :=
  let parts := split_spaces (trim line) in
  if (11 <=? List.length parts)%nat then
    Some {| user := nth 0 parts "";
            pid := nth 1 parts "";
            cpu := parseFloat (nth 2 parts "");
            mem := parseFloat (nth 3 parts "");
            vsz := nth 4 parts "";
            rss := nth 5 parts "";
            tty := nth 6 parts "";
            stat := nth 7 parts "";
            start := nth 8 parts "";
            time := nth 9 parts "";
            command := concat " " (skipn 10 parts) |}
  else None.

(** [.filter(Boolean)] on an array of objects and nulls. *)
Fixpoint compact {A} (l : list (option A)) : list A :=
  match l with
  | [] => []
  | Some a :: l' => a :: compact l'
  | None :: l' => compact l'
  end.

Definition processesOf (output : string) : list ProcessRecord :=
  compact (map processOfLine (split_on "010" (trim output))).

Definition getTopCpuProcesses (limit : Z) : M (list ProcessRecord) :=
  try_catch
    (output <- execSync at_top_cpu (top_command "cpu" limit) ;;
     ret (processesOf output))
    (fun error =>
       console_error ("Error getting top CPU processes: " ++ error) ;;
       ret []).

Definition getMemUsage : M (option number) :=
  try_catch
    (output <- execSync at_mem mem_command ;;
     ret (Some (parseFloat (trim output))))
    (fun error =>
       console_error ("Error getting memory usage: " ++ error) ;;
       ret None).

(** The message of the TypeError for [undefined.trim()], thrown when the
    output of [free -h] has no such line. *)
Definition no_line : string :=
  "Cannot read properties of undefined (reading 'trim')".

Definition memoryInfoOf (memLine : string) : MemoryInfo :=
  let parts := split_spaces (trim memLine) in
  {| mem_total := nth_error parts 1;
     mem_used := nth_error parts 2;
     mem_free := nth_error parts 3;
     mem_shared := nth_error parts 4;
     mem_cache := nth_error parts 5;
     mem_available := nth_error parts 6 |}.

Definition getDetailedMemoryInfo : M (option MemoryInfo) :=
  try_catch
    (freeOutput <- execSync at_free_mem "free -h" ;;
     match nth_error (split_on "010" freeOutput) 1 with
     | Some memLine => ret (Some (memoryInfoOf memLine))
     | None => throw no_line
     end)
    (fun error =>
       console_error ("Error getting detailed memory info: " ++ error) ;;
       ret None).

Definition getTopMemoryProcesses (limit : Z) : M (list ProcessRecord) :=
  try_catch
    (output <- execSync at_top_mem (top_command "mem" limit) ;;
     ret (processesOf output))
    (fun error =>
       console_error ("Error getting top memory processes: " ++ error) ;;
       ret []).

Definition getSwapUsage : M (option number) :=
  try_catch
    (output <- execSync at_swap swap_command ;;
     ret (Some (parseFloat (trim output))))
    (fun error =>
       console_error ("Error getting swap usage: " ++ error) ;;
       ret None).

Definition swapInfoOf (swapLine : string) : SwapInfo :=
  let parts := split_spaces (trim swapLine) in
  {| swap_total := nth_error parts 1;
     swap_used := nth_error parts 2;
     swap_free := nth_error parts 3 |}.

Definition getDetailedSwapInfo : M (option SwapInfo) :=
  try_catch
    (freeOutput <- execSync at_free_swap "free -h" ;;
     match nth_error (split_on "010" freeOutput) 2 with
     | Some swapLine => ret (Some (swapInfoOf swapLine))
     | None => throw no_line
     end)
    (fun error =>
       console_error ("Error getting detailed swap info: " ++ error) ;;
       ret None).

(** The longest prefix of digits and points, and what follows it. *)
Fixpoint span_load (s : string) : string * string :=
  match s with
  | String c s' =>
      if is_digit c || (c =? ".")%char
      then let '(d, r) := span_load s' in (String c d, r)
      else (EmptyString, s)
  | EmptyString => (EmptyString, EmptyString)
  end.

(** The three groups of [([\d.]+), ([\d.]+), ([\d.]+)] at the head of a
    string.  A group is a longest run: a shorter one would be followed by a
    digit or a point, not by the comma. *)
Definition load_groups (s : string) : option (string * string * string) :=
  let '(g1, r1) := span_load s in
  let '(g2, r2) := span_load (drop 2 r1) in
  let '(g3, _) := span_load (drop 2 r2) in
  match g1, g2, g3 with
  | String _ _, String _ _, String _ _ =>
      if prefix ", " r1 && prefix ", " r2 then Some (g1, g2, g3) else None
  | _, _, _ => None
  end.

(** [output.match(/load average: ([\d.]+), ([\d.]+), ([\d.]+)/)]: the
    groups of the leftmost match. *)
Fixpoint match_load (s : string) : option (string * string * string) :=
  match (if prefix "load average: " s then load_groups (drop 14 s) else None) with
  | Some groups => Some groups
  | None =>
      match s with
      | String _ s' => match_load s'
      | EmptyString => None
      end
  end.

Definition getSystemLoad : M (option LoadInfo) :=
  try_catch
    (output <- execSync at_load "uptime" ;;
     ret (match match_load output with
          | Some (g1, g2, g3) =>
              Some {| load_1min := parseFloat g1;
                      load_5min := parseFloat g2;
                      load_15min := parseFloat g3 |}
          | None => None
          end))
    (fun error =>
       console_error ("Error getting system load: " ++ error) ;;
       ret None).

Definition getUptime : M (option string) :=
  try_catch
    (output <- execSync at_uptime "uptime -p" ;;
     ret (Some (trim output)))
    (fun error =>
       console_error ("Error getting uptime: " ++ error) ;;
       ret None).

Definition diskInfoOf (output : string) : DiskInfo :=
  let parts := split_spaces (trim output) in
  {| filesystem := nth_error parts 0;
     size := nth_error parts 1;
     disk_used := nth_error parts 2;
     disk_available := nth_error parts 3;
     usagePercent := nth_error parts 4;
     mountpoint := nth_error parts 5 |}.

Definition getDiskUsage : M (option DiskInfo) :=
  try_catch
    (output <- execSync at_disk "df -h / | tail -1" ;;
     ret (Some (diskInfoOf output)))
    (fun error =>
       console_error ("Error getting disk usage: " ++ error) ;;
       ret None).

(** *** Persistence of the last alert time (lines 195-213) *)

Definition getLastAlertTime : M (option Z) :=
  try_catch
    (present <- fs_existsSync ;;
     if (present : bool) then
       timestamp <- fs_readFileSync ;;
       ret (parseInt timestamp)
     else ret (Some 0))
    (fun error =>
       console_error ("Error reading last alert time: " ++ error) ;;
       ret (Some 0)).

Definition setLastAlertTime : M unit :=
  try_catch
    (now <- ask clock_write ;;
     fs_writeFileSync (int_toString now))
    (fun error =>
       console_error ("Error writing last alert time: " ++ error)).

(** *** The process list formatter (lines 215-222) *)

Fixpoint mapi_from {A B} (i : nat) (f : nat -> A -> B) (l : list A) : list B :=
  match l with
  | [] => []
  | a :: l' => f i a :: mapi_from (S i) f l'
  end.

Definition mapi {A B} (f : nat -> A -> B) (l : list A) : list B :=
  mapi_from 0 f l.

Definition shortCommand (proc : ProcessRecord) : string :=
  if (50 <? length (command proc))%nat
  then substring 0 47 (command proc) ++ "..."
  else command proc.

Definition formatProcess (type : string) (index : nat) (proc : ProcessRecord) : string :=
  int_toString (Z.of_nat index + 1) ++ ". *" ++ shortCommand proc ++ "*" ++ nl ++
  "   PID: " ++ pid proc ++ " | User: " ++ user proc ++ " | " ++
  (if (type =? "cpu")%string
   then "CPU: " ++ toString (cpu proc) ++ "%"
   else "Memory: " ++ toString (mem proc) ++ "%") ++
  " | RSS: " ++ rss proc.

Definition formatProcessList (processes : option (list ProcessRecord))
    (type : string) : string :=
  match processes with
  | None | Some [] => "No processes found"
  | Some procs => concat nl (mapi (formatProcess type) procs)
  end.

(** *** Composing and sending the alert (lines 224-255) *)

Definition attachment_of (env : Env) (index : nat) (alert : Alert) : Attachment :=
  {| color := "danger";
     att_title := title alert;
     text := value alert;
     att_fields := match fields alert with Some fs => fs | None => [] end;
     ts := clock_attach env index / 1000 |}.

Definition sendSlackAlert (alerts : list Alert) : M unit :=
  hostname <- ask hostname ;;
  uptime <- getUptime ;;
  load <- getSystemLoad ;;
  disk <- getDiskUsage ;;
  let messageText := "🚨 *System Health Alert on " ++ hostname ++ "*" in
  let messageText :=
    match uptime with
    | Some (String c u) => messageText ++ nl ++ "⏰ Uptime: " ++ String c u
    | _ => messageText
    end in
  let messageText :=
    match load with
    | Some load =>
        messageText ++ nl ++ "📊 Load: " ++ toString (load_1min load) ++ " (1m), " ++
        toString (load_5min load) ++ " (5m), " ++ toString (load_15min load) ++ " (15m)"
    | None => messageText
    end in
  let messageText :=
    match disk with
    | Some disk =>
        messageText ++ nl ++ "💾 Root Disk: " ++ template (disk_used disk) ++ "/" ++
        template (size disk) ++ " (" ++ template (usagePercent disk) ++ ")"
    | None => messageText
    end in
  attachments <- ask (fun env => mapi (attachment_of env) alerts) ;;
  let message := {| msg_text := messageText; attachments := attachments |} in
  try_catch
    (url <- ask SLACK_WEBHOOK_URL ;;
     axios_post url message ;;
     console_log ("Slack alert sent: " ++ concat ", " (map title alerts)) ;;
     setLastAlertTime)
    (fun error =>
       console_error ("Error sending Slack message: " ++ error)).

(** *** The health check (lines 257-361) *)

Definition CPU_TITLE : string := "🚀 High CPU Usage Detected".
Definition MEM_TITLE : string := "🧠 High Memory Usage Detected".
Definition SWAP_TITLE : string := "💾 High Swap Usage Detected".

(** [cpu !== null && cpu >= threshold] *)
Definition over (sample : option number) (threshold : Z) : bool :=
  match sample with
  | Some x => ge x (of_Z threshold)
  | None => false
  end.

(** [!cpuOverThresholdSince]: null and 0 are falsy. *)
Definition unset (since : option Z) : bool :=
  match since with
  | Some t => t =? 0
  | None => true
  end.

(** The value of [cpuOverThresholdSince] in arithmetic: null counts as 0. *)
Definition since_value (since : option Z) : Z :=
  match since with
  | Some t => t
  | None => 0
  end.

(** [(ms / 60000).toFixed(1)] *)
Definition minutes (ms : Z) : string := toFixed (div (of_Z ms) (of_Z 60000)) 1.

Definition cpuAlert (cpu : number) (elapsed : Z) (processDetails : string) : Alert :=
  {| title := CPU_TITLE;
     value :=
       "*Current CPU Usage: " ++ toFixed cpu 1 ++ "%*" ++ nl ++
       "*Threshold: " ++ int_toString CPU_THRESHOLD ++ "%*" ++ nl ++
       "*Duration: " ++ minutes elapsed ++ " minutes*" ++ nl ++ nl ++
       "*Top CPU Processes:*" ++ nl ++ processDetails;
     fields := Some
       [ {| field_title := "System Impact";
            field_value := "High CPU usage can cause system slowdown, increased response times, and potential service degradation.";
            short := false |} ] |}.

Definition memAlert (mem : number) (detailedMem : option MemoryInfo)
    (processDetails : string) : Alert :=
  let memoryDetails :=
    "*Current Memory Usage: " ++ toFixed mem 1 ++ "%*" ++ nl ++
    "*Threshold: " ++ int_toString MEM_THRESHOLD ++ "%*" in
  let memoryDetails :=
    match detailedMem with
    | Some d =>
        memoryDetails ++ nl ++ "*Memory Breakdown:*" ++ nl ++
        "• Total: " ++ template (mem_total d) ++ nl ++
        "• Used: " ++ template (mem_used d) ++ nl ++
        "• Available: " ++ template (mem_available d) ++ nl ++
        "• Cache: " ++ template (mem_cache d)
    | None => memoryDetails
    end in
  let memoryDetails :=
    memoryDetails ++ nl ++ nl ++ "*Top Memory Processes:*" ++ nl ++ processDetails in
  {| title := MEM_TITLE;
     value := memoryDetails;
     fields := Some
       [ {| field_title := "Memory Status";
            field_value :=
              match detailedMem with
              | Some d =>
                  "Used: " ++ template (mem_used d) ++ " | Available: " ++
                  template (mem_available d) ++ " | Cache: " ++ template (mem_cache d)
              | None => "Memory details unavailable"
              end;
            short := true |};
         {| field_title := "Potential Issues";
            field_value := "High memory usage may lead to swapping, system slowdown, and potential out-of-memory errors.";
            short := false |} ] |}.

Definition swapAlert (swap : number) (detailedSwap : option SwapInfo) : Alert :=
  let swapDetails :=
    "*Current Swap Usage: " ++ toFixed swap 1 ++ "%*" ++ nl ++
    "*Threshold: " ++ int_toString SWAP_THRESHOLD ++ "%*" in
  let swapDetails :=
    match detailedSwap with
    | Some d =>
        swapDetails ++ nl ++ "*Swap Breakdown:*" ++ nl ++
        "• Total: " ++ template (swap_total d) ++ nl ++
        "• Used: " ++ template (swap_used d) ++ nl ++
        "• Free: " ++ template (swap_free d)
    | None => swapDetails
    end in
  {| title := SWAP_TITLE;
     value := swapDetails;
     fields := Some
       [ {| field_title := "Swap Status";
            field_value :=
              match detailedSwap with
              | Some d =>
                  "Used: " ++ template (swap_used d) ++ " | Free: " ++
                  template (swap_free d)
              | None => "Swap details unavailable"
              end;
            short := true |};
         {| field_title := "Performance Impact";
            field_value := "High swap usage indicates memory pressure and will significantly slow down system performance.";
            short := false |} ] |}.

(** Lines 267-292: the CPU branch; returns what it pushes on [alerts]. *)
Definition checkCpu (cpu : option number) (now : Z) : M (list Alert) :=
  match cpu with
  | Some c =>
      if ge c (of_Z CPU_THRESHOLD) then
        since <- get_cpuOverThresholdSince ;;
        (if unset since then set_cpuOverThresholdSince (Some now) else ret tt) ;;
        since <- get_cpuOverThresholdSince ;;
        if CPU_OVER_THRESHOLD_DURATION <=? now - since_value since then
          topProcesses <- getTopCpuProcesses 8 ;;
          let processDetails := formatProcessList (Some topProcesses) "cpu" in
          ret [cpuAlert c (now - since_value since) processDetails]
        else
          console_log ("CPU over threshold, but not for 5 minutes yet (" ++
                       minutes (now - since_value since) ++ " min)") ;;
          ret []
      else
        set_cpuOverThresholdSince None ;;
        ret []
  | None =>
      set_cpuOverThresholdSince None ;;
      ret []
  end.

(** Lines 294-323: the memory branch. *)
Definition checkMem (mem : option number) : M (list Alert) :=
  match mem with
  | Some m =>
      if ge m (of_Z MEM_THRESHOLD) then
        detailedMem <- getDetailedMemoryInfo ;;
        topProcesses <- getTopMemoryProcesses 8 ;;
        let processDetails := formatProcessList (Some topProcesses) "memory" in
        ret [memAlert m detailedMem processDetails]
      else ret []
  | None => ret []
  end.

(** Lines 325-349: the swap branch. *)
Definition checkSwap (swap : option number) : M (list Alert) :=
  match swap with
  | Some s =>
      if ge s (of_Z SWAP_THRESHOLD) then
        detailedSwap <- getDetailedSwapInfo ;;
        ret [swapAlert s detailedSwap]
      else ret []
  | None => ret []
  end.

(** Lines 261-349: sampling and threshold evaluation; returns [now] and the
    array [alerts] as it stands on line 350. *)
Definition evaluateThresholds : M (Z * list Alert) :=
  cpu <- getCpuUsage ;;
  mem <- getMemUsage ;;
  swap <- getSwapUsage ;;
  now <- ask clock_check ;;
  cpuAlerts <- checkCpu cpu now ;;
  memAlerts <- checkMem mem ;;
  swapAlerts <- checkSwap swap ;;
  ret (now, (cpuAlerts ++ memAlerts ++ swapAlerts)%list).

(** [now - lastAlertTime >= ALERT_COOLDOWN]; false when the time is NaN. *)
Definition cooldown_over (now : Z) (lastAlertTime : option Z) : bool :=
  match lastAlertTime with
  | Some t => ALERT_COOLDOWN <=? now - t
  | None => false
  end.

(** Lines 351-360: the cooldown gate. *)
Definition dispatch (now : Z) (alerts : list Alert) : M unit :=
  match alerts with
  | _ :: _ =>
      lastAlertTime <- getLastAlertTime ;;
      if cooldown_over now lastAlertTime then sendSlackAlert alerts
      else console_log "Alert(s) detected, but cooldown still active."
  | [] => console_log "System health OK."
  end.

Definition checkSystemHealth : M unit :=
  r <- evaluateThresholds ;;
  dispatch (fst r) (snd r).

(** The monitor over time: one environment per tick of the interval timer
    (lines 375-376), each check run to its end before the next. *)
Fixpoint run (envs : list Env) (w : World) : World :=
  match envs with
  | [] => w
  | env :: envs' => run envs' (snd (checkSystemHealth env w))
  end.

(** The world when the monitor starts (line 258), for a given content of
    the last-alert file. *)
Definition initial (file : option string) : World :=
  {| cpuOverThresholdSince := None;
     last_alert_file := file;
     console := [];
     posted := [] |}.

End Monitor.

(** ** Starting and stopping the monitor

    The script part of [system-health-monitor.js] (lines 363-381): the guard
    on the webhook URL, the banner, the first check, and the handler of
    SIGINT.  The interval timer of line 376 is [run]. *)

Module Startup.
Import JS Monitor.
Local Open Scope monitor_scope.

Definition PLACEHOLDER : string := "YOUR_SLACK_WEBHOOK_URL_HERE".

(** [!SLACK_WEBHOOK_URL || SLACK_WEBHOOK_URL === 'YOUR_SLACK_WEBHOOK_URL_HERE']
    for the value of [process.env.SLACK_WEBHOOK_URL], which is a string or
    undefined ([None]); undefined and the empty string are falsy. *)
Definition unconfigured (url : option string) : bool :=
  match url with
  | None => true
  | Some EmptyString => true
  | Some u => (u =? PLACEHOLDER)%string
  end.

(** [ms / 1000 / 60] in a template literal. *)
Definition in_minutes (ms : Z) : string :=
  toString (div (div (of_Z ms) (of_Z 1000)) (of_Z 60)).

(** Lines 363-375.  The result is the code of [process.exit], or [None]
    when the process goes on to the interval timer.  In a process that goes
    on, the constant [SLACK_WEBHOOK_URL] of the environment is the string
    [url]. *)
Definition start (url : option string) : M (option Z) :=
  if unconfigured url then
    console_error "Please set your Slack webhook URL in the SLACK_WEBHOOK_URL variable" ;;
    ret (Some 1)
  else
    console_log "☀️☀️☀️ System health monitor started" ;;
    console_log ("Checking every " ++ in_minutes CHECK_INTERVAL ++ " minutes") ;;
    console_log ("CPU threshold: " ++ int_toString CPU_THRESHOLD ++ "%") ;;
    console_log ("Memory threshold: " ++ int_toString MEM_THRESHOLD ++ "%") ;;
    console_log ("Swap threshold: " ++ int_toString SWAP_THRESHOLD ++ "%") ;;
    console_log ("Alert cooldown: " ++ in_minutes ALERT_COOLDOWN ++ " minutes") ;;
    checkSystemHealth ;;
    ret None.

(** Lines 378-381. *)
Definition on_SIGINT : M (option Z) :=
  console_log (nl ++ "System health monitor stopped") ;;
  ret (Some 0).

(** The process from its start to the last of the given ticks of the
    timer: the exit code, if it exited, and the world it leaves.  An
    exception that nothing catches ends a process with code 1. *)
Definition monitor (url : option string) (first : Env) (ticks : list Env)
    (w : World) : option Z * World :=
  match start url first w with
  | (Ok None, w') => (None, run ticks w')
  | (Ok (Some code), w') => (Some code, w')
  | (Thrown _, w') => (Some 1, w')
  end.

End Startup.

(** ** Dates

    [Date.prototype.toISOString] on a time value, that is on a number of
    milliseconds since the epoch of magnitude at most 8.64e15: the day
    number and the time within the day, the year as the last one that
    starts on or before the day, the month and the date from the day within
    the year, as ECMAScript defines them. *)

Module JSDate.
Import JS.

Definition msPerDay : Z := 86400000.

Definition Day (t : Z) : Z := t / msPerDay.
Definition TimeWithinDay (t : Z) : Z := t mod msPerDay.

Definition DayFromYear (y : Z) : Z :=
  365 * (y - 1970) + (y - 1969) / 4 - (y - 1901) / 100 + (y - 1601) / 400.

Definition InLeapYear (y : Z) : Z :=
  if (y mod 4 =? 0) && (negb (y mod 100 =? 0) || (y mod 400 =? 0)) then 1 else 0.

(** The last year that starts on or before [day], searched upwards from a
    year that does. *)
Fixpoint year_from (fuel : nat) (day y : Z) : Z :=
  match fuel with
  | O => y
  | S fuel' => if DayFromYear (y + 1) <=? day then year_from fuel' day (y + 1) else y
  end.

Definition YearFromDay (day : Z) : Z :=
  year_from 1000 day (1970 + (if 0 <=? day then day / 366 else day / 365)).

(** The day within the year on which each month starts. *)
Definition month_starts (leap : Z) : list Z :=
  [0; 31; 59 + leap; 90 + leap; 120 + leap; 151 + leap; 181 + leap;
   212 + leap; 243 + leap; 273 + leap; 304 + leap; 334 + leap].

(** The month, from 0, and the date, from 1, of a day within the year. *)
Fixpoint month_and_date (starts : list Z) (month : Z) (d : Z) : Z * Z :=
  match starts with
  | s :: ((s' :: _) as rest) =>
      if d <? s' then (month, d - s + 1) else month_and_date rest (month + 1) d
  | [s] => (month, d - s + 1)
  | [] => (month, d + 1)
  end.

Definition pad (width : nat) (n : Z) : string :=
  let d := decimal n in zeros (width - length d) ++ d.

Definition year_text (y : Z) : string :=
  if (0 <=? y) && (y <=? 9999) then pad 4 y
  else (if y <? 0 then "-" else "+") ++ pad 6 (Z.abs y).

Definition toISOString (t : Z) : string :=
  let day := Day t in
  let y := YearFromDay day in
  let '(m, d) := month_and_date (month_starts (InLeapYear y)) 0 (day - DayFromYear y) in
  let ms := TimeWithinDay t in
  year_text y ++ "-" ++ pad 2 (m + 1) ++ "-" ++ pad 2 d ++ "T" ++
  pad 2 (ms / 3600000) ++ ":" ++ pad 2 (ms / 60000 mod 60) ++ ":" ++
  pad 2 (ms / 1000 mod 60) ++ "." ++ pad 3 (ms mod 1000) ++ "Z".

End JSDate.

(** ** The disk monitor

    [disk-monitor.js]: a second poller, of the usage of the root file
    system alone, with a last-alert file and a cooldown of its own. *)

Module DiskMonitor.
Import JS JSDate.

(** *** Configuration (lines 33-40) *)

Definition DISK_THRESHOLD : Z := 80.
Definition CHECK_INTERVAL : Z := 5 * 60 * 1000.
Definition ALERT_COOLDOWN : Z := 30 * 60 * 1000.

(** *** Data *)

Record Field := {
  title : string;
  value : string;
  short : bool
}.

Record Attachment := {
  color : string;
  fields : list Field
}.

Record Message := {
  text : string;
  attachments : list Attachment
}.

(** *** The outside world and the effects

    As for the health monitor: what the outside world answers during one
    run of [checkDiskUsage], and the state the monitor acts on, which is
    its last-alert file, the console and the requests made. *)

Record Env := {
  SLACK_WEBHOOK_URL : string;
  exec : string -> Monitor.outcome string;  (* execSync on line 47 *)
  hostname : string;
  clock_check : Z;    (* Date.now() on line 139 *)
  clock_message : Z;  (* new Date() on line 106 *)
  clock_write : Z;    (* Date.now() on line 73 *)
  read_error : option string;
  write_error : option string;
  post_error : option string
}.

Record World := {
  last_alert_file : option string;
  console : list (Monitor.stream * string);
  posted : list (string * Message)
}.

Definition M (A : Type) : Type := Env -> World -> Monitor.result A * World.

Definition ret {A} (a : A) : M A := fun _ w => (Monitor.Ok a, w).

Definition bind {A B} (m : M A) (k : A -> M B) : M B :=
  fun env w =>
    match m env w with
    | (Monitor.Ok a, w') => k a env w'
    | (Monitor.Thrown e, w') => (Monitor.Thrown e, w')
    end.

Definition try_catch {A} (body : M A) (handler : string -> M A) : M A :=
  fun env w =>
    match body env w with
    | (Monitor.Ok a, w') => (Monitor.Ok a, w')
    | (Monitor.Thrown e, w') => handler e env w'
    end.

Declare Scope disk_scope.
Delimit Scope disk_scope with disk.
Notation "x <- m ;; k" := (bind m (fun x => k))
  (at level 100, m at next level, right associativity) : disk_scope.
Notation "m ;; k" := (bind m (fun _ => k))
  (at level 100, right associativity) : disk_scope.
Local Open Scope disk_scope.

Definition ask {A} (f : Env -> A) : M A := fun env w => (Monitor.Ok (f env), w).

Definition execSync (command : string) : M string :=
  fun env w =>
    match exec env command with
    | Monitor.Returns a => (Monitor.Ok a, w)
    | Monitor.Throws e => (Monitor.Thrown e, w)
    end.

Definition console_write (s : Monitor.stream) (line : string) : M unit :=
  fun _ w =>
    (Monitor.Ok tt, {| last_alert_file := last_alert_file w;
                       console := console w ++ [(s, line)];
                       posted := posted w |}).

Definition console_log : string -> M unit := console_write Monitor.stdout.
Definition console_error : string -> M unit := console_write Monitor.stderr.

Definition fs_existsSync : M bool :=
  fun _ w =>
    (Monitor.Ok (match last_alert_file w with Some _ => true | None => false end), w).

Definition fs_readFileSync : M string :=
  fun env w =>
    match read_error env, last_alert_file w with
    | Some e, _ => (Monitor.Thrown e, w)
    | None, Some content => (Monitor.Ok content, w)
    | None, None => (Monitor.Thrown "ENOENT: no such file or directory", w)
    end.

Definition fs_writeFileSync (content : string) : M unit :=
  fun env w =>
    match write_error env with
    | Some e => (Monitor.Thrown e, w)
    | None =>
        (Monitor.Ok tt, {| last_alert_file := Some content;
                           console := console w;
                           posted := posted w |})
    end.

(** [await axios.post(url, message)], the continuation run in place. *)
Definition axios_post (url : string) (message : Message) : M unit :=
  fun env w =>
    let w' := {| last_alert_file := last_alert_file w;
                 console := console w;
                 posted := posted w ++ [(url, message)] |} in
    match post_error env with
    | Some e => (Monitor.Thrown e, w')
    | None => (Monitor.Ok tt, w')
    end.

(** *** The monitor (lines 43-147) *)

Definition disk_command : string :=
  "df -h / | awk 'NR==2 {print $5}' | sed 's/%//'".

(** The usage is null ([None]) when the command fails, and otherwise what
    [parseInt] makes of the output: an integer, or NaN ([Some None]). *)
Definition getDiskUsage : M (option (option Z)) :=
  try_catch
    (output <- execSync disk_command ;;
     ret (Some (parseInt (trim output))))
    (fun error =>
       console_error ("Error getting disk usage: " ++ error) ;;
       ret None).

Definition getLastAlertTime : M (option Z) :=
  try_catch
    (present <- fs_existsSync ;;
     if (present : bool) then
       timestamp <- fs_readFileSync ;;
       ret (parseInt timestamp)
     else ret (Some 0))
    (fun error =>
       console_error ("Error reading last alert time: " ++ error) ;;
       ret (Some 0)).

Definition setLastAlertTime : M unit :=
  try_catch
    (now <- ask clock_write ;;
     fs_writeFileSync (int_toString now))
    (fun error =>
       console_error ("Error writing last alert time: " ++ error)).

(** An integral Number or NaN in a template literal. *)
Definition shown (n : option Z) : string :=
  match n with
  | Some z => int_toString z
  | None => "NaN"
  end.

Definition sendSlackAlert (diskUsage : option Z) : M unit :=
  hostname <- ask hostname ;;
  time <- ask (fun env => toISOString (clock_message env)) ;;
  let message :=
    {| text := "🚨 Disk Usage Alert";
       attachments :=
         [ {| color := "danger";
              fields :=
                [ {| title := "Server"; value := hostname; short := true |};
                  {| title := "Disk Usage"; value := shown diskUsage ++ "%";
                     short := true |};
                  {| title := "Threshold"; value := int_toString DISK_THRESHOLD ++ "%";
                     short := true |};
                  {| title := "Time"; value := time; short := true |} ] |} ] |} in
  try_catch
    (url <- ask SLACK_WEBHOOK_URL ;;
     axios_post url message ;;
     console_log ("Slack alert sent: Disk usage at " ++ shown diskUsage ++ "%") ;;
     setLastAlertTime)
    (fun error =>
       console_error ("Error sending Slack message: " ++ error)).

(** [diskUsage >= DISK_THRESHOLD]; false when the usage is NaN. *)
Definition over (diskUsage : option Z) : bool :=
  match diskUsage with
  | Some n => DISK_THRESHOLD <=? n
  | None => false
  end.

(** [now - lastAlertTime >= ALERT_COOLDOWN]; false when the time is NaN. *)
Definition cooldown_over (now : Z) (lastAlertTime : option Z) : bool :=
  match lastAlertTime with
  | Some t => ALERT_COOLDOWN <=? now - t
  | None => false
  end.

Definition checkDiskUsage : M unit :=
  diskUsage <- getDiskUsage ;;
  match diskUsage with
  | None => console_log "Could not retrieve disk usage"
  | Some diskUsage =>
      console_log ("Current disk usage: " ++ shown diskUsage ++ "%") ;;
      if over diskUsage then
        lastAlertTime <- getLastAlertTime ;;
        now <- ask clock_check ;;
        if cooldown_over now lastAlertTime then sendSlackAlert diskUsage
        else console_log "Disk usage over threshold, but alert cooldown still active"
      else ret tt
  end.

(** The monitor over time: one environment per tick of the interval timer
    (lines 163-164). *)
Fixpoint run (envs : list Env) (w : World) : World :=
  match envs with
  | [] => w
  | env :: envs' => run envs' (snd (checkDiskUsage env w))
  end.

Definition initial (file : option string) : World :=
  {| last_alert_file := file; console := []; posted := [] |}.

(** *** Starting and stopping (lines 150-169) *)

Definition PLACEHOLDER : string := "YOUR_SLACK_WEBHOOK_URL_HERE".

(** [!SLACK_WEBHOOK_URL || SLACK_WEBHOOK_URL === 'YOUR_SLACK_WEBHOOK_URL_HERE']
    for the value of [process.env.SLACK_WEBHOOK_URL]. *)
Definition unconfigured (url : option string) : bool :=
  match url with
  | None => true
  | Some EmptyString => true
  | Some u => (u =? PLACEHOLDER)%string
  end.

(** [ms / 1000 / 60] in a template literal. *)
Definition in_minutes (ms : Z) : string :=
  toString (div (div (of_Z ms) (of_Z 1000)) (of_Z 60)).

(** The code of [process.exit], or [None] when the process goes on to the
    interval timer. *)
Definition start (url : option string) : M (option Z) :=
  if unconfigured url then
    console_error "Please set your Slack webhook URL in the SLACK_WEBHOOK_URL variable" ;;
    ret (Some 1)
  else
    console_log "Disk usage monitor started" ;;
    console_log ("Checking every " ++ in_minutes CHECK_INTERVAL ++ " minutes") ;;
    console_log ("Alert threshold: " ++ int_toString DISK_THRESHOLD ++ "%") ;;
    console_log ("Alert cooldown: " ++ in_minutes ALERT_COOLDOWN ++ " minutes") ;;
    checkDiskUsage ;;
    ret None.

Definition on_SIGINT : M (option Z) :=
  console_log (String "010" "Disk monitor stopped") ;;
  ret (Some 0).

(** The process from its start to the last of the given ticks of the
    timer. *)
Definition monitor (url : option string) (first : Env) (ticks : list Env)
    (w : World) : option Z * World :=
  match start url first w with
  | (Monitor.Ok None, w') => (None, run ticks w')
  | (Monitor.Ok (Some code), w') => (Some code, w')
  | (Monitor.Thrown _, w') => (Some 1, w')
  end.

End DiskMonitor.

(** ** Vocabulary of the properties *)

Import JS Monitor.
Local Open Scope monitor_scope.

(** The metric snapshot of a check: what the three percentage providers
    return, [None] being the null of a failed provider (lemmas
    [getCpuUsage_run], [getMemUsage_run] and [getSwapUsage_run]). *)
Definition sample (o : outcome string) : option number :=
  match o with
  | Returns output => Some (parseFloat (trim output))
  | Throws _ => None
  end.

Definition exec_cpu (env : Env) : outcome string := exec env at_cpu cpu_command.
Definition exec_mem (env : Env) : outcome string := exec env at_mem mem_command.
Definition exec_swap (env : Env) : outcome string := exec env at_swap swap_command.

Definition cpuPercent (env : Env) : option number := sample (exec_cpu env).
Definition memPercent (env : Env) : option number := sample (exec_mem env).
Definition swapPercent (env : Env) : option number := sample (exec_swap env).

(** What the other providers of the evaluation return (lemmas
    [getTopCpuProcesses_run] and the like). *)
Definition topCpu (env : Env) (limit : Z) : list ProcessRecord :=
  match exec env at_top_cpu (top_command "cpu" limit) with
  | Returns output => processesOf output
  | Throws _ => []
  end.

Definition topMem (env : Env) (limit : Z) : list ProcessRecord :=
  match exec env at_top_mem (top_command "mem" limit) with
  | Returns output => processesOf output
  | Throws _ => []
  end.

Definition detailedMem (env : Env) : option MemoryInfo :=
  match exec env at_free_mem "free -h" with
  | Returns freeOutput =>
      option_map memoryInfoOf (nth_error (split_on "010" freeOutput) 1)
  | Throws _ => None
  end.

Definition detailedSwap (env : Env) : option SwapInfo :=
  match exec env at_free_swap "free -h" with
  | Returns freeOutput =>
      option_map swapInfoOf (nth_error (split_on "010" freeOutput) 2)
  | Throws _ => None
  end.

(** What [getLastAlertTime] returns in a world (lemma
    [getLastAlertTime_run]). *)
Definition lastAlertTime (env : Env) (w : World) : option Z :=
  match last_alert_file w with
  | None => Some 0
  | Some content =>
      match read_error env with
      | Some _ => Some 0
      | None => parseInt content
      end
  end.

(** The world with more lines on the console, and with another value of
    [cpuOverThresholdSince]. *)
Definition logs (w : World) (lines : list (stream * string)) : World :=
  {| cpuOverThresholdSince := cpuOverThresholdSince w;
     last_alert_file := last_alert_file w;
     console := console w ++ lines;
     posted := posted w |}.

Definition with_since (w : World) (since : option Z) : World :=
  {| cpuOverThresholdSince := since;
     last_alert_file := last_alert_file w;
     console := console w;
     posted := posted w |}.

(** A computation that only writes on the console and returns [a]. *)
Definition logs_and_returns {A} (m : M A) (env : Env) (w : World) (a : A) : Prop :=
  exists lines, m env w = (Ok a, logs w lines).

(** The sustain timer after the CPU branch, and the time it measures. *)
Definition since_after (env : Env) (w : World) : option Z :=
  if over (cpuPercent env) CPU_THRESHOLD then
    Some (if unset (cpuOverThresholdSince w) then clock_check env
          else since_value (cpuOverThresholdSince w))
  else None.

Definition elapsed (env : Env) (w : World) : Z :=
  clock_check env - since_value (since_after env w).

(** What each branch pushes on [alerts], as a function of the snapshot. *)
Definition cpu_alerts (env : Env) (w : World) : list Alert :=
  match cpuPercent env with
  | Some c =>
      if ge c (of_Z CPU_THRESHOLD) && (CPU_OVER_THRESHOLD_DURATION <=? elapsed env w)
      then [cpuAlert c (elapsed env w) (formatProcessList (Some (topCpu env 8)) "cpu")]
      else []
  | None => []
  end.

Definition mem_alerts (env : Env) : list Alert :=
  match memPercent env with
  | Some m =>
      if ge m (of_Z MEM_THRESHOLD)
      then [memAlert m (detailedMem env)
                     (formatProcessList (Some (topMem env 8)) "memory")]
      else []
  | None => []
  end.

Definition swap_alerts (env : Env) : list Alert :=
  match swapPercent env with
  | Some s =>
      if ge s (of_Z SWAP_THRESHOLD) then [swapAlert s (detailedSwap env)] else []
  | None => []
  end.

(** The array [alerts] of a check as a function of the snapshot, and
    whether the check goes on to send it. *)
Definition descriptors (env : Env) (w : World) : list Alert :=
  (cpu_alerts env w ++ mem_alerts env ++ swap_alerts env)%list.

Definition dispatches (env : Env) (w : World) : bool :=
  match descriptors env w with
  | [] => false
  | _ :: _ => cooldown_over (clock_check env) (lastAlertTime env w)
  end.

(** The descriptors of a check, and those among them with a given title. *)
Definition alerts_of (env : Env) (w : World) : list Alert :=
  match fst (evaluateThresholds env w) with
  | Ok r => snd r
  | Thrown _ => []
  end.

Definition titled (t : string) (alerts : list Alert) : list Alert :=
  filter (fun a => (title a =? t)%string) alerts.

(** What [sendSlackAlert] writes on the console: a line for each context
    provider whose [try] body throws, then the lines of its own [try] and
    [catch]. *)
Definition failure_line {A} (label : string) (o : outcome A) : list (stream * string) :=
  match o with
  | Throws e => [(stderr, label ++ e)]
  | Returns _ => []
  end.

Definition context_lines (env : Env) : list (stream * string) :=
  (failure_line "Error getting uptime: " (exec env at_uptime "uptime -p") ++
   failure_line "Error getting system load: " (exec env at_load "uptime") ++
   failure_line "Error getting disk usage: " (exec env at_disk "df -h / | tail -1"))%list.

Definition send_lines (env : Env) (alerts : list Alert) : list (stream * string) :=
  match post_error env with
  | Some e => [(stderr, "Error sending Slack message: " ++ e)]
  | None =>
      (stdout, "Slack alert sent: " ++ concat ", " (map title alerts)) ::
      match write_error env with
      | Some e => [(stderr, "Error writing last alert time: " ++ e)]
      | None => []
      end
  end.

(** The last-alert file after [sendSlackAlert]. *)
Definition file_after_send (env : Env) (w : World) : option string :=
  match post_error env, write_error env with
  | None, None => Some (int_toString (clock_write env))
  | _, _ => last_alert_file w
  end.

(** A string of the form d...d.d : digits, a point, one digit. *)
Fixpoint all_digits (l : list ascii) : bool :=
  match l with
  | [] => true
  | c :: l' => is_digit c && all_digits l'
  end.

Definition one_decimal (s : string) : bool :=
  match rev (list_ascii_of_string s) with
  | d :: point :: c :: rest =>
      is_digit d && (point =? ".")%char && all_digits (c :: rest)
  | _ => false
  end.

(** The text of a body between the first [start] and the next [stop]. *)
Definition between (start stop body : string) : option string :=
  match index 0 start body with
  | Some i =>
      let rest := drop (i + length start) body in
      match index 0 stop rest with
      | Some j => Some (take j rest)
      | None => None
      end
  | None => None
  end.

(** The percentage a body displays after a label, and the reading of the
    sentence that every displayed percentage, the current value and the
    threshold alike, has one decimal. *)
Definition displayed (label body : string) : option string :=
  between label "%*" body.

Definition percentages_one_decimal (current_label body : string) : bool :=
  match displayed current_label body, displayed "*Threshold: " body with
  | Some v, Some t => one_decimal v && one_decimal t
  | _, _ => false
  end.

(** The Numbers [toFixed] prints in fixed notation: finite and below 10^21
    in magnitude. *)
Definition fixed_range (x : number) : bool :=
  match x with
  | S754_zero _ => true
  | S754_finite _ m e => negb (at_least_1e21 m e)
  | _ => false
  end.

(** *** Sample readings

    A host on which every command answers: [reading cpu mem swap now] is a
    check at time [now] whose three pipelines print [cpu], [mem] and [swap];
    the other commands print what the tests of the repository feed in. *)

Definition node_process : ProcessRecord :=
  {| user := "user1"; pid := "1234"; cpu := parseFloat "25.5"; mem := parseFloat "10.2";
     vsz := "1234567"; rss := "89012"; tty := "pts/0"; stat := "S+";
     start := "10:30"; time := "0:05"; command := "/usr/bin/node app.js" |}.

Definition long_process : ProcessRecord :=
  {| user := "user2"; pid := "5678"; cpu := parseFloat "15.2"; mem := parseFloat "5.1";
     vsz := "987654"; rss := "32109"; tty := "pts/1"; stat := "R+";
     start := "10:31"; time := "0:02";
     command := "/usr/bin/very/long/path/to/a/very/long/command/name/that/exceeds/fifty/characters" |}.

Definition ps_output : string :=
  "user1 1234 25.5 10.2 1234567 89012 pts/0 S+ 10:30 0:05 /usr/bin/node app.js" ++ nl ++
  "user2 5678 15.2 5.1 987654 32109 pts/1 R+ 10:31 0:02 /usr/bin/very/long/path/to/a/very/long/command/name/that/exceeds/fifty/characters" ++ nl.

Definition free_output : string :=
  "              total        used        free      shared  buff/cache   available" ++ nl ++
  "Mem:           15Gi       8.2Gi       2.1Gi       0.0Ki       4.7Gi       6.8Gi" ++ nl ++
  "Swap:         8.0Gi       6.0Gi       2.0Gi" ++ nl.

Definition answers (cpu mem swap : string) (place : site) (command : string) :
    outcome string :=
  match place with
  | at_cpu => Returns cpu
  | at_mem => Returns mem
  | at_swap => Returns swap
  | at_top_cpu | at_top_mem => Returns ps_output
  | at_free_mem | at_free_swap => Returns free_output
  | at_load =>
      Returns (" 10:45:30 up 2 days,  3:45,  2 users,  load average: 1.25, 1.15, 0.95" ++ nl)
  | at_uptime => Returns ("up 2 days, 3 hours" ++ nl)
  | at_disk => Returns ("/dev/sda1       100G   75G   20G  79% /" ++ nl)
  end.

Definition reading (cpu mem swap : string) (now : Z) : Env :=
  {| SLACK_WEBHOOK_URL := "https://hooks.slack.com/services/T000/B000/XXXX";
     exec := answers cpu mem swap;
     hostname := "web-01";
     clock_check := now;
     clock_attach := fun _ => now + 2;
     clock_write := now + 150;
     read_error := None;
     write_error := None;
     post_error := None |}.

Definition t0 : Z := 1700000000000.

(** The same check with the file system or the webhook failing. *)
Definition failing (env : Env) (read write post : option string) : Env :=
  {| SLACK_WEBHOOK_URL := SLACK_WEBHOOK_URL env;
     exec := exec env;
     hostname := hostname env;
     clock_check := clock_check env;
     clock_attach := clock_attach env;
     clock_write := clock_write env;
     read_error := read;
     write_error := write;
     post_error := post |}.

(** The example of the interrupted excursion: over the threshold at [t0]
    and three minutes later, below it after four minutes, over it again
    after four and a half, and still over it after nine. *)
Definition before_dip : World :=
  run [reading "95.0" "75.0" "25.0" t0; reading "96.5" "75.0" "25.0" (t0 + 180000)]
      (initial None).
Definition dip : Env := reading "42.0" "75.0" "25.0" (t0 + 240000).
Definition second_crossing : Env := reading "93.1" "75.0" "25.0" (t0 + 270000).
Definition ninth_minute : Env := reading "97.0" "75.0" "25.0" (t0 + 540000).

(** A memory alarm 35 minutes after an alert that was recorded at [t0], and
    the same alarm with the webhook refusing the request. *)
Definition alerted_at_t0 : World := initial (Some "1700000000000").
Definition memory_alarm : Env := reading "12.0" "95.0" "25.0" (t0 + 2100000).
Definition memory_alarm_unsent : Env :=
  failing memory_alarm None None (Some "Request failed with status code 500").

(** A first check with memory and swap over their thresholds, and one with
    every metric over its threshold six minutes into a CPU excursion. *)
Definition memory_and_swap_high : Env := reading "12.0" "95" "75.0" t0.
Definition all_high : Env := reading "95.0" "95.2" "75" (t0 + 360000).
Definition six_minutes_in : World := with_since (initial None) (Some t0).

(** A check in which the [top] pipeline printed nothing, so that the CPU
    sample is NaN, six minutes into an excursion; and a first check whose
    memory and swap pipelines printed nothing. *)
Definition cpu_unparsed : Env := reading "" "75.0" "25.0" (t0 + 360000).
Definition mem_swap_unparsed : Env := reading "12.0" "" "" t0.


(** The memory alarm on a host whose last-alert file holds no number. *)
Definition garbled : World := initial (Some "not a timestamp").

(** A time of day in milliseconds since the epoch, and spans of minutes. *)
Definition mins (n : Z) : Z := n * 60000.

(** *** Rows, lines and groups

    The shape of the outputs that the providers parse.  A column of a row is
    a non-empty string of visible ASCII characters; a gap between two
    columns is a non-empty string of spaces and tabs; a margin is any run of
    white space. *)

Definition visible (c : ascii) : bool :=
  let n := N_of_ascii c in ((33 <=? n) && (n <=? 126))%N.

Definition word (s : string) : bool :=
  negb (s =? "")%string && forallb visible (list_ascii_of_string s).

Definition gap (s : string) : bool :=
  negb (s =? "")%string &&
  forallb (fun c => (c =? " ")%char || (c =? "009")%char) (list_ascii_of_string s).

Definition margin (s : string) : bool :=
  forallb is_space (list_ascii_of_string s).

(** A row of columns: the first column, then gaps and columns in turn. *)
Fixpoint columns (first : string) (rest : list (string * string)) : string :=
  match rest with
  | [] => first
  | (g, col) :: rest' => first ++ g ++ columns col rest'
  end.

Definition row (r : string * list (string * string)) : string :=
  columns (fst r) (snd r).

Definition row_ok (r : string * list (string * string)) : bool :=
  word (fst r) && forallb (fun gc => gap (fst gc) && word (snd gc)) (snd r).

Definition cells (r : string * list (string * string)) : list string :=
  fst r :: map snd (snd r).

(** The record of a row with the given columns, null for fewer than 11. *)
Definition recordOf (parts : list string) : option ProcessRecord :=
  if (11 <=? List.length parts)%nat then
    Some {| user := nth 0 parts "";
            pid := nth 1 parts "";
            cpu := parseFloat (nth 2 parts "");
            mem := parseFloat (nth 3 parts "");
            vsz := nth 4 parts "";
            rss := nth 5 parts "";
            tty := nth 6 parts "";
            stat := nth 7 parts "";
            start := nth 8 parts "";
            time := nth 9 parts "";
            command := concat " " (skipn 10 parts) |}
  else None.

(** A string that is not empty and neither starts nor ends with white
    space. *)
Definition solid (s : string) : Prop :=
  (exists c s', s = String c s' /\ is_space c = false) /\
  (exists c s', reverse s = String c s' /\ is_space c = false).

Definition one_line (s : string) : bool :=
  forallb (fun c => negb (c =? "010")%char) (list_ascii_of_string s).

(** The number of line feeds in an output. *)
Definition line_feeds (s : string) : nat :=
  count_occ ascii_dec (list_ascii_of_string s) "010"%char.

(** A group of the load pattern: a non-empty string of digits and points;
    and a string that such a group cannot run into. *)
Definition load_group (s : string) : bool :=
  negb (s =? "")%string &&
  forallb (fun c => is_digit c || (c =? ".")%char) (list_ascii_of_string s).

Definition ends_group (s : string) : bool :=
  match s with
  | String c _ => negb (is_digit c || (c =? ".")%char)
  | EmptyString => true
  end.

Definition memory_unknown : MemoryInfo :=
  {| mem_total := None; mem_used := None; mem_free := None;
     mem_shared := None; mem_cache := None; mem_available := None |}.

(** A provider that never throws: it returns and leaves the world alone,
    or it returns its sentinel and logs one line on the error stream; the
    latter whenever its command fails. *)
Definition guarded {A} (provider : M A) (place : site) (command label : string)
    (sentinel : A) : Prop :=
  forall env w,
    ((exists a, provider env w = (Ok a, w)) \/
     (exists e, provider env w = (Ok sentinel, logs w [(stderr, label ++ e)]))) /\
    (forall e, exec env place command = Throws e ->
       provider env w = (Ok sentinel, logs w [(stderr, label ++ e)])).

(** *** Runs of checks *)

(** A check in which the file system and the webhook work. *)
Definition recorded (env : Env) : bool :=
  match read_error env, write_error env, post_error env with
  | None, None, None => true
  | _, _, _ => false
  end.

(** The checks of a run that send a request, in order. *)
Fixpoint sends (envs : list Env) (w : World) : list Env :=
  match envs with
  | [] => []
  | env :: envs' =>
      ((if dispatches env w then [env] else []) ++
       sends envs' (snd (checkSystemHealth env w)))%list
  end.

(** Each check of the list is at least the cooldown after the time written
    by the one before it; [last] is the time written before the first. *)
Fixpoint spaced (last : option Z) (l : list Env) : Prop :=
  match l with
  | [] => True
  | env :: l' =>
      match last with
      | Some t => ALERT_COOLDOWN <= clock_check env - t
      | None => True
      end /\ spaced (Some (clock_write env)) l'
  end.

(** *** The text of a message

    The header, and the lines that the context providers add to it, as
    functions of what their commands answer. *)

Definition header (env : Env) : string :=
  "🚨 *System Health Alert on " ++ hostname env ++ "*".

Definition uptime_part (env : Env) : string :=
  match exec env at_uptime "uptime -p" with
  | Returns output =>
      match trim output with
      | EmptyString => ""
      | uptime => nl ++ "⏰ Uptime: " ++ uptime
      end
  | Throws _ => ""
  end.

Definition load_part (env : Env) : string :=
  match exec env at_load "uptime" with
  | Returns output =>
      match match_load output with
      | Some (g1, g2, g3) =>
          nl ++ "📊 Load: " ++ toString (parseFloat g1) ++ " (1m), " ++
          toString (parseFloat g2) ++ " (5m), " ++
          toString (parseFloat g3) ++ " (15m)"
      | None => ""
      end
  | Throws _ => ""
  end.

Definition disk_part (env : Env) : string :=
  match exec env at_disk "df -h / | tail -1" with
  | Returns output =>
      let parts := split_spaces (trim output) in
      nl ++ "💾 Root Disk: " ++ template (nth_error parts 2) ++ "/" ++
      template (nth_error parts 1) ++ " (" ++ template (nth_error parts 4) ++ ")"
  | Throws _ => ""
  end.

(** *** More sample readings *)

(** The rows of [ps_output], column by column, and a row as [ps] aligns
    it, under the margins that a line may have. *)
Definition ps_rows : list (string * list (string * string)) :=
  [ ("user1",
     [(" ", "1234"); (" ", "25.5"); (" ", "10.2"); (" ", "1234567"); (" ", "89012");
      (" ", "pts/0"); (" ", "S+"); (" ", "10:30"); (" ", "0:05");
      (" ", "/usr/bin/node"); (" ", "app.js")]);
    ("user2",
     [(" ", "5678"); (" ", "15.2"); (" ", "5.1"); (" ", "987654"); (" ", "32109");
      (" ", "pts/1"); (" ", "R+"); (" ", "10:31"); (" ", "0:02");
      (" ", "/usr/bin/very/long/path/to/a/very/long/command/name/that/exceeds/fifty/characters")]) ].

Definition aligned_row : list (string * string) :=
  [("      ", "1234"); (" ", "25.5"); ("  ", "10.2"); (" ", "1234567"); ("  ", "89012");
   (" ", "pts/0"); ("    ", "S+"); ("   ", "10:30"); ("   ", "0:05");
   (" ", "/usr/bin/node"); ("   ", "app.js")].

(** A host on which [free -h] prints one line only, and one on which none
    of the context commands of a message works. *)
Definition free_one_line : Env :=
  {| SLACK_WEBHOOK_URL := SLACK_WEBHOOK_URL memory_and_swap_high;
     exec := fun place command =>
       match place with
       | at_free_mem | at_free_swap => Returns "free: not supported"
       | _ => exec memory_and_swap_high place command
       end;
     hostname := hostname memory_and_swap_high;
     clock_check := clock_check memory_and_swap_high;
     clock_attach := clock_attach memory_and_swap_high;
     clock_write := clock_write memory_and_swap_high;
     read_error := None;
     write_error := None;
     post_error := None |}.

Definition context_down : Env :=
  {| SLACK_WEBHOOK_URL := SLACK_WEBHOOK_URL memory_alarm;
     exec := fun place command =>
       match place with
       | at_uptime | at_load | at_disk => Throws "Command failed"
       | _ => exec memory_alarm place command
       end;
     hostname := hostname memory_alarm;
     clock_check := clock_check memory_alarm;
     clock_attach := clock_attach memory_alarm;
     clock_write := clock_write memory_alarm;
     read_error := None;
     write_error := None;
     post_error := None |}.

(** A host whose swap is in use at 75 percent at the time [now], and on
    which the context commands of a message do not work; three checks of
    it, at [t0], fifteen minutes later and thirty-five minutes later. *)
Definition swap_alarm (now : Z) : Env :=
  {| SLACK_WEBHOOK_URL := "https://hooks.slack.com/services/T000/B000/XXXX";
     exec := fun place command =>
       match place with
       | at_cpu => Returns "12.0"
       | at_mem => Returns "40.0"
       | at_swap => Returns "75.0"
       | at_free_swap => Returns free_output
       | _ => Throws "Command failed"
       end;
     hostname := "web-01";
     clock_check := now;
     clock_attach := fun _ => now + 2;
     clock_write := now + 150;
     read_error := None;
     write_error := None;
     post_error := None |}.

Definition three_alarms : list Env :=
  [swap_alarm t0; swap_alarm (t0 + 900000); swap_alarm (t0 + 2100000)].


(** *** The lines of a check

    What a check writes on the console, part by part: the failures of the
    three samples, the lines of the CPU, memory and swap branches, and the
    lines of the gate. *)

Definition sample_lines (env : Env) : list (stream * string) :=
  (failure_line "Error getting CPU usage: " (exec_cpu env) ++
   failure_line "Error getting memory usage: " (exec_mem env) ++
   failure_line "Error getting swap usage: " (exec_swap env))%list.

(** The line of a breakdown provider: the failure of [free -h], or the
    TypeError when its output has no line at the index. *)
Definition breakdown_lines (label : string) (index : nat) (o : outcome string) :
    list (stream * string) :=
  match o with
  | Throws e => [(stderr, label ++ e)]
  | Returns output =>
      match nth_error (split_on "010" output) index with
      | Some _ => []
      | None => [(stderr, label ++ no_line)]
      end
  end.

Definition cpu_lines (env : Env) (w : World) : list (stream * string) :=
  if over (cpuPercent env) CPU_THRESHOLD then
    if CPU_OVER_THRESHOLD_DURATION <=? elapsed env w then
      failure_line "Error getting top CPU processes: "
                   (exec env at_top_cpu (top_command "cpu" 8))
    else
      [(stdout, "CPU over threshold, but not for 5 minutes yet (" ++
                minutes (elapsed env w) ++ " min)")]
  else [].

Definition mem_lines (env : Env) : list (stream * string) :=
  if over (memPercent env) MEM_THRESHOLD then
    (breakdown_lines "Error getting detailed memory info: " 1
                     (exec env at_free_mem "free -h") ++
     failure_line "Error getting top memory processes: "
                  (exec env at_top_mem (top_command "mem" 8)))%list
  else [].

Definition swap_lines (env : Env) : list (stream * string) :=
  if over (swapPercent env) SWAP_THRESHOLD then
    breakdown_lines "Error getting detailed swap info: " 2
                    (exec env at_free_swap "free -h")
  else [].

Definition read_lines (env : Env) (w : World) : list (stream * string) :=
  match last_alert_file w, read_error env with
  | Some _, Some e => [(stderr, "Error reading last alert time: " ++ e)]
  | _, _ => []
  end.

Definition gate_lines (env : Env) (w : World) : list (stream * string) :=
  match descriptors env w with
  | [] => [(stdout, "System health OK.")]
  | alerts =>
      (read_lines env w ++
       if cooldown_over (clock_check env) (lastAlertTime env w)
       then context_lines env ++ send_lines env alerts
       else [(stdout, "Alert(s) detected, but cooldown still active.")])%list
  end.

Definition check_lines (env : Env) (w : World) : list (stream * string) :=
  (sample_lines env ++ cpu_lines env w ++ mem_lines env ++ swap_lines env ++
   gate_lines env w)%list.

(** A check in which nothing fails: every command answers, [free -h] with
    the lines that the breakdowns read, and the file system and the webhook
    work. *)
Definition returns (o : outcome string) : bool :=
  match o with
  | Returns _ => true
  | Throws _ => false
  end.

Definition has_lines (n : nat) (o : outcome string) : bool :=
  match o with
  | Returns output => (n <=? line_feeds output)%nat
  | Throws _ => false
  end.

Definition nothing_fails (env : Env) : bool :=
  returns (exec_cpu env) && returns (exec_mem env) && returns (exec_swap env) &&
  returns (exec env at_top_cpu (top_command "cpu" 8)) &&
  returns (exec env at_top_mem (top_command "mem" 8)) &&
  has_lines 1 (exec env at_free_mem "free -h") &&
  has_lines 2 (exec env at_free_swap "free -h") &&
  returns (exec env at_uptime "uptime -p") &&
  returns (exec env at_load "uptime") &&
  returns (exec env at_disk "df -h / | tail -1") &&
  recorded env.

(** *** Starting the monitor *)

(** The lines that a monitor that starts writes before its first check. *)
Definition banner : list (stream * string) :=
  [ (stdout, "☀️☀️☀️ System health monitor started");
    (stdout, "Checking every 5 minutes");
    (stdout, "CPU threshold: 90%");
    (stdout, "Memory threshold: 90%");
    (stdout, "Swap threshold: 50%");
    (stdout, "Alert cooldown: 30 minutes") ].

(** The address that the sample hosts post to. *)
Definition webhook : string := "https://hooks.slack.com/services/T000/B000/XXXX".

(** *** The disk monitor

    The usage that [getDiskUsage] returns, the time that its
    [getLastAlertTime] returns, and the message that its [sendSlackAlert]
    composes, as functions of the environment and the world. *)

Definition diskUsage (env : DiskMonitor.Env) : option (option Z) :=
  match DiskMonitor.exec env DiskMonitor.disk_command with
  | Returns output => Some (parseInt (trim output))
  | Throws _ => None
  end.

Definition disk_lastAlertTime (env : DiskMonitor.Env) (w : DiskMonitor.World) :
    option Z :=
  match DiskMonitor.last_alert_file w with
  | None => Some 0
  | Some content =>
      match DiskMonitor.read_error env with
      | Some _ => Some 0
      | None => parseInt content
      end
  end.

Definition disk_logs (w : DiskMonitor.World) (lines : list (stream * string)) :
    DiskMonitor.World :=
  {| DiskMonitor.last_alert_file := DiskMonitor.last_alert_file w;
     DiskMonitor.console := DiskMonitor.console w ++ lines;
     DiskMonitor.posted := DiskMonitor.posted w |}.

(** The line that a failing read of the last-alert file leaves. *)
Definition disk_read_lines (env : DiskMonitor.Env) (w : DiskMonitor.World) :
    list (stream * string) :=
  match DiskMonitor.last_alert_file w, DiskMonitor.read_error env with
  | Some _, Some e => [(stderr, "Error reading last alert time: " ++ e)]
  | _, _ => []
  end.

(** The world after [sendSlackAlert] has posted [message]. *)
Definition disk_sent (env : DiskMonitor.Env) (w : DiskMonitor.World)
    (usage : option Z) (message : DiskMonitor.Message) : DiskMonitor.World :=
  {| DiskMonitor.last_alert_file :=
       match DiskMonitor.post_error env, DiskMonitor.write_error env with
       | None, None => Some (int_toString (DiskMonitor.clock_write env))
       | _, _ => DiskMonitor.last_alert_file w
       end;
     DiskMonitor.console :=
       DiskMonitor.console w ++
       match DiskMonitor.post_error env with
       | Some e => [(stderr, "Error sending Slack message: " ++ e)]
       | None =>
           (stdout, "Slack alert sent: Disk usage at " ++ DiskMonitor.shown usage ++ "%") ::
           match DiskMonitor.write_error env with
           | Some e => [(stderr, "Error writing last alert time: " ++ e)]
           | None => []
           end
       end;
     DiskMonitor.posted :=
       DiskMonitor.posted w ++ [(DiskMonitor.SLACK_WEBHOOK_URL env, message)] |}.

(** A host whose root file system is at the percentage that [df] prints,
    checked at the time [now]. *)
Definition disk_reading (output : string) (now : Z) : DiskMonitor.Env :=
  {| DiskMonitor.SLACK_WEBHOOK_URL := "https://hooks.slack.com/services/T000/B000/XXXX";
     DiskMonitor.exec := fun _ => Returns output;
     DiskMonitor.hostname := "web-01";
     DiskMonitor.clock_check := now;
     DiskMonitor.clock_message := now + 1;
     DiskMonitor.clock_write := now + 150;
     DiskMonitor.read_error := None;
     DiskMonitor.write_error := None;
     DiskMonitor.post_error := None |}.

Definition disk_failing (env : DiskMonitor.Env) (post : option string) :
    DiskMonitor.Env :=
  {| DiskMonitor.SLACK_WEBHOOK_URL := DiskMonitor.SLACK_WEBHOOK_URL env;
     DiskMonitor.exec := DiskMonitor.exec env;
     DiskMonitor.hostname := DiskMonitor.hostname env;
     DiskMonitor.clock_check := DiskMonitor.clock_check env;
     DiskMonitor.clock_message := DiskMonitor.clock_message env;
     DiskMonitor.clock_write := DiskMonitor.clock_write env;
     DiskMonitor.read_error := DiskMonitor.read_error env;
     DiskMonitor.write_error := DiskMonitor.write_error env;
     DiskMonitor.post_error := post |}.

(** The lines that a disk monitor that starts writes before its first
    check. *)
Definition disk_banner : list (stream * string) :=
  [ (stdout, "Disk usage monitor started");
    (stdout, "Checking every 5 minutes");
    (stdout, "Alert threshold: 80%");
    (stdout, "Alert cooldown: 30 minutes") ].

(** ** Running the computations *)

(** The runtime functions are not unfolded while a computation is run. *)
Arguments parseInt : simpl never.
Arguments parseFloat : simpl never.
Arguments trim : simpl never.
Arguments toFixed : simpl never.
Arguments toString : simpl never.
Arguments int_toString : simpl never.
Arguments of_Z : simpl never.
Arguments div : simpl never.
Arguments ge : simpl never.
Arguments minutes : simpl never.
Arguments formatProcessList : simpl never.
Arguments cooldown_over : simpl never.

Lemma logs_logs w l1 l2 : logs (logs w l1) l2 = logs w (l1 ++ l2).
Proof. unfold logs; cbn. now rewrite app_assoc. Qed.

Lemma logs_nil w : logs w [] = w.
Proof. destruct w; unfold logs; cbn. now rewrite app_nil_r. Qed.

Lemma with_since_same w : with_since w (cpuOverThresholdSince w) = w.
Proof. now destruct w. Qed.

Lemma bind_run {A B} (m : M A) (k : A -> M B) env w a w' :
  m env w = (Ok a, w') -> bind m k env w = k a env w'.
Proof. intros H. unfold bind. now rewrite H. Qed.

Lemma ret_logs {A} (a : A) env w : logs_and_returns (ret a) env w a.
Proof. exists []. now rewrite logs_nil. Qed.

(** A provider: the [try] body runs a command and post-processes the
    output, the [catch] branch logs and returns the sentinel. *)
Lemma provider_run {B} (place : site) (command : string) (g : string -> B)
    (label : string) (sentinel : B) env w :
  try_catch (output <- execSync place command ;; ret (g output))
            (fun error => console_error (label ++ error) ;; ret sentinel)
            env w =
  (Ok (match exec env place command with Returns a => g a | Throws _ => sentinel end),
   logs w (failure_line label (exec env place command))).
Proof.
  unfold try_catch, bind, execSync, call, ret, console_error, console_write.
  destruct (exec env place command) as [a | e]; cbn.
  - now rewrite logs_nil.
  - reflexivity.
Qed.

Lemma getCpuUsage_run env w : logs_and_returns getCpuUsage env w (cpuPercent env).
Proof. eexists. apply provider_run. Qed.

Lemma getMemUsage_run env w : logs_and_returns getMemUsage env w (memPercent env).
Proof. eexists. apply provider_run. Qed.

Lemma getSwapUsage_run env w : logs_and_returns getSwapUsage env w (swapPercent env).
Proof. eexists. apply provider_run. Qed.

Lemma getTopCpuProcesses_run limit env w :
  logs_and_returns (getTopCpuProcesses limit) env w (topCpu env limit).
Proof. eexists. apply provider_run. Qed.

Lemma getTopMemoryProcesses_run limit env w :
  logs_and_returns (getTopMemoryProcesses limit) env w (topMem env limit).
Proof. eexists. apply provider_run. Qed.

Lemma getDetailedMemoryInfo_run env w :
  logs_and_returns getDetailedMemoryInfo env w (detailedMem env).
Proof.
  unfold logs_and_returns, detailedMem, getDetailedMemoryInfo, try_catch, bind,
    execSync, call, ret, throw, console_error, console_write.
  destruct (exec env at_free_mem "free -h") as [out | e]; cbv beta iota.
  - destruct (nth_error (split_on "010" out) 1); cbv beta iota.
    + exists []. now rewrite logs_nil.
    + now eexists.
  - now eexists.
Qed.

Lemma getDetailedSwapInfo_run env w :
  logs_and_returns getDetailedSwapInfo env w (detailedSwap env).
Proof.
  unfold logs_and_returns, detailedSwap, getDetailedSwapInfo, try_catch, bind,
    execSync, call, ret, throw, console_error, console_write.
  destruct (exec env at_free_swap "free -h") as [out | e]; cbv beta iota.
  - destruct (nth_error (split_on "010" out) 2); cbv beta iota.
    + exists []. now rewrite logs_nil.
    + now eexists.
  - now eexists.
Qed.

Lemma getUptime_run env w :
  exists u,
    getUptime env w =
    (Ok u, logs w (failure_line "Error getting uptime: "
                     (exec env at_uptime "uptime -p"))).
Proof. eexists. apply provider_run. Qed.

Lemma getSystemLoad_run env w :
  exists l,
    getSystemLoad env w =
    (Ok l, logs w (failure_line "Error getting system load: "
                     (exec env at_load "uptime"))).
Proof. eexists. apply provider_run. Qed.

Lemma getDiskUsage_run env w :
  exists d,
    getDiskUsage env w =
    (Ok d, logs w (failure_line "Error getting disk usage: "
                     (exec env at_disk "df -h / | tail -1"))).
Proof. eexists. apply provider_run. Qed.

(** Runs the computation at the head of the goal with a lemma about it. *)
Ltac run_with L :=
  let l := fresh "l" in
  let H := fresh "H" in
  match goal with
  | |- context [bind ?m ?k ?env ?w] =>
      destruct (L env w) as [l H]; rewrite (bind_run m k env w _ _ H)
  end.

(** *** The three branches and the evaluation *)

Lemma checkCpu_sustained_run c now since env w :
  logs_and_returns
    (if CPU_OVER_THRESHOLD_DURATION <=? now - since then
       topProcesses <- getTopCpuProcesses 8 ;;
       ret [cpuAlert c (now - since) (formatProcessList (Some topProcesses) "cpu")]
     else
       console_log ("CPU over threshold, but not for 5 minutes yet (" ++
                    minutes (now - since) ++ " min)") ;;
       ret [])
    env w
    (if CPU_OVER_THRESHOLD_DURATION <=? now - since
     then [cpuAlert c (now - since) (formatProcessList (Some (topCpu env 8)) "cpu")]
     else []).
Proof.
  destruct (CPU_OVER_THRESHOLD_DURATION <=? now - since).
  - destruct (getTopCpuProcesses_run 8 env w) as [l H].
    exists l. now rewrite (bind_run _ _ _ _ _ _ H).
  - eexists. reflexivity.
Qed.

Lemma checkCpu_run env w :
  exists lines,
    checkCpu (cpuPercent env) (clock_check env) env w =
    (Ok (cpu_alerts env w), logs (with_since w (since_after env w)) lines).
Proof.
  unfold checkCpu, cpu_alerts, elapsed, since_after, over.
  destruct (cpuPercent env) as [c |]; [destruct (ge c (of_Z CPU_THRESHOLD)) |].
  - cbn [andb since_value].
    unfold bind at 1 2 3, get_cpuOverThresholdSince.
    destruct (cpuOverThresholdSince w) as [t |] eqn:Hs; cbn [unset since_value].
    + destruct (t =? 0) eqn:Ht.
      * unfold set_cpuOverThresholdSince at 1. cbn [cpuOverThresholdSince since_value].
        apply checkCpu_sustained_run.
      * unfold ret at 1. rewrite Hs. cbn [since_value].
        replace (with_since w (Some t)) with w
          by (now rewrite <- Hs, with_since_same).
        apply checkCpu_sustained_run.
    + unfold set_cpuOverThresholdSince at 1. cbn [cpuOverThresholdSince since_value].
      apply checkCpu_sustained_run.
  - exists []. now rewrite logs_nil.
  - exists []. now rewrite logs_nil.
Qed.

Lemma checkMem_run env w :
  logs_and_returns (checkMem (memPercent env)) env w (mem_alerts env).
Proof.
  unfold checkMem, mem_alerts.
  destruct (memPercent env) as [m |]; [destruct (ge m (of_Z MEM_THRESHOLD)) |];
    try apply ret_logs.
  destruct (getDetailedMemoryInfo_run env w) as [l1 H1].
  destruct (getTopMemoryProcesses_run 8 env (logs w l1)) as [l2 H2].
  exists (l1 ++ l2)%list.
  rewrite (bind_run _ _ _ _ _ _ H1), (bind_run _ _ _ _ _ _ H2).
  now rewrite logs_logs.
Qed.

Lemma checkSwap_run env w :
  logs_and_returns (checkSwap (swapPercent env)) env w (swap_alerts env).
Proof.
  unfold checkSwap, swap_alerts.
  destruct (swapPercent env) as [s |]; [destruct (ge s (of_Z SWAP_THRESHOLD)) |];
    try apply ret_logs.
  destruct (getDetailedSwapInfo_run env w) as [l1 H1].
  exists l1. now rewrite (bind_run _ _ _ _ _ _ H1).
Qed.

Lemma evaluateThresholds_run env w :
  exists lines,
    evaluateThresholds env w =
    (Ok (clock_check env, (cpu_alerts env w ++ mem_alerts env ++ swap_alerts env)%list),
     logs (with_since w (since_after env w)) lines).
Proof.
  unfold evaluateThresholds.
  run_with getCpuUsage_run.
  run_with getMemUsage_run.
  run_with getSwapUsage_run.
  unfold bind at 1, ask.
  run_with checkCpu_run.
  run_with checkMem_run.
  run_with checkSwap_run.
  eexists.
  unfold ret, logs, with_since, since_after, cpu_alerts, elapsed, since_after; cbn.
  rewrite <- !app_assoc. reflexivity.
Qed.

(** *** Persistence, sending and the gate *)

Lemma getLastAlertTime_run env w :
  logs_and_returns getLastAlertTime env w (lastAlertTime env w).
Proof.
  unfold logs_and_returns, getLastAlertTime, lastAlertTime, try_catch, bind,
    fs_existsSync, fs_readFileSync, ret, console_error, console_write.
  destruct (last_alert_file w) as [content |] eqn:Hfile; cbn.
  - destruct (read_error env) as [e |]; cbn.
    + now eexists.
    + rewrite Hfile. exists []. now rewrite logs_nil.
  - exists []. now rewrite logs_nil.
Qed.

Lemma setLastAlertTime_run env w :
  setLastAlertTime env w =
  match write_error env with
  | None =>
      (Ok tt, {| cpuOverThresholdSince := cpuOverThresholdSince w;
                 last_alert_file := Some (int_toString (clock_write env));
                 console := console w;
                 posted := posted w |})
  | Some e => (Ok tt, logs w [(stderr, "Error writing last alert time: " ++ e)])
  end.
Proof.
  unfold setLastAlertTime, try_catch, bind, ask, fs_writeFileSync, console_error,
    console_write.
  now destruct (write_error env).
Qed.

(** The [try] block of [sendSlackAlert] (lines 248-254). *)
Lemma post_run url message alerts env w :
  try_catch
    (u <- ask url ;;
     axios_post u message ;;
     console_log ("Slack alert sent: " ++ concat ", " (map title alerts)) ;;
     setLastAlertTime)
    (fun error => console_error ("Error sending Slack message: " ++ error))
    env w =
  (Ok tt, {| cpuOverThresholdSince := cpuOverThresholdSince w;
             last_alert_file := file_after_send env w;
             console := console w ++ send_lines env alerts;
             posted := posted w ++ [(url env, message)] |}).
Proof.
  unfold try_catch, bind, ask, axios_post, console_log, console_error, console_write,
    file_after_send, send_lines.
  destruct (post_error env) as [e |]; cbn; [reflexivity |].
  rewrite setLastAlertTime_run. cbn.
  destruct (write_error env) as [e |]; cbn.
  - unfold logs; cbn. rewrite <- app_assoc. reflexivity.
  - reflexivity.
Qed.

Lemma sendSlackAlert_run alerts env w :
  exists text,
    sendSlackAlert alerts env w =
    (Ok tt, {| cpuOverThresholdSince := cpuOverThresholdSince w;
               last_alert_file := file_after_send env w;
               console := console w ++ context_lines env ++ send_lines env alerts;
               posted := posted w ++
                 [(SLACK_WEBHOOK_URL env,
                   {| msg_text := text;
                      attachments := mapi (attachment_of env) alerts |})] |}).
Proof.
  unfold sendSlackAlert.
  unfold bind at 1, ask at 1.
  destruct (getUptime_run env w) as [u H1].
  rewrite (bind_run _ _ _ _ _ _ H1).
  match goal with |- context [bind getSystemLoad _ env ?w0] =>
    destruct (getSystemLoad_run env w0) as [ld H2] end.
  rewrite (bind_run _ _ _ _ _ _ H2).
  match goal with |- context [bind getDiskUsage _ env ?w0] =>
    destruct (getDiskUsage_run env w0) as [d H3] end.
  rewrite (bind_run _ _ _ _ _ _ H3).
  unfold bind at 1, ask at 1.
  eexists. etransitivity; [apply post_run |].
  unfold logs, file_after_send, context_lines.
  cbn [cpuOverThresholdSince last_alert_file console posted].
  rewrite <- !app_assoc. reflexivity.
Qed.

Lemma send_lines_error env alerts e :
  post_error env = Some e ->
  In (stderr, "Error sending Slack message: " ++ e)
     (context_lines env ++ send_lines env alerts).
Proof.
  intros H. apply in_or_app. right. unfold send_lines. rewrite H. now left.
Qed.

Lemma alerts_of_descriptors env w : alerts_of env w = descriptors env w.
Proof.
  unfold alerts_of. destruct (evaluateThresholds_run env w) as [l H].
  now rewrite H.
Qed.

Lemma checkSystemHealth_run env w :
  exists text lines,
    checkSystemHealth env w =
    (Ok tt,
     {| cpuOverThresholdSince := since_after env w;
        last_alert_file :=
          if dispatches env w then file_after_send env w else last_alert_file w;
        console := console w ++ lines;
        posted :=
          if dispatches env w then
            posted w ++
            [(SLACK_WEBHOOK_URL env,
              {| msg_text := text;
                 attachments := mapi (attachment_of env) (descriptors env w) |})]
          else posted w |}) /\
    (dispatches env w = true ->
     forall e, post_error env = Some e ->
               In (stderr, "Error sending Slack message: " ++ e) lines).
Proof.
  unfold checkSystemHealth.
  destruct (evaluateThresholds_run env w) as [l1 H1].
  rewrite (bind_run _ _ _ _ _ _ H1). cbn [fst snd].
  fold (descriptors env w). unfold dispatches.
  destruct (descriptors env w) as [| a alerts] eqn:Hd.
  - exists "", (l1 ++ [(stdout, "System health OK.")])%list.
    split; [| discriminate].
    unfold dispatch, console_log, console_write, logs, with_since; cbn.
    now rewrite app_assoc.
  - unfold dispatch.
    run_with getLastAlertTime_run.
    change (lastAlertTime env (logs (with_since w (since_after env w)) l1))
      with (lastAlertTime env w).
    destruct (cooldown_over (clock_check env) (lastAlertTime env w)).
    + destruct (sendSlackAlert_run (a :: alerts) env
                  (logs (logs (with_since w (since_after env w)) l1) l)) as
        (text & H2).
      exists text,
        (l1 ++ l ++ context_lines env ++ send_lines env (a :: alerts))%list.
      split.
      * rewrite H2. unfold logs, with_since, file_after_send.
        cbn [cpuOverThresholdSince last_alert_file console posted].
        now rewrite <- !app_assoc.
      * intros _ e He. apply in_or_app. right. apply in_or_app. right.
        now apply send_lines_error.
    + exists "", (l1 ++ l ++ [(stdout, "Alert(s) detected, but cooldown still active.")])%list.
      split; [| discriminate].
      unfold console_log, console_write, logs, with_since.
      cbn [cpuOverThresholdSince last_alert_file console posted].
      now rewrite <- !app_assoc.
Qed.

(** *** Telling the descriptors apart *)

Lemma titled_app t l1 l2 : titled t (l1 ++ l2) = (titled t l1 ++ titled t l2)%list.
Proof. apply filter_app. Qed.

Lemma titled_cpu_alerts t env w :
  titled t (cpu_alerts env w) =
  if (CPU_TITLE =? t)%string then cpu_alerts env w else [].
Proof.
  unfold cpu_alerts.
  destruct (cpuPercent env) as [c |]; [| now destruct (CPU_TITLE =? t)%string].
  destruct (ge c (of_Z CPU_THRESHOLD) && _);
    [| now destruct (CPU_TITLE =? t)%string].
  unfold titled, filter, cpuAlert, title.
  now destruct (CPU_TITLE =? t)%string.
Qed.

Lemma titled_mem_alerts t env :
  titled t (mem_alerts env) =
  if (MEM_TITLE =? t)%string then mem_alerts env else [].
Proof.
  unfold mem_alerts.
  destruct (memPercent env) as [c |]; [| now destruct (MEM_TITLE =? t)%string].
  destruct (ge c (of_Z MEM_THRESHOLD));
    [| now destruct (MEM_TITLE =? t)%string].
  unfold titled, filter, memAlert, title.
  now destruct (MEM_TITLE =? t)%string.
Qed.

Lemma titled_swap_alerts t env :
  titled t (swap_alerts env) =
  if (SWAP_TITLE =? t)%string then swap_alerts env else [].
Proof.
  unfold swap_alerts.
  destruct (swapPercent env) as [c |]; [| now destruct (SWAP_TITLE =? t)%string].
  destruct (ge c (of_Z SWAP_THRESHOLD));
    [| now destruct (SWAP_TITLE =? t)%string].
  unfold titled, filter, swapAlert, title.
  now destruct (SWAP_TITLE =? t)%string.
Qed.

Lemma titled_cpu env w : titled CPU_TITLE (alerts_of env w) = cpu_alerts env w.
Proof.
  rewrite alerts_of_descriptors. unfold descriptors.
  rewrite !titled_app, titled_cpu_alerts, titled_mem_alerts, titled_swap_alerts.
  change (CPU_TITLE =? CPU_TITLE)%string with true.
  change (MEM_TITLE =? CPU_TITLE)%string with false.
  change (SWAP_TITLE =? CPU_TITLE)%string with false.
  now rewrite !app_nil_r.
Qed.

Lemma titled_mem env w : titled MEM_TITLE (alerts_of env w) = mem_alerts env.
Proof.
  rewrite alerts_of_descriptors. unfold descriptors.
  rewrite !titled_app, titled_cpu_alerts, titled_mem_alerts, titled_swap_alerts.
  change (CPU_TITLE =? MEM_TITLE)%string with false.
  change (MEM_TITLE =? MEM_TITLE)%string with true.
  change (SWAP_TITLE =? MEM_TITLE)%string with false.
  now rewrite app_nil_r.
Qed.

Lemma titled_swap env w : titled SWAP_TITLE (alerts_of env w) = swap_alerts env.
Proof.
  rewrite alerts_of_descriptors. unfold descriptors.
  rewrite !titled_app, titled_cpu_alerts, titled_mem_alerts, titled_swap_alerts.
  change (CPU_TITLE =? SWAP_TITLE)%string with false.
  change (MEM_TITLE =? SWAP_TITLE)%string with false.
  change (SWAP_TITLE =? SWAP_TITLE)%string with true.
  reflexivity.
Qed.

Lemma lt_not_ge x y : lt x y = true -> ge x y = false.
Proof.
  unfold lt, SFltb, ge. now destruct (SFcompare x y) as [[] |].
Qed.

Lemma nan_not_ge y : ge NaN y = false.
Proof. unfold ge, NaN. now destruct y. Qed.

(** *** Strings of digits *)

Lemma chars_app a b :
  list_ascii_of_string (a ++ b) = (list_ascii_of_string a ++ list_ascii_of_string b)%list.
Proof. induction a as [| c a IH]; cbn; [reflexivity | now rewrite IH]. Qed.

Lemma chars_length s : List.length (list_ascii_of_string s) = length s.
Proof. induction s as [| c s IH]; cbn; [reflexivity | now rewrite IH]. Qed.

Lemma chars_substring n m s :
  list_ascii_of_string (substring n m s) = firstn m (skipn n (list_ascii_of_string s)).
Proof.
  revert n m. induction s as [| c s IH]; intros n m.
  - destruct n, m; reflexivity.
  - destruct n as [| n].
    + destruct m as [| m]; cbn; [reflexivity |].
      rewrite IH. reflexivity.
    + cbn. apply IH.
Qed.

Lemma chars_take n s : list_ascii_of_string (take n s) = firstn n (list_ascii_of_string s).
Proof. unfold take. now rewrite chars_substring. Qed.

Lemma chars_drop n s : list_ascii_of_string (drop n s) = skipn n (list_ascii_of_string s).
Proof.
  unfold drop. rewrite chars_substring.
  apply firstn_all2. rewrite length_skipn, chars_length. reflexivity.
Qed.

Lemma all_digits_app l1 l2 :
  all_digits (l1 ++ l2) = all_digits l1 && all_digits l2.
Proof.
  induction l1 as [| c l1 IH]; cbn; [reflexivity |].
  now rewrite IH, andb_assoc.
Qed.

Lemma all_digits_rev l : all_digits (rev l) = all_digits l.
Proof.
  induction l as [| c l IH]; cbn; [reflexivity |].
  rewrite all_digits_app, IH. cbn. rewrite andb_true_r. apply andb_comm.
Qed.

Lemma is_digit_digit_of_Z d : 0 <= d < 10 -> is_digit (digit_of_Z d) = true.
Proof.
  intros H.
  assert (E : d = 0 \/ d = 1 \/ d = 2 \/ d = 3 \/ d = 4 \/ d = 5 \/ d = 6 \/
              d = 7 \/ d = 8 \/ d = 9) by lia.
  repeat (destruct E as [-> | E]; [reflexivity |]). now subst.
Qed.

Lemma digits_fuel_all_digits fuel n acc :
  all_digits (list_ascii_of_string acc) = true ->
  all_digits (list_ascii_of_string (digits_fuel fuel n acc)) = true.
Proof.
  revert n acc. induction fuel as [| fuel IH]; intros n acc Hacc; cbn; [assumption |].
  destruct (n <=? 0); [assumption |].
  apply IH. cbn. rewrite Hacc, is_digit_digit_of_Z; [reflexivity |].
  apply Z.mod_pos_bound. lia.
Qed.

Lemma digits_fuel_nonempty fuel n acc :
  acc <> "" -> digits_fuel fuel n acc <> "".
Proof.
  revert n acc. induction fuel as [| fuel IH]; intros n acc Hacc; cbn; [assumption |].
  destruct (n <=? 0); [assumption |]. now apply IH.
Qed.

Lemma decimal_all_digits n : all_digits (list_ascii_of_string (decimal n)) = true.
Proof.
  unfold decimal. destruct (n <=? 0); [reflexivity |].
  now apply digits_fuel_all_digits.
Qed.

Lemma decimal_nonempty n : decimal n <> "".
Proof.
  unfold decimal. destruct (n <=? 0) eqn:E; [discriminate |].
  unfold digits. cbn. rewrite E. now apply digits_fuel_nonempty.
Qed.

(** Putting a point before the last of at least two digits. *)
Lemma point_before_last m :
  (2 <= length m)%nat ->
  all_digits (list_ascii_of_string m) = true ->
  one_decimal (take (length m - 1) m ++ "." ++ drop (length m - 1) m) = true.
Proof.
  intros Hlen Hall. unfold one_decimal.
  rewrite !chars_app, chars_take, chars_drop.
  rewrite <- chars_length in *.
  set (L := list_ascii_of_string m) in *.
  destruct (exists_last (l := L)) as (init & d & E).
  { intros ->. cbn in Hlen. lia. }
  rewrite E in *. rewrite length_app in *. cbn [List.length] in *.
  replace (List.length init + 1 - 1)%nat with (List.length init + 0)%nat by lia.
  rewrite firstn_app_2, skipn_app, firstn_O, app_nil_r.
  rewrite skipn_all2 by lia.
  replace (List.length init + 0 - List.length init)%nat with 0%nat by lia.
  cbn [skipn app list_ascii_of_string]. rewrite rev_app_distr. cbn [rev app].
  rewrite all_digits_app in Hall. apply andb_prop in Hall. destruct Hall as [Hi Hd].
  cbn in Hd. rewrite andb_true_r in Hd.
  destruct (rev init) as [| c rest] eqn:Er.
  - assert (init = []) by (apply (f_equal (@rev ascii)) in Er;
      rewrite rev_involutive in Er; exact Er).
    subst init. cbn in Hlen. lia.
  - rewrite <- Er, all_digits_rev, Hi, Hd. reflexivity.
Qed.

Lemma fixed_digits_one_decimal n : one_decimal (fixed_digits n 1) = true.
Proof.
  unfold fixed_digits.
  pose proof (decimal_all_digits n) as Hall.
  pose proof (decimal_nonempty n) as Hne.
  destruct (decimal n) as [| c [| c' s]]; [congruence | |].
  - cbn in Hall |- *. rewrite andb_true_r in Hall. now rewrite Hall.
  - cbn [length Nat.leb Nat.sub].
    apply (point_before_last (String c (String c' s))); [cbn; lia | assumption].
Qed.

(** [toFixed(1)] of a non-negative Number in the fixed range has exactly one
    decimal. *)
Lemma toFixed_one_decimal x :
  fixed_range x = true -> ge x (S754_zero false) = true ->
  one_decimal (toFixed x 1) = true.
Proof.
  destruct x as [s | s | | s m e]; cbn; try discriminate.
  - intros _ _. reflexivity.
  - intros Hr Hs. destruct s; [discriminate |].
    unfold toFixed. apply negb_true_iff in Hr. rewrite Hr.
    apply fixed_digits_one_decimal.
Qed.

(** *** Numbers in the range of fixed notation

    [Zdigits2 m] is the number of binary digits of [m]; a mantissa with
    [Zdigits2 m + e <= B] denotes a value below 2^B. *)

Lemma digits2_pos_log2 p : Z.pos (digits2_pos p) = Z.log2 (Z.pos p) + 1.
Proof.
  assert (E : forall q, digits2_pos q = Pos.size q).
  { induction q; cbn; congruence. }
  rewrite E. destruct p; cbn; lia.
Qed.

Lemma Zdigits2_log2 m : 0 < m -> Zdigits2 m = Z.log2 m + 1.
Proof. destruct m; try lia. intros _. apply digits2_pos_log2. Qed.

Lemma Zdigits2_nonneg m : 0 <= Zdigits2 m.
Proof. destruct m; cbn; lia. Qed.

Lemma Zdigits2_le m k : 0 <= m < 2 ^ k -> 0 <= k -> Zdigits2 m <= k.
Proof.
  intros [H0 Hk] Hk0.
  destruct (Z.eq_dec m 0) as [-> | Hm]; [cbn; lia |].
  rewrite Zdigits2_log2 by lia.
  assert (Z.log2 m < k) by (apply Z.log2_lt_pow2; lia). lia.
Qed.

Lemma Zdigits2_bound m : 0 <= m -> m < 2 ^ Zdigits2 m.
Proof.
  intros H. destruct (Z.eq_dec m 0) as [-> | Hm]; [cbn; lia |].
  rewrite Zdigits2_log2 by lia.
  pose proof (Z.log2_spec m). replace (Z.log2 m + 1) with (Z.succ (Z.log2 m)) by lia. lia.
Qed.

Lemma Zdigits2_low m : 0 < m -> 2 ^ (Zdigits2 m - 1) <= m.
Proof.
  intros H. rewrite Zdigits2_log2 by lia.
  replace (Z.log2 m + 1 - 1) with (Z.log2 m) by lia.
  apply Z.log2_spec. lia.
Qed.

Lemma shr_1_m s : 0 <= shr_m s -> shr_m (shr_1 s) = shr_m s / 2.
Proof.
  destruct s as [m r t]. cbn. intros H.
  destruct m as [| p | p]; [reflexivity | | lia].
  destruct p; cbn [shr_m].
  - rewrite Pos2Z.inj_xI. apply Z.div_unique with 1; lia.
  - rewrite Pos2Z.inj_xO. apply Z.div_unique with 0; lia.
  - reflexivity.
Qed.

Lemma shr_1_nonneg s : 0 <= shr_m s -> 0 <= shr_m (shr_1 s).
Proof. intros H. rewrite shr_1_m by assumption. apply Z.div_pos; lia. Qed.

Lemma iter_pos_shr_m p s :
  0 <= shr_m s -> shr_m (iter_pos shr_1 p s) = shr_m s / 2 ^ Z.pos p.
Proof.
  revert s. induction p as [p IH | p IH |]; intros s H; cbn [iter_pos].
  - assert (H1 := shr_1_nonneg s H).
    assert (H2 : 0 <= shr_m (iter_pos shr_1 p (shr_1 s)))
      by (rewrite IH by assumption; apply Z.div_pos; lia).
    rewrite IH, IH, shr_1_m by assumption.
    rewrite !Z.div_div by lia. f_equal.
    rewrite Pos2Z.inj_xI.
    replace (2 * Z.pos p + 1) with (1 + Z.pos p + Z.pos p) by lia.
    rewrite !Z.pow_add_r by lia. change (2 ^ 1) with 2. lia.
  - assert (H2 : 0 <= shr_m (iter_pos shr_1 p s))
      by (rewrite IH by assumption; apply Z.div_pos; lia).
    rewrite IH, IH by assumption.
    rewrite Z.div_div by lia. f_equal.
    rewrite <- Z.pow_add_r by lia. f_equal. lia.
  - rewrite shr_1_m by assumption. reflexivity.
Qed.

(** Shifting right to the exponent of the format. *)
Lemma shr_fexp_m m e l :
  0 <= m ->
  let k := Z.max 0 (fexp prec emax (Zdigits2 m + e) - e) in
  shr_m (fst (shr_fexp prec emax m e l)) = m / 2 ^ k /\
  snd (shr_fexp prec emax m e l) = e + k.
Proof.
  intros Hm k. unfold shr_fexp, shr. subst k.
  assert (Hrec : shr_m (shr_record_of_loc m l) = m) by (now destruct l as [| []]).
  destruct (fexp prec emax (Zdigits2 m + e) - e) as [| p | p]; cbn [fst snd].
  - rewrite Hrec. cbn. rewrite Z.div_1_r. split; [reflexivity | lia].
  - rewrite iter_pos_shr_m by (rewrite Hrec; assumption).
    rewrite Hrec. replace (Z.max 0 (Z.pos p)) with (Z.pos p) by lia. split; reflexivity.
  - rewrite Hrec. replace (Z.max 0 (Z.neg p)) with 0 by lia.
    cbn. rewrite Z.div_1_r. split; [reflexivity | lia].
Qed.

Lemma round_nearest_even_bounds m l :
  m <= round_nearest_even m l <= m + 1.
Proof.
  destruct l as [| []]; cbn; try lia. destruct (Z.even m); lia.
Qed.

Lemma Zdigits2_div m k :
  0 <= m -> 0 <= k -> Zdigits2 (m / 2 ^ k) <= Z.max 0 (Zdigits2 m - k).
Proof.
  intros Hm Hk.
  pose proof (Zdigits2_bound m Hm) as Hb.
  pose proof (Zdigits2_nonneg m) as Hd.
  assert (Hp : 0 < 2 ^ k) by (apply Z.pow_pos_nonneg; lia).
  destruct (Z_le_gt_dec (Zdigits2 m) k) as [Hle | Hgt].
  - rewrite Z.div_small; [cbn; lia |].
    split; [assumption |].
    apply Z.lt_le_trans with (2 ^ Zdigits2 m); [assumption |].
    apply Z.pow_le_mono_r; lia.
  - replace (Z.max 0 (Zdigits2 m - k)) with (Zdigits2 m - k) by lia.
    apply Zdigits2_le; [| lia].
    split; [apply Z.div_pos; lia |].
    apply Z.div_lt_upper_bound; [assumption |].
    rewrite <- Z.pow_add_r by lia.
    replace (k + (Zdigits2 m - k)) with (Zdigits2 m) by lia. assumption.
Qed.

Lemma Zdigits2_succ m m' :
  0 <= m -> m <= m' <= m + 1 -> Zdigits2 m' <= Zdigits2 m + 1.
Proof.
  intros Hm Hm'.
  pose proof (Zdigits2_bound m Hm) as Hb.
  pose proof (Zdigits2_nonneg m) as Hd.
  apply Zdigits2_le; [| lia].
  split; [lia |].
  rewrite Z.pow_add_r by lia. change (2 ^ 1) with 2. lia.
Qed.

(** Rounding keeps the magnitude: a positive mantissa with a value below 2^B
    rounds to zero or to a finite value below 2^(B+1), never to infinity. *)
Lemma binary_round_aux_range sx mx ex lx B :
  0 < mx -> Zdigits2 mx + ex <= B -> ex <= 971 -> -1074 <= B <= 1023 ->
  binary_round_aux prec emax sx mx ex lx = S754_zero sx \/
  exists m e,
    binary_round_aux prec emax sx mx ex lx = S754_finite sx m e /\
    Zdigits2 (Z.pos m) + e <= B + 1 /\ ex <= e.
Proof.
  intros Hmx HB Hex HBr. unfold binary_round_aux.
  destruct (shr_fexp_m mx ex lx) as [Hm1 He1]; [lia |].
  destruct (shr_fexp prec emax mx ex lx) as [mrs' e']. cbn [fst snd] in Hm1, He1.
  set (m2 := round_nearest_even (shr_m mrs') (loc_of_shr_record mrs')).
  assert (Hm1' : 0 <= shr_m mrs').
  { rewrite Hm1. apply Z.div_pos; [lia |]. apply Z.pow_pos_nonneg; lia. }
  pose proof (round_nearest_even_bounds (shr_m mrs') (loc_of_shr_record mrs')) as Hr.
  fold m2 in Hr.
  destruct (shr_fexp_m m2 e' loc_Exact) as [Hm3 He3]; [lia |].
  destruct (shr_fexp prec emax m2 e' loc_Exact) as [mrs'' e'']. cbn [fst snd] in Hm3, He3.
  pose proof (Zdigits2_div mx (Z.max 0 (fexp prec emax (Zdigits2 mx + ex) - ex))
                ltac:(lia) ltac:(lia)) as Hd1.
  rewrite <- Hm1 in Hd1.
  pose proof (Zdigits2_succ (shr_m mrs') m2 Hm1' Hr) as Hd2.
  pose proof (Zdigits2_div m2 (Z.max 0 (fexp prec emax (Zdigits2 m2 + e') - e'))
                ltac:(lia) ltac:(lia)) as Hd3.
  rewrite <- Hm3 in Hd3.
  pose proof (Zdigits2_nonneg mx). pose proof (Zdigits2_nonneg m2).
  pose proof (Zdigits2_nonneg (shr_m mrs')).
  assert (Hm3' : 0 <= shr_m mrs'').
  { rewrite Hm3. apply Z.div_pos; [lia |]. apply Z.pow_pos_nonneg; lia. }
  unfold fexp, SpecFloat.emin, prec, emax in *.
  destruct (shr_m mrs'') as [| m | m] eqn:Em; [now left | | lia].
  right. exists m, e''.
  assert (Hpos : 1 <= Zdigits2 (Z.pos m)) by (cbn; lia).
  replace (e'' <=? 1024 - 53) with true by (symmetry; apply Z.leb_le; lia).
  split; [reflexivity |]. lia.
Qed.

Lemma at_least_1e21_false m e :
  Zdigits2 (Z.pos m) + e <= 69 -> at_least_1e21 m e = false.
Proof.
  intros H. unfold at_least_1e21.
  pose proof (Zdigits2_bound (Z.pos m) ltac:(lia)) as Hb.
  assert (Hd : 1 <= Zdigits2 (Z.pos m)) by (cbn; lia).
  destruct (0 <=? e) eqn:He.
  - apply Z.leb_le in He. apply Z.leb_gt.
    apply Z.lt_le_trans with (2 ^ 69); [| vm_compute; discriminate].
    apply Z.lt_le_trans with (2 ^ Zdigits2 (Z.pos m) * 2 ^ e).
    + apply Z.mul_lt_mono_pos_r; [apply Z.pow_pos_nonneg; lia | assumption].
    + rewrite <- Z.pow_add_r by lia. apply Z.pow_le_mono_r; lia.
  - apply Z.leb_gt in He. apply Z.leb_gt.
    apply Z.lt_le_trans with (2 ^ Zdigits2 (Z.pos m)); [assumption |].
    apply Z.le_trans with (2 ^ 69 * 2 ^ (- e)).
    + rewrite <- Z.pow_add_r by lia. apply Z.pow_le_mono_r; lia.
    + apply Z.mul_le_mono_nonneg_r; [apply Z.pow_nonneg; lia |].
      vm_compute; discriminate.
Qed.

Lemma digits2_pos_iter_xO m d :
  digits2_pos (Pos.iter xO m d) = (digits2_pos m + d)%positive.
Proof.
  induction d as [| d IH] using Pos.peano_ind.
  - cbn. lia.
  - rewrite Pos.iter_succ. cbn. rewrite IH. lia.
Qed.

Lemma shl_align_spec mx ex ex' :
  snd (shl_align mx ex ex') = Z.min ex ex' /\
  Z.pos (digits2_pos (fst (shl_align mx ex ex'))) + snd (shl_align mx ex ex') =
  Z.pos (digits2_pos mx) + ex.
Proof.
  unfold shl_align.
  destruct (ex' - ex) as [| d | d] eqn:E; cbn [fst snd]; try (split; lia).
  rewrite digits2_pos_iter_xO. split; lia.
Qed.

(** An integer below 2^53 as a Number. *)
Lemma of_Z_range z :
  0 <= z < 2 ^ 53 ->
  of_Z z = S754_zero false \/
  exists m e, of_Z z = S754_finite false m e /\
              Zdigits2 (Z.pos m) + e <= 54 /\ -52 <= e.
Proof.
  intros [H0 H53]. unfold of_Z, binary_normalize.
  destruct z as [| p | p]; [now left | | lia].
  unfold binary_round.
  destruct (shl_align_spec p 0 (fexp prec emax (Z.pos (digits2_pos p) + 0)))
    as [He Hd].
  destruct (shl_align p 0 (fexp prec emax (Z.pos (digits2_pos p) + 0))) as [mz ez].
  cbn [fst snd] in He, Hd.
  assert (Hp : Zdigits2 (Z.pos p) <= 53) by (apply Zdigits2_le; lia).
  cbn [Zdigits2] in Hp.
  unfold fexp, SpecFloat.emin, prec, emax in *.
  destruct (binary_round_aux_range false (Z.pos mz) ez loc_Exact 53) as
    [Hz | (m & e & Hf & Hde & Hee)]; cbn [Zdigits2]; try lia.
  - now left.
  - right. exists m, e. split; [exact Hf |]. cbn [Zdigits2] in *. split; lia.
Qed.

Lemma of_Z_60000 : of_Z 60000 = S754_finite false 8246337208320000 (-37).
Proof. reflexivity. Qed.

(** The elapsed minutes of any span below 2^53 milliseconds are in the
    range that [toFixed] prints in fixed notation. *)
Lemma minutes_range ms :
  0 <= ms < 2 ^ 53 ->
  fixed_range (div (of_Z ms) (of_Z 60000)) = true /\
  ge (div (of_Z ms) (of_Z 60000)) (S754_zero false) = true.
Proof.
  intros Hms. rewrite of_Z_60000.
  destruct (of_Z_range ms Hms) as [-> | (m & e & -> & Hd & He)]; [now split |].
  unfold div, SFdiv, SFdiv_core_binary.
  assert (Hd1 : 1 <= Zdigits2 (Z.pos m)) by (cbn; lia).
  change (Zdigits2 8246337208320000) with 53.
  set (d1 := Zdigits2 (Z.pos m)) in *.
  assert (Ee : Z.min (fexp prec emax (d1 + e - (53 + -37))) (e - -37) = d1 + e - 69).
  { unfold fexp, SpecFloat.emin, prec, emax. lia. }
  rewrite Ee.
  replace (e - -37 - (d1 + e - 69)) with (106 - d1) by lia.
  set (m' := match 106 - d1 with
             | 0 => Z.pos m
             | Z.pos _ => Z.shiftl (Z.pos m) (106 - d1)
             | Z.neg _ => 0
             end).
  assert (Em : m' = Z.pos m * 2 ^ (106 - d1)).
  { subst m'. destruct (106 - d1) as [| s | s] eqn:Es; [cbn; lia | | lia].
    rewrite Z.shiftl_mul_pow2 by lia. reflexivity. }
  pose proof (Zdigits2_bound (Z.pos m) ltac:(lia)) as Hhi.
  pose proof (Zdigits2_low (Z.pos m) ltac:(lia)) as Hlo.
  fold d1 in Hhi, Hlo.
  assert (Hpow : 0 < 2 ^ (106 - d1)) by (apply Z.pow_pos_nonneg; lia).
  assert (Hm'lo : 2 ^ 105 <= m').
  { rewrite Em. replace 105 with ((d1 - 1) + (106 - d1)) by lia.
    rewrite Z.pow_add_r by lia. apply Z.mul_le_mono_nonneg_r; lia. }
  assert (Hm'hi : m' < 2 ^ 106).
  { rewrite Em. replace 106 with (d1 + (106 - d1)) at 2 by lia.
    rewrite Z.pow_add_r by lia. apply Z.mul_lt_mono_pos_r; lia. }
  pose proof (Z_div_mod m' 8246337208320000 ltac:(lia)) as Hdm.
  destruct (Z.div_eucl m' 8246337208320000) as [q r].
  destruct Hdm as [Hq Hr].
  assert (Hq0 : 0 < q).
  { assert (2 ^ 105 = 40564819207303340847894502572032) by reflexivity. nia. }
  assert (Hq54 : q < 2 ^ 54).
  { assert (2 ^ 106 = 81129638414606681695789005144064) by reflexivity.
    assert (2 ^ 54 = 18014398509481984) by reflexivity. nia. }
  assert (Hdq : Zdigits2 q <= 54) by (apply Zdigits2_le; lia).
  destruct (binary_round_aux_range (xorb false false) q (d1 + e - 69)
              (new_location 8246337208320000 r) 68) as
    [-> | (m3 & e3 & -> & Hd3 & He3)]; try lia.
  - now split.
  - cbn [xorb fixed_range]. split; [| reflexivity].
    rewrite at_least_1e21_false; [reflexivity | lia].
Qed.

Lemma minutes_one_decimal ms :
  0 <= ms < 2 ^ 53 -> one_decimal (minutes ms) = true.
Proof.
  intros H. destruct (minutes_range ms H) as [Hr Hg].
  unfold minutes. now apply toFixed_one_decimal.
Qed.

(** ** The sustained CPU alert *)

Lemma ge_threshold_nonneg x t :
  0 < t < 2 ^ 53 -> ge x (of_Z t) = true -> ge x (S754_zero false) = true.
Proof.
  intros Ht. destruct (of_Z_range t ltac:(lia)) as [E | (m & e & E & _)].
  - now rewrite E.
  - rewrite E. unfold ge. destruct x as [s | s | | s m' e']; cbn; try discriminate.
    + now destruct s.
    + now destruct s.
Qed.

(** C1. In a check whose CPU sample is present and at or above the
    threshold, the sustain timer is set to now if it was unset and kept
    otherwise; a CPU descriptor is produced if and only if the time since
    the timer is at least the sustained duration; on the first check of an
    excursion the timer becomes now and no CPU descriptor is produced; and
    the descriptor carries the CPU value to one decimal, the threshold, the
    elapsed minutes to one decimal and the formatted list of the top 8 CPU
    processes. *)
Theorem cpu_descriptor_iff_sustained env w x :
  cpuPercent env = Some x ->
  ge x (of_Z CPU_THRESHOLD) = true ->
  let now := clock_check env in
  let since := if unset (cpuOverThresholdSince w) then now
               else since_value (cpuOverThresholdSince w) in
  let list := formatProcessList (Some (topCpu env 8)) "cpu" in
  (exists lines,
     evaluateThresholds env w =
     (Ok (now, alerts_of env w), logs (with_since w (Some since)) lines)) /\
  titled CPU_TITLE (alerts_of env w) =
    (if CPU_OVER_THRESHOLD_DURATION <=? now - since
     then [cpuAlert x (now - since) list] else []) /\
  (titled CPU_TITLE (alerts_of env w) <> [] <->
   CPU_OVER_THRESHOLD_DURATION <= now - since) /\
  (cpuOverThresholdSince w = None ->
   since = now /\ titled CPU_TITLE (alerts_of env w) = []) /\
  value (cpuAlert x (now - since) list) =
    "*Current CPU Usage: " ++ toFixed x 1 ++ "%*" ++ nl ++
    "*Threshold: 90%*" ++ nl ++
    "*Duration: " ++ toFixed (div (of_Z (now - since)) (of_Z 60000)) 1 ++
    " minutes*" ++ nl ++ nl ++
    "*Top CPU Processes:*" ++ nl ++ list /\
  topCpu env 8 =
    match exec env at_top_cpu "ps aux --sort=-%cpu | head -9 | tail -8" with
    | Returns output => processesOf output
    | Throws _ => []
    end /\
  (fixed_range x = true -> one_decimal (toFixed x 1) = true) /\
  (0 <= now - since < 2 ^ 53 ->
   one_decimal (toFixed (div (of_Z (now - since)) (of_Z 60000)) 1) = true).
Proof.
  intros Hx Hge now since list.
  assert (Hsince : since_after env w = Some since)
    by (unfold since_after, over; now rewrite Hx, Hge).
  assert (Hcpu : titled CPU_TITLE (alerts_of env w) =
                 if CPU_OVER_THRESHOLD_DURATION <=? now - since
                 then [cpuAlert x (now - since) list] else []).
  { rewrite titled_cpu. unfold cpu_alerts, elapsed.
    now rewrite Hx, Hge, Hsince. }
  repeat split.
  - destruct (evaluateThresholds_run env w) as [l H]. exists l.
    rewrite alerts_of_descriptors, H, Hsince. reflexivity.
  - exact Hcpu.
  - rewrite Hcpu. intros H. apply Z.leb_le.
    now destruct (CPU_OVER_THRESHOLD_DURATION <=? now - since).
  - intros H. rewrite Hcpu. apply Z.leb_le in H. now rewrite H.
  - subst since. now rewrite H.
  - rewrite Hcpu. subst since. rewrite H. cbn [unset].
    now rewrite Z.sub_diag.
  - intros Hr. apply toFixed_one_decimal; [assumption |].
    now apply (ge_threshold_nonneg x CPU_THRESHOLD).
  - intros Hr. now apply minutes_one_decimal.
Qed.

Lemma cpu_descriptor_iff_sustained_witness :
  cpuPercent (reading "95.0" "75.0" "25.0" (t0 + mins 6)) = Some (parseFloat "95.0") /\
  ge (parseFloat "95.0") (of_Z CPU_THRESHOLD) = true /\
  titled CPU_TITLE
    (alerts_of (reading "95.0" "75.0" "25.0" (t0 + mins 6))
               (with_since (initial None) (Some t0))) <> [].
Proof.
  split; [reflexivity |]. split; [reflexivity |].
  apply (cpu_descriptor_iff_sustained
           (reading "95.0" "75.0" "25.0" (t0 + mins 6))
           (with_since (initial None) (Some t0)) (parseFloat "95.0")
           eq_refl eq_refl).
  vm_compute. discriminate.
Defined.

(** ** Resetting the sustain timer *)

Lemma since_checkSystemHealth env w :
  cpuOverThresholdSince (snd (checkSystemHealth env w)) = since_after env w.
Proof.
  destruct (checkSystemHealth_run env w) as (text & lines & H & _).
  now rewrite H.
Qed.

Lemma since_evaluateThresholds env w :
  cpuOverThresholdSince (snd (evaluateThresholds env w)) = since_after env w.
Proof.
  destruct (evaluateThresholds_run env w) as (lines & H). now rewrite H.
Qed.

Lemma since_after_held env w t :
  t <> 0 -> cpuOverThresholdSince w = Some t ->
  over (cpuPercent env) CPU_THRESHOLD = true ->
  since_after env w = Some t.
Proof.
  intros Ht Hw Hover. unfold since_after. rewrite Hover, Hw. cbn.
  apply Z.eqb_neq in Ht. now rewrite Ht.
Qed.

Lemma run_held held w t :
  t <> 0 -> cpuOverThresholdSince w = Some t ->
  Forall (fun e => over (cpuPercent e) CPU_THRESHOLD = true) held ->
  cpuOverThresholdSince (run held w) = Some t.
Proof.
  intros Ht. revert w. induction held as [| env held IH]; intros w Hw Hall; cbn.
  - assumption.
  - inversion Hall as [| e l Hover Hrest]; subst.
    apply IH; [| assumption].
    rewrite since_checkSystemHealth. now apply since_after_held.
Qed.

Lemma not_over_cases env :
  cpuPercent env = None \/
  (exists x, cpuPercent env = Some x /\ lt x (of_Z CPU_THRESHOLD) = true) ->
  over (cpuPercent env) CPU_THRESHOLD = false.
Proof.
  intros [H | (x & H & Hlt)]; rewrite H; cbn; [reflexivity |].
  now apply lt_not_ge.
Qed.

Lemma cpu_alerts_not_over env w :
  over (cpuPercent env) CPU_THRESHOLD = false -> cpu_alerts env w = [].
Proof.
  unfold cpu_alerts, over. destruct (cpuPercent env) as [c |]; [| reflexivity].
  now intros ->.
Qed.

(** C2. In a check whose CPU sample is below the threshold or absent, no
    CPU descriptor is produced and the sustain timer is unset; so after such
    a check the duration is measured from the next crossing: however long
    the CPU then stays over the threshold, a later check produces a CPU
    descriptor if and only if the sustained duration has passed since that
    crossing. *)
Theorem cpu_timer_reset_below_or_absent env w :
  cpuPercent env = None \/
  (exists x, cpuPercent env = Some x /\ lt x (of_Z CPU_THRESHOLD) = true) ->
  titled CPU_TITLE (alerts_of env w) = [] /\
  cpuOverThresholdSince (snd (evaluateThresholds env w)) = None /\
  cpuOverThresholdSince (snd (checkSystemHealth env w)) = None /\
  forall crossing held later,
    over (cpuPercent crossing) CPU_THRESHOLD = true ->
    clock_check crossing <> 0 ->
    Forall (fun e => over (cpuPercent e) CPU_THRESHOLD = true) held ->
    over (cpuPercent later) CPU_THRESHOLD = true ->
    cpuOverThresholdSince (run (env :: crossing :: held) w) =
      Some (clock_check crossing) /\
    (titled CPU_TITLE (alerts_of later (run (env :: crossing :: held) w)) <> [] <->
     CPU_OVER_THRESHOLD_DURATION <= clock_check later - clock_check crossing).
Proof.
  intros Hlow. apply not_over_cases in Hlow.
  assert (Hreset : since_after env w = None)
    by (unfold since_after; now rewrite Hlow).
  split; [rewrite titled_cpu; now apply cpu_alerts_not_over |].
  split; [now rewrite since_evaluateThresholds |].
  split; [now rewrite since_checkSystemHealth |].
  intros crossing held later Hcross Hclock Hheld Hlater.
  assert (Hsince : cpuOverThresholdSince (run (env :: crossing :: held) w) =
                   Some (clock_check crossing)).
  { cbn [run]. apply run_held; [assumption | | assumption].
    rewrite since_checkSystemHealth. unfold since_after.
    rewrite Hcross, since_checkSystemHealth, Hreset. reflexivity. }
  split; [exact Hsince |].
  rewrite titled_cpu. unfold cpu_alerts, elapsed.
  rewrite (since_after_held later _ _ Hclock Hsince Hlater).
  unfold over in Hlater. destruct (cpuPercent later) as [c |]; [| discriminate].
  rewrite Hlater. cbn [andb since_value].
  destruct (Z.leb_spec CPU_OVER_THRESHOLD_DURATION
              (clock_check later - clock_check crossing)) as [H | H].
  - split; [intros _; exact H | discriminate].
  - split; [congruence | lia].
Qed.

Lemma cpu_timer_reset_below_or_absent_witness :
  (cpuPercent dip = None \/
   (exists x, cpuPercent dip = Some x /\ lt x (of_Z CPU_THRESHOLD) = true)) /\
  cpuOverThresholdSince before_dip = Some t0 /\
  cpuOverThresholdSince (snd (checkSystemHealth dip before_dip)) = None /\
  titled CPU_TITLE
    (alerts_of ninth_minute (run [dip; second_crossing] before_dip)) = [].
Proof.
  assert (H : cpuPercent dip = None \/
              (exists x, cpuPercent dip = Some x /\ lt x (of_Z CPU_THRESHOLD) = true)).
  { right. exists (parseFloat "42.0"). split; reflexivity. }
  split; [exact H |]. split; [reflexivity |].
  destruct (cpu_timer_reset_below_or_absent dip before_dip H) as (_ & _ & Hnone & Hnext).
  split; [exact Hnone |].
  destruct (Hnext second_crossing [] ninth_minute eq_refl) as [_ Hiff].
  - vm_compute. discriminate.
  - constructor.
  - reflexivity.
  - destruct (titled CPU_TITLE
                (alerts_of ninth_minute (run [dip; second_crossing] before_dip)));
      [reflexivity |].
    assert (Hd : CPU_OVER_THRESHOLD_DURATION <=
                 clock_check ninth_minute - clock_check second_crossing)
      by (apply Hiff; discriminate).
    vm_compute in Hd. now destruct Hd.
Defined.

(** ** The cooldown gate *)

(** *** Writing the time and reading it back *)

Lemma digit_val_digit_of_Z d : 0 <= d < 10 -> digit_val (digit_of_Z d) = d.
Proof.
  intros H.
  assert (E : d = 0 \/ d = 1 \/ d = 2 \/ d = 3 \/ d = 4 \/ d = 5 \/ d = 6 \/
              d = 7 \/ d = 8 \/ d = 9) by lia.
  repeat (destruct E as [-> | E]; [reflexivity |]). now subst.
Qed.

Lemma append_assoc (a b c : string) : (a ++ b) ++ c = a ++ (b ++ c).
Proof. induction a as [| x a IH]; cbn; [reflexivity | now rewrite IH]. Qed.

Lemma digits_fuel_app fuel n acc :
  digits_fuel fuel n acc = digits_fuel fuel n "" ++ acc.
Proof.
  revert n acc. induction fuel as [| fuel IH]; intros n acc; cbn; [reflexivity |].
  destruct (n <=? 0); [reflexivity |].
  rewrite IH, (IH _ (String _ "")), append_assoc. reflexivity.
Qed.

Lemma digits_value_snoc a s c :
  digits_value a (s ++ String c "") = 10 * digits_value a s + digit_val c.
Proof. revert a. induction s as [| x s IH]; intros a; cbn; [reflexivity | apply IH]. Qed.

Lemma digits_value_digits_fuel fuel n :
  0 <= n < 2 ^ Z.of_nat fuel ->
  digits_value 0 (digits_fuel fuel n "") = n.
Proof.
  revert n. induction fuel as [| fuel IH]; intros n Hn.
  - cbn in *. lia.
  - cbn [digits_fuel]. destruct (Z.leb_spec n 0) as [H | H]; [cbn; lia |].
    rewrite digits_fuel_app, digits_value_snoc, IH.
    + rewrite digit_val_digit_of_Z by (apply Z.mod_pos_bound; lia).
      symmetry. apply Z.div_mod. lia.
    + rewrite Nat2Z.inj_succ, Z.pow_succ_r in Hn by lia.
      split; [apply Z.div_pos; lia |].
      apply Z.div_lt_upper_bound; lia.
Qed.

Lemma digits_value_decimal n : 0 <= n -> digits_value 0 (decimal n) = n.
Proof.
  intros Hn. unfold decimal. destruct (Z.leb_spec n 0) as [H | H]; [cbn; lia |].
  unfold digits. apply digits_value_digits_fuel. split; [lia |].
  rewrite Nat2Z.inj_succ, Z2Nat.id by apply Z.log2_nonneg.
  apply Z.log2_spec. lia.
Qed.

Lemma span_all_digits s :
  all_digits (list_ascii_of_string s) = true -> span_digits s = (s, "").
Proof.
  induction s as [| c s IH]; cbn; [reflexivity |].
  intros H. apply andb_prop in H. destruct H as [Hc Hs].
  now rewrite Hc, IH.
Qed.

(** The magnitude of a string of digits is the number they spell, there
    being no hexadecimal prefix. *)
Lemma magnitude_digits s :
  s <> "" -> all_digits (list_ascii_of_string s) = true ->
  magnitude s = Some (digits_value 0 s).
Proof.
  intros Hne Hall. destruct s as [| c s]; [congruence |].
  unfold magnitude. rewrite (span_all_digits _ Hall).
  cbn in Hall. apply andb_prop in Hall. destruct Hall as [Hc Hs].
  assert (Hx : match s with String x _ => is_digit x = true | EmptyString => True end).
  { destruct s as [| x s]; [exact I |]. cbn in Hs. now apply andb_prop in Hs. }
  destruct s as [| x s]; [| destruct x as [[] [] [] [] [] [] [] []];
                            try discriminate Hx];
    destruct c as [[] [] [] [] [] [] [] []]; try discriminate Hc; reflexivity.
Qed.

Lemma first_digit_kept s :
  s <> "" -> all_digits (list_ascii_of_string s) = true ->
  trimStart s = s /\ strip_sign s = (false, s).
Proof.
  intros Hne Hall. destruct s as [| c s]; [congruence |].
  cbn in Hall. apply andb_prop in Hall. destruct Hall as [Hc _].
  split; cbn; destruct c as [[] [] [] [] [] [] [] []]; try discriminate Hc; reflexivity.
Qed.

(** What [Date.now().toString()] writes, [parseInt] reads back. *)
Lemma parseInt_int_toString n : parseInt (int_toString n) = Some n.
Proof.
  pose proof (decimal_nonempty (- n)) as Hne'.
  pose proof (decimal_all_digits (- n)) as Hall'.
  pose proof (decimal_nonempty n) as Hne.
  pose proof (decimal_all_digits n) as Hall.
  unfold int_toString, parseInt.
  destruct (Z.ltb_spec n 0) as [Hn | Hn].
  - change (trimStart ("-" ++ decimal (- n))) with ("-" ++ decimal (- n)).
    change (strip_sign ("-" ++ decimal (- n))) with (true, decimal (- n)).
    cbv beta iota.
    rewrite (magnitude_digits _ Hne' Hall'), digits_value_decimal by lia.
    cbn. f_equal. lia.
  - destruct (first_digit_kept _ Hne Hall) as [-> ->].
    rewrite (magnitude_digits _ Hne Hall), digits_value_decimal by lia.
    reflexivity.
Qed.

(** *** The gate *)

Lemma dispatches_nonempty env w :
  alerts_of env w <> [] ->
  dispatches env w = cooldown_over (clock_check env) (lastAlertTime env w).
Proof.
  rewrite alerts_of_descriptors. unfold dispatches.
  now destruct (descriptors env w).
Qed.

Lemma snoc_neq {A} (l : list A) (x : A) : (l ++ [x])%list <> l.
Proof.
  intros H. apply (f_equal (@List.length A)) in H.
  rewrite length_app in H. cbn in H. lia.
Qed.

Lemma lastAlertTime_after_write env next w' :
  read_error next = None ->
  last_alert_file w' = Some (int_toString (clock_write env)) ->
  lastAlertTime next w' = Some (clock_write env).
Proof.
  intros Hread Hfile. unfold lastAlertTime.
  rewrite Hfile, Hread. apply parseInt_int_toString.
Qed.

Lemma gate_decision (env : Env) (w : World) t :
  alerts_of env w <> [] -> lastAlertTime env w = Some t ->
  ((posted (snd (checkSystemHealth env w)) <> posted w) <->
   (ALERT_COOLDOWN <= clock_check env - t)).
Proof.
  intros Hne Ht.
  pose proof (dispatches_nonempty env w Hne) as Hd.
  destruct (checkSystemHealth_run env w) as (text & lines & Hrun & _).
  rewrite Hrun, Hd, Ht. cbn [snd posted]. unfold cooldown_over.
  destruct (Z.leb_spec ALERT_COOLDOWN (clock_check env - t)) as [H | H].
  - split; [intros _; exact H | intros _; apply snoc_neq].
  - split; [congruence | lia].
Qed.

(** C3. In a check with a non-empty list of descriptors the alert is
    dispatched if and only if the time since the last alert is at least the
    cooldown.  A dispatched alert is one message carrying every descriptor of
    this check; a suppressed one leaves nothing behind but console lines (and
    the sustain timer), so nothing is queued or merged.  The window is one
    for all metrics: once an alert has been sent and its time recorded, any
    check inside the window sends nothing, whichever metrics trigger in it. *)
Theorem cooldown_gate_is_global (env : Env) (w : World) :
  alerts_of env w <> [] ->
  (exists lines,
     getLastAlertTime env w = (Ok (lastAlertTime env w), logs w lines)) /\
  (forall t, lastAlertTime env w = Some t ->
     ((posted (snd (checkSystemHealth env w)) <> posted w) <->
      (ALERT_COOLDOWN <= clock_check env - t))) /\
  (cooldown_over (clock_check env) (lastAlertTime env w) = true ->
   exists text,
     posted (snd (checkSystemHealth env w)) =
     (posted w ++
      [(SLACK_WEBHOOK_URL env,
        {| msg_text := text;
           attachments := mapi (attachment_of env) (alerts_of env w) |})])%list) /\
  (cooldown_over (clock_check env) (lastAlertTime env w) = false ->
   exists lines,
     snd (checkSystemHealth env w) = logs (with_since w (since_after env w)) lines) /\
  (forall next,
     cooldown_over (clock_check env) (lastAlertTime env w) = true ->
     post_error env = None -> write_error env = None ->
     read_error next = None ->
     clock_check next - clock_write env < ALERT_COOLDOWN ->
     posted (snd (checkSystemHealth next (snd (checkSystemHealth env w)))) =
     posted (snd (checkSystemHealth env w))).
Proof.
  intros Hne.
  split; [apply getLastAlertTime_run |].
  split; [intros t Ht; now apply gate_decision |].
  pose proof (dispatches_nonempty env w Hne) as Hd.
  destruct (checkSystemHealth_run env w) as (text & lines & Hrun & _).
  rewrite Hrun, Hd. cbn [snd posted]. rewrite alerts_of_descriptors.
  repeat split.
  - intros ->. now exists text.
  - intros ->. exists lines. reflexivity.
  - intros next Hover Hpost Hwrite Hread Hwindow.
    rewrite Hover.
    match goal with |- posted (snd (checkSystemHealth next ?w1)) = _ =>
      set (w' := w1) end.
    assert (Hlast : lastAlertTime next w' = Some (clock_write env)).
    { apply (lastAlertTime_after_write env next w' Hread).
      subst w'. cbn. unfold file_after_send. now rewrite Hpost, Hwrite. }
    destruct (checkSystemHealth_run next w') as (text' & lines' & Hrun' & _).
    rewrite Hrun'. cbn [snd posted].
    assert (Hno : dispatches next w' = false).
    { unfold dispatches. destruct (descriptors next w'); [reflexivity |].
      rewrite Hlast. unfold cooldown_over. apply Z.leb_gt. lia. }
    now rewrite Hno.
Qed.

Lemma cooldown_gate_is_global_witness :
  alerts_of memory_alarm alerted_at_t0 <> [] /\
  posted (snd (checkSystemHealth memory_alarm alerted_at_t0)) <> posted alerted_at_t0.
Proof.
  assert (H : alerts_of memory_alarm alerted_at_t0 <> [])
    by (vm_compute; discriminate).
  split; [exact H |].
  apply (proj1 (proj2 (cooldown_gate_is_global memory_alarm alerted_at_t0 H))
           t0 eq_refl).
  vm_compute. discriminate.
Defined.

(** ** Sending and recording *)

(** C4. When the webhook refuses the request, [sendSlackAlert] returns
    normally and leaves a world that is fully known: the request went out,
    the console has the lines of the context providers and then the one
    error line of the failed send, and the last-alert file is as it was;
    nothing of [setLastAlertTime] shows, neither its write nor the line it
    logs when the write fails.  So every later reading of the last alert
    time is what it was before, and the whole check returns normally too,
    with the file untouched. *)
Theorem failed_send_keeps_cooldown alerts env w e :
  post_error env = Some e ->
  (exists text,
     sendSlackAlert alerts env w =
     (Ok tt,
      {| cpuOverThresholdSince := cpuOverThresholdSince w;
         last_alert_file := last_alert_file w;
         console := console w ++ context_lines env ++
                    [(stderr, "Error sending Slack message: " ++ e)];
         posted := posted w ++
           [(SLACK_WEBHOOK_URL env,
             {| msg_text := text;
                attachments := mapi (attachment_of env) alerts |})] |})) /\
  (forall next,
     lastAlertTime next (snd (sendSlackAlert alerts env w)) = lastAlertTime next w) /\
  fst (checkSystemHealth env w) = Ok tt /\
  last_alert_file (snd (checkSystemHealth env w)) = last_alert_file w /\
  (forall next,
     lastAlertTime next (snd (checkSystemHealth env w)) = lastAlertTime next w).
Proof.
  intros Hpost.
  assert (Hfile : file_after_send env w = last_alert_file w)
    by (unfold file_after_send; now rewrite Hpost).
  assert (Hlines : send_lines env alerts =
                   [(stderr, "Error sending Slack message: " ++ e)])
    by (unfold send_lines; now rewrite Hpost).
  destruct (sendSlackAlert_run alerts env w) as (text & Hrun).
  rewrite Hfile, Hlines in Hrun.
  split; [now exists text |].
  split; [intros next; now rewrite Hrun |].
  destruct (checkSystemHealth_run env w) as (text' & lines & Hcheck & _).
  rewrite Hcheck. cbn [fst snd last_alert_file].
  assert (Hsame : (if dispatches env w then file_after_send env w
                   else last_alert_file w) = last_alert_file w)
    by (rewrite Hfile; now destruct (dispatches env w)).
  split; [reflexivity |]. split; [exact Hsame |].
  intros next. unfold lastAlertTime. cbn [last_alert_file]. now rewrite Hsame.
Qed.

Lemma failed_send_keeps_cooldown_witness :
  post_error memory_alarm_unsent = Some "Request failed with status code 500" /\
  last_alert_file (snd (checkSystemHealth memory_alarm_unsent alerted_at_t0)) =
    Some "1700000000000".
Proof.
  split; [reflexivity |].
  apply (proj2 (proj2 (failed_send_keeps_cooldown [] memory_alarm_unsent alerted_at_t0
                         "Request failed with status code 500" eq_refl))).
Defined.

(** ** Memory and swap *)

(** C5. The memory and the swap descriptors depend on the current sample
    alone: a sample at or above the threshold produces the descriptor at
    once, in any world; an absent sample produces none, and the evaluation
    returns normally; and the world the check starts in never matters to
    either descriptor. *)
Theorem memory_and_swap_are_instantaneous (env : Env) (w : World) :
  (forall x, memPercent env = Some x -> ge x (of_Z MEM_THRESHOLD) = true ->
     titled MEM_TITLE (alerts_of env w) =
     [memAlert x (detailedMem env)
               (formatProcessList (Some (topMem env 8)) "memory")]) /\
  (forall x, swapPercent env = Some x -> ge x (of_Z SWAP_THRESHOLD) = true ->
     titled SWAP_TITLE (alerts_of env w) = [swapAlert x (detailedSwap env)]) /\
  (memPercent env = None -> titled MEM_TITLE (alerts_of env w) = []) /\
  (swapPercent env = None -> titled SWAP_TITLE (alerts_of env w) = []) /\
  (exists w', evaluateThresholds env w = (Ok (clock_check env, alerts_of env w), w')) /\
  (forall w2,
     titled MEM_TITLE (alerts_of env w2) = titled MEM_TITLE (alerts_of env w) /\
     titled SWAP_TITLE (alerts_of env w2) = titled SWAP_TITLE (alerts_of env w)).
Proof.
  rewrite titled_mem, titled_swap. unfold mem_alerts, swap_alerts.
  repeat split.
  - intros x -> ->. reflexivity.
  - intros x -> ->. reflexivity.
  - intros ->. reflexivity.
  - intros ->. reflexivity.
  - destruct (evaluateThresholds_run env w) as [l H].
    eexists. rewrite alerts_of_descriptors. exact H.
  - now rewrite titled_mem.
  - now rewrite titled_swap.
Qed.

Lemma memory_and_swap_are_instantaneous_witness :
  memPercent memory_and_swap_high = Some (parseFloat "95") /\
  ge (parseFloat "95") (of_Z MEM_THRESHOLD) = true /\
  titled MEM_TITLE (alerts_of memory_and_swap_high (initial None)) =
  [memAlert (parseFloat "95") (detailedMem memory_and_swap_high)
     (formatProcessList (Some (topMem memory_and_swap_high 8)) "memory")].
Proof.
  split; [reflexivity |]. split; [reflexivity |].
  apply (proj1 (memory_and_swap_are_instantaneous memory_and_swap_high (initial None))
           (parseFloat "95") eq_refl eq_refl).
Defined.

(** ** The order of the descriptors and of the sections *)

Lemma mapi_from_titles env i alerts :
  map att_title (mapi_from i (attachment_of env) alerts) = map title alerts.
Proof.
  revert i. induction alerts as [| a alerts IH]; intros i; cbn; [reflexivity |].
  now rewrite IH.
Qed.

Lemma mapi_titles env alerts :
  map att_title (mapi (attachment_of env) alerts) = map title alerts.
Proof. apply mapi_from_titles. Qed.

Lemma cpu_alerts_shape env w :
  cpu_alerts env w = [] \/ exists a, cpu_alerts env w = [a] /\ title a = CPU_TITLE.
Proof.
  unfold cpu_alerts. destruct (cpuPercent env) as [c |]; [| now left].
  destruct (ge c (of_Z CPU_THRESHOLD) && _); [| now left].
  right. eexists. split; reflexivity.
Qed.

Lemma mem_alerts_shape env :
  mem_alerts env = [] \/ exists a, mem_alerts env = [a] /\ title a = MEM_TITLE.
Proof.
  unfold mem_alerts. destruct (memPercent env) as [c |]; [| now left].
  destruct (ge c (of_Z MEM_THRESHOLD)); [| now left].
  right. eexists. split; reflexivity.
Qed.

Lemma swap_alerts_shape env :
  swap_alerts env = [] \/ exists a, swap_alerts env = [a] /\ title a = SWAP_TITLE.
Proof.
  unfold swap_alerts. destruct (swapPercent env) as [c |]; [| now left].
  destruct (ge c (of_Z SWAP_THRESHOLD)); [| now left].
  right. eexists. split; reflexivity.
Qed.

(** C6. The descriptors of a check are at most one CPU descriptor, then at
    most one memory descriptor, then at most one swap descriptor; the message
    composed from a list of descriptors has one section per descriptor, in
    the order of the list; so when the three conditions hold at once the
    list is CPU, memory, swap, and so are the three sections of the message
    that is sent. *)
Theorem descriptors_in_fixed_order (env : Env) (w : World) :
  (exists c m s,
     alerts_of env w = (c ++ m ++ s)%list /\
     (c = [] \/ exists a, c = [a] /\ title a = CPU_TITLE) /\
     (m = [] \/ exists a, m = [a] /\ title a = MEM_TITLE) /\
     (s = [] \/ exists a, s = [a] /\ title a = SWAP_TITLE)) /\
  (List.length (alerts_of env w) <= 3)%nat /\
  (forall alerts, exists text w',
     sendSlackAlert alerts env w = (Ok tt, w') /\
     posted w' =
       (posted w ++
        [(SLACK_WEBHOOK_URL env,
          {| msg_text := text;
             attachments := mapi (attachment_of env) alerts |})])%list /\
     map att_title (mapi (attachment_of env) alerts) = map title alerts) /\
  (over (cpuPercent env) CPU_THRESHOLD = true ->
   CPU_OVER_THRESHOLD_DURATION <= elapsed env w ->
   over (memPercent env) MEM_THRESHOLD = true ->
   over (swapPercent env) SWAP_THRESHOLD = true ->
   map title (alerts_of env w) = [CPU_TITLE; MEM_TITLE; SWAP_TITLE] /\
   (cooldown_over (clock_check env) (lastAlertTime env w) = true ->
    exists text sections,
      posted (snd (checkSystemHealth env w)) =
        (posted w ++
         [(SLACK_WEBHOOK_URL env,
           {| msg_text := text; attachments := sections |})])%list /\
      map att_title sections = [CPU_TITLE; MEM_TITLE; SWAP_TITLE])).
Proof.
  rewrite alerts_of_descriptors.
  pose proof (cpu_alerts_shape env w) as Hc.
  pose proof (mem_alerts_shape env) as Hm.
  pose proof (swap_alerts_shape env) as Hs.
  split; [| split; [| split]].
  - exists (cpu_alerts env w), (mem_alerts env), (swap_alerts env). now repeat split.
  - unfold descriptors. rewrite !length_app.
    destruct Hc as [-> | (a & -> & _)], Hm as [-> | (b & -> & _)],
             Hs as [-> | (c & -> & _)]; cbn; lia.
  - intros alerts.
    destruct (sendSlackAlert_run alerts env w) as (text & Hrun).
    exists text. eexists. split; [exact Hrun |]. split; [reflexivity |].
    apply mapi_titles.
  - intros Hcpu Hdur Hmem Hswap.
    assert (Htitles : map title (descriptors env w) = [CPU_TITLE; MEM_TITLE; SWAP_TITLE]).
    { unfold descriptors, cpu_alerts, mem_alerts, swap_alerts.
      unfold over in Hcpu, Hmem, Hswap.
      destruct (cpuPercent env) as [c |]; [| discriminate].
      destruct (memPercent env) as [m |]; [| discriminate].
      destruct (swapPercent env) as [s |]; [| discriminate].
      apply Z.leb_le in Hdur. rewrite Hcpu, Hmem, Hswap, Hdur. reflexivity. }
    split; [exact Htitles |].
    intros Hover.
    destruct (checkSystemHealth_run env w) as (text & lines & Hrun & _).
    assert (Hd : dispatches env w = true).
    { unfold dispatches. destruct (descriptors env w); [discriminate | exact Hover]. }
    rewrite Hrun, Hd. cbn [snd posted].
    exists text. eexists. split; [reflexivity |].
    now rewrite mapi_titles.
Qed.

Lemma descriptors_in_fixed_order_witness :
  over (cpuPercent all_high) CPU_THRESHOLD = true /\
  CPU_OVER_THRESHOLD_DURATION <= elapsed all_high six_minutes_in /\
  over (memPercent all_high) MEM_THRESHOLD = true /\
  over (swapPercent all_high) SWAP_THRESHOLD = true /\
  map title (alerts_of all_high six_minutes_in) = [CPU_TITLE; MEM_TITLE; SWAP_TITLE].
Proof.
  assert (H : CPU_OVER_THRESHOLD_DURATION <= elapsed all_high six_minutes_in)
    by (vm_compute; discriminate).
  split; [reflexivity |]. split; [exact H |].
  split; [reflexivity |]. split; [reflexivity |].
  apply (proj2 (proj2 (proj2 (descriptors_in_fixed_order all_high six_minutes_in)))
           eq_refl H eq_refl eq_refl).
Defined.

(** ** The process list formatter *)

Lemma mapi_from_nth {A B} (f : nat -> A -> B) l k i a :
  nth_error l i = Some a ->
  nth_error (mapi_from k f l) i = Some (f (k + i)%nat a).
Proof.
  revert k i. induction l as [| x l IH]; intros k i H.
  - destruct i; discriminate.
  - destruct i as [| i]; cbn in *.
    + injection H as ->. now rewrite Nat.add_0_r.
    + rewrite (IH (S k) i H). f_equal. f_equal. lia.
Qed.

Lemma string_length_app (a b : string) : length (a ++ b) = (length a + length b)%nat.
Proof. induction a as [| c a IH]; cbn; [reflexivity | now rewrite IH]. Qed.

Lemma length_substring_0 n s : (n <= length s)%nat -> length (substring 0 n s) = n.
Proof.
  intros H. rewrite <- chars_length, chars_substring. cbn [skipn].
  rewrite length_firstn, chars_length. lia.
Qed.

(** C7. [formatProcessList] answers "No processes found" for null and for
    the empty list; otherwise it joins with newlines one entry per process,
    the entry at index i being numbered i + 1: the number, the command in
    bold, and a detail line with the PID, the user, the CPU percentage in
    mode "cpu" or the memory percentage in mode "memory", and the RSS.  A
    command of at most 50 characters is shown whole; a longer one (of 80
    characters, say) is cut to its first 47 characters followed by "...",
    50 characters in all. *)
Theorem formatProcessList_renders (type : string) :
  formatProcessList None type = "No processes found" /\
  formatProcessList (Some []) type = "No processes found" /\
  (forall p ps,
     formatProcessList (Some (p :: ps)) type =
     concat nl (mapi (formatProcess type) (p :: ps)) /\
     List.length (mapi (formatProcess type) (p :: ps)) = List.length (p :: ps)) /\
  (forall l i p,
     nth_error l i = Some p ->
     nth_error (mapi (formatProcess type) l) i = Some (formatProcess type i p)) /\
  (forall i p,
     formatProcess "cpu" i p =
       decimal (Z.of_nat i + 1) ++ ". *" ++ shortCommand p ++ "*" ++ nl ++
       "   PID: " ++ pid p ++ " | User: " ++ user p ++
       " | CPU: " ++ toString (cpu p) ++ "% | RSS: " ++ rss p /\
     formatProcess "memory" i p =
       decimal (Z.of_nat i + 1) ++ ". *" ++ shortCommand p ++ "*" ++ nl ++
       "   PID: " ++ pid p ++ " | User: " ++ user p ++
       " | Memory: " ++ toString (mem p) ++ "% | RSS: " ++ rss p) /\
  (forall p, (length (command p) <= 50)%nat -> shortCommand p = command p) /\
  (forall p, (50 < length (command p))%nat ->
     shortCommand p = substring 0 47 (command p) ++ "..." /\
     length (shortCommand p) = 50%nat) /\
  (forall p, length (command p) = 80%nat ->
     shortCommand p = substring 0 47 (command p) ++ "...").
Proof.
  assert (Hnum : forall i, int_toString (Z.of_nat i + 1) = decimal (Z.of_nat i + 1)).
  { intros i. unfold int_toString.
    now replace (Z.of_nat i + 1 <? 0) with false by (symmetry; apply Z.ltb_ge; lia). }
  assert (Hlen : forall {A B} (f : nat -> A -> B) l k,
             List.length (mapi_from k f l) = List.length l).
  { intros A B f l. induction l as [| x l IH]; intros k; cbn; [reflexivity |].
    now rewrite IH. }
  assert (Hlong : forall p, (50 < length (command p))%nat ->
             shortCommand p = substring 0 47 (command p) ++ "...").
  { intros p H. unfold shortCommand.
    now replace (50 <? length (command p))%nat with true
      by (symmetry; apply Nat.ltb_lt; lia). }
  split; [reflexivity |]. split; [reflexivity |].
  split; [intros p ps; split; [reflexivity | apply Hlen] |].
  split; [intros l i p H; apply (mapi_from_nth (formatProcess type) l 0 i p H) |].
  split.
  { intros i p. unfold formatProcess. rewrite Hnum.
    cbn [String.eqb Ascii.eqb Bool.eqb]. cbn [append].
    rewrite !append_assoc. split; reflexivity. }
  split.
  { intros p H. unfold shortCommand.
    now replace (50 <? length (command p))%nat with false
      by (symmetry; apply Nat.ltb_ge; lia). }
  split.
  { intros p H. split; [now apply Hlong |].
    rewrite (Hlong p H), string_length_app, length_substring_0 by lia. reflexivity. }
  intros p H. apply Hlong. lia.
Qed.

Lemma formatProcessList_renders_witness :
  (50 < length (command long_process))%nat /\
  shortCommand long_process = "/usr/bin/very/long/path/to/a/very/long/command/..." /\
  formatProcessList (Some [node_process; long_process]) "cpu" =
    "1. */usr/bin/node app.js*" ++ nl ++
    "   PID: 1234 | User: user1 | CPU: 25.5% | RSS: 89012" ++ nl ++
    "2. */usr/bin/very/long/path/to/a/very/long/command/...*" ++ nl ++
    "   PID: 5678 | User: user2 | CPU: 15.2% | RSS: 32109".
Proof.
  assert (H : (50 < length (command long_process))%nat) by (vm_compute; lia).
  split; [exact H |]. split.
  - rewrite (proj1 (proj1 (proj2 (proj2 (proj2 (proj2 (proj2 (proj2
               (formatProcessList_renders "cpu"))))))) long_process H)).
    reflexivity.
  - rewrite (proj1 (proj1 (proj2 (proj2 (formatProcessList_renders "cpu")))
               node_process [long_process])).
    vm_compute. reflexivity.
Defined.

(** ** Persistence of the last alert time *)



(** ** Samples that are not numbers *)

(** C10. A sample that is NaN triggers nothing: no CPU descriptor and the
    sustain timer unset for CPU, no memory descriptor, no swap descriptor,
    because NaN is not at or above any threshold (nor below one).  Such a
    sample does arise: a pipeline that prints nothing makes the provider
    return NaN, without throwing and without logging. *)
Theorem nan_sample_never_triggers (env : Env) (w : World) :
  (cpuPercent env = Some NaN ->
   titled CPU_TITLE (alerts_of env w) = [] /\
   cpuOverThresholdSince (snd (evaluateThresholds env w)) = None /\
   cpuOverThresholdSince (snd (checkSystemHealth env w)) = None) /\
  (memPercent env = Some NaN -> titled MEM_TITLE (alerts_of env w) = []) /\
  (swapPercent env = Some NaN -> titled SWAP_TITLE (alerts_of env w) = []) /\
  (forall y, ge NaN y = false /\ lt NaN y = false /\ ge y NaN = false /\ lt y NaN = false) /\
  (forall output,
     exec_cpu env = Returns output -> parseFloat (trim output) = NaN ->
     getCpuUsage env w = (Ok (Some NaN), w)) /\
  parseFloat (trim "") = NaN.
Proof.
  split; [| split; [| split; [| split; [| split]]]].
  - intros H.
    assert (Hover : over (cpuPercent env) CPU_THRESHOLD = false)
      by (rewrite H; apply nan_not_ge).
    split; [rewrite titled_cpu; now apply cpu_alerts_not_over |].
    rewrite since_evaluateThresholds, since_checkSystemHealth.
    unfold since_after. now rewrite Hover.
  - intros H. rewrite titled_mem. unfold mem_alerts. now rewrite H, nan_not_ge.
  - intros H. rewrite titled_swap. unfold swap_alerts. now rewrite H, nan_not_ge.
  - intros y. unfold ge, lt, SFltb, NaN. now destruct y.
  - intros output Hexec Hnan.
    unfold exec_cpu in Hexec.
    unfold getCpuUsage, try_catch, bind, execSync, call, ret.
    now rewrite Hexec, Hnan.
  - reflexivity.
Qed.

Lemma nan_sample_never_triggers_witness :
  cpuPercent cpu_unparsed = Some NaN /\
  cpuOverThresholdSince six_minutes_in = Some t0 /\
  titled CPU_TITLE (alerts_of cpu_unparsed six_minutes_in) = [] /\
  cpuOverThresholdSince (snd (checkSystemHealth cpu_unparsed six_minutes_in)) = None /\
  memPercent mem_swap_unparsed = Some NaN /\
  titled MEM_TITLE (alerts_of mem_swap_unparsed (initial None)) = [] /\
  swapPercent mem_swap_unparsed = Some NaN /\
  titled SWAP_TITLE (alerts_of mem_swap_unparsed (initial None)) = [].
Proof.
  destruct (nan_sample_never_triggers cpu_unparsed six_minutes_in) as (Hcpu & _).
  destruct (nan_sample_never_triggers mem_swap_unparsed (initial None))
    as (_ & Hmem & Hswap & _).
  destruct (Hcpu eq_refl) as (Hc1 & _ & Hc2).
  split; [reflexivity |]. split; [reflexivity |].
  split; [exact Hc1 |]. split; [exact Hc2 |].
  split; [reflexivity |]. split; [exact (Hmem eq_refl) |].
  split; [reflexivity |]. exact (Hswap eq_refl).
Defined.

(** ** Numbers in the bodies *)

(** C9, as the monitor has it.  Every descriptor of a check opens with the
    current value of its metric printed by [toFixed(1)], which has exactly
    one decimal for every finite value below 10^21, followed by a threshold
    line that shows the bare integer, 90 for CPU and memory and 50 for swap,
    without a decimal; the CPU descriptor goes on with the elapsed minutes,
    printed with exactly one decimal. *)
Theorem current_values_one_decimal (env : Env) (w : World) :
  (forall a, In a (alerts_of env w) ->
     (exists x rest,
        cpuPercent env = Some x /\ title a = CPU_TITLE /\
        value a =
          "*Current CPU Usage: " ++ toFixed x 1 ++ "%*" ++ nl ++
          "*Threshold: 90%*" ++ nl ++
          "*Duration: " ++ minutes (elapsed env w) ++ " minutes*" ++ rest /\
        (fixed_range x = true -> one_decimal (toFixed x 1) = true) /\
        (elapsed env w < 2 ^ 53 -> one_decimal (minutes (elapsed env w)) = true)) \/
     (exists x rest,
        memPercent env = Some x /\ title a = MEM_TITLE /\
        value a =
          "*Current Memory Usage: " ++ toFixed x 1 ++ "%*" ++ nl ++
          "*Threshold: 90%*" ++ rest /\
        (fixed_range x = true -> one_decimal (toFixed x 1) = true)) \/
     (exists x rest,
        swapPercent env = Some x /\ title a = SWAP_TITLE /\
        value a =
          "*Current Swap Usage: " ++ toFixed x 1 ++ "%*" ++ nl ++
          "*Threshold: 50%*" ++ rest /\
        (fixed_range x = true -> one_decimal (toFixed x 1) = true))) /\
  one_decimal "90" = false /\
  one_decimal "50" = false.
Proof.
  split; [| split; reflexivity].
  intros a Ha. rewrite alerts_of_descriptors in Ha. unfold descriptors in Ha.
  apply in_app_or in Ha. destruct Ha as [Ha | Ha]; [| apply in_app_or in Ha;
                                                     destruct Ha as [Ha | Ha]].
  - left. unfold cpu_alerts in Ha.
    destruct (cpuPercent env) as [x |]; [| destruct Ha].
    destruct (ge x (of_Z CPU_THRESHOLD)) eqn:Hge; [| destruct Ha].
    destruct (Z.leb_spec CPU_OVER_THRESHOLD_DURATION (elapsed env w)) as [Hd | Hd];
      [| destruct Ha].
    destruct Ha as [<- | []].
    exists x. eexists. split; [reflexivity |]. split; [reflexivity |].
    split; [reflexivity |]. split.
    + intros Hr. apply toFixed_one_decimal; [assumption |].
      now apply (ge_threshold_nonneg x CPU_THRESHOLD).
    + intros Hlt. apply minutes_one_decimal.
      unfold CPU_OVER_THRESHOLD_DURATION in Hd. lia.
  - right. left. unfold mem_alerts in Ha.
    destruct (memPercent env) as [x |]; [| destruct Ha].
    destruct (ge x (of_Z MEM_THRESHOLD)) eqn:Hge; [| destruct Ha].
    destruct Ha as [<- | []].
    assert (Hshape : fixed_range x = true -> one_decimal (toFixed x 1) = true).
    { intros Hr. apply toFixed_one_decimal; [assumption |].
      now apply (ge_threshold_nonneg x MEM_THRESHOLD). }
    unfold memAlert. cbn [value title].
    destruct (detailedMem env); exists x; eexists;
      (split; [reflexivity |]); (split; [reflexivity |]);
      (split; [rewrite !append_assoc; reflexivity | exact Hshape]).
  - right. right. unfold swap_alerts in Ha.
    destruct (swapPercent env) as [x |]; [| destruct Ha].
    destruct (ge x (of_Z SWAP_THRESHOLD)) eqn:Hge; [| destruct Ha].
    destruct Ha as [<- | []].
    assert (Hshape : fixed_range x = true -> one_decimal (toFixed x 1) = true).
    { intros Hr. apply toFixed_one_decimal; [assumption |].
      now apply (ge_threshold_nonneg x SWAP_THRESHOLD). }
    unfold swapAlert. cbn [value title].
    destruct (detailedSwap env); exists x; eexists;
      (split; [reflexivity |]); (split; [reflexivity |]);
      (split; [rewrite ?append_assoc; reflexivity | exact Hshape]).
Qed.

Lemma current_values_one_decimal_witness :
  fixed_range (parseFloat "95.0") = true /\
  elapsed all_high six_minutes_in < 2 ^ 53 /\
  map value (titled CPU_TITLE (alerts_of all_high six_minutes_in)) =
    ["*Current CPU Usage: 95.0%*" ++ nl ++
     "*Threshold: 90%*" ++ nl ++
     "*Duration: 6.0 minutes*" ++ nl ++ nl ++
     "*Top CPU Processes:*" ++ nl ++
     "1. */usr/bin/node app.js*" ++ nl ++
     "   PID: 1234 | User: user1 | CPU: 25.5% | RSS: 89012" ++ nl ++
     "2. */usr/bin/very/long/path/to/a/very/long/command/...*" ++ nl ++
     "   PID: 5678 | User: user2 | CPU: 15.2% | RSS: 32109"] /\
  one_decimal (toFixed (parseFloat "95.0") 1) = true /\
  one_decimal (minutes (elapsed all_high six_minutes_in)) = true.
Proof.
  assert (H1 : fixed_range (parseFloat "95.0") = true) by reflexivity.
  assert (H2 : elapsed all_high six_minutes_in < 2 ^ 53) by reflexivity.
  split; [exact H1 |]. split; [exact H2 |]. split; [vm_compute; reflexivity |].
  destruct (current_values_one_decimal all_high six_minutes_in) as (Hall & _).
  destruct (Hall (cpuAlert (parseFloat "95.0") (elapsed all_high six_minutes_in)
                    (formatProcessList (Some (topCpu all_high 8)) "cpu")))
    as [(x & rest & Hx & _ & _ & Hv & Hm) | [(x & rest & _ & Ht & _) | (x & rest & _ & Ht & _)]].
  - vm_compute. left. reflexivity.
  - injection Hx as <-. split; [exact (Hv H1) | exact (Hm H2)].
  - discriminate Ht.
  - discriminate Ht.
Defined.

(** The sentence as the specification has it fails on the threshold: in the
    CPU descriptor of a check at 95.0 percent, six minutes into the
    excursion, the current value is displayed as 95.0 and the threshold as
    90. *)
Lemma threshold_displayed_without_decimal :
  map (fun a => displayed "*Current CPU Usage: " (value a))
      (titled CPU_TITLE (alerts_of all_high six_minutes_in)) = [Some "95.0"] /\
  map (fun a => displayed "*Threshold: " (value a))
      (titled CPU_TITLE (alerts_of all_high six_minutes_in)) = [Some "90"] /\
  one_decimal "90" = false /\
  map (fun a => percentages_one_decimal "*Current CPU Usage: " (value a))
      (titled CPU_TITLE (alerts_of all_high six_minutes_in)) = [false].
Proof. vm_compute. repeat split. Qed.

(** ** The process tables *)

Lemma append_nil_r (s : string) : s ++ "" = s.
Proof. induction s as [| c s IH]; cbn; [reflexivity | now rewrite IH]. Qed.

Lemma split_spaces_from_nonempty b s : split_spaces_from b s <> [].
Proof.
  revert b. induction s as [| c s IH]; intros b; cbn; [discriminate |].
  destruct (is_space c).
  - destruct b; [apply IH | discriminate].
  - destruct (split_spaces_from false s); discriminate.
Qed.

(** Characters that are not white space stay in the piece they are in. *)
Lemma split_spaces_solid w s b :
  forallb (fun c => negb (is_space c)) (list_ascii_of_string w) = true ->
  w <> "" \/ b = false ->
  split_spaces_from b (w ++ s) =
  match split_spaces_from false s with
  | t :: ts => (w ++ t) :: ts
  | [] => [w]
  end.
Proof.
  intros Hw. revert b. induction w as [| c w IH]; intros b Hb.
  - destruct Hb as [Hb | ->]; [congruence |]. cbn.
    destruct (split_spaces_from false s) eqn:E; [| reflexivity].
    now apply split_spaces_from_nonempty in E.
  - cbn in Hw. apply andb_prop in Hw. destruct Hw as [Hc Hw].
    apply negb_true_iff in Hc.
    cbn [append split_spaces_from]. rewrite Hc.
    rewrite (IH Hw false) by now right.
    destruct (split_spaces_from false s) eqn:E; [| reflexivity].
    now apply split_spaces_from_nonempty in E.
Qed.

Lemma gap_margin g : gap g = true -> margin g = true /\ g <> "".
Proof.
  unfold gap, margin. intros H. apply andb_prop in H. destruct H as [Hne H].
  split.
  - clear Hne. induction g as [| c g IH]; [reflexivity |].
    cbn in *. apply andb_prop in H. destruct H as [Hc H].
    rewrite (IH H), andb_true_r.
    apply orb_prop in Hc. destruct Hc as [Hc | Hc];
      apply Ascii.eqb_eq in Hc; subst; reflexivity.
  - intros ->. discriminate.
Qed.

(** A run of white space before a solid character ends a piece. *)
Lemma split_spaces_gap g c s :
  margin g = true -> g <> "" -> is_space c = false ->
  split_spaces_from false (g ++ String c s) =
  "" :: split_spaces_from false (String c s).
Proof.
  intros Hg Hne Hc.
  assert (Htrue : forall g, margin g = true ->
            split_spaces_from true (g ++ String c s) =
            split_spaces_from false (String c s)).
  { clear g Hg Hne. induction g as [| x g IH]; intros Hg.
    - cbn. now rewrite Hc.
    - unfold margin in Hg. cbn in Hg. apply andb_prop in Hg. destruct Hg as [Hx Hg].
      cbn [append split_spaces_from]. rewrite Hx. now apply IH. }
  destruct g as [| x g]; [congruence |].
  unfold margin in Hg. cbn in Hg. apply andb_prop in Hg. destruct Hg as [Hx Hg].
  cbn [append split_spaces_from]. rewrite Hx. f_equal. now apply Htrue.
Qed.

Lemma visible_not_space c : visible c = true -> is_space c = false.
Proof.
  unfold visible, is_space. set (n := N_of_ascii c). intros H.
  apply andb_prop in H. destruct H as [H1 H2]. apply N.leb_le in H1, H2.
  apply orb_false_iff. split.
  - apply N.eqb_neq. lia.
  - apply andb_false_iff. right. apply N.leb_gt. lia.
Qed.

Lemma word_solid w :
  word w = true ->
  forallb (fun c => negb (is_space c)) (list_ascii_of_string w) = true /\
  exists c w', w = String c w' /\ is_space c = false.
Proof.
  unfold word. intros H. apply andb_prop in H. destruct H as [Hne H].
  assert (Hall : forallb (fun c => negb (is_space c)) (list_ascii_of_string w) = true).
  { rewrite forallb_forall in *. intros c Hc.
    now rewrite (visible_not_space c (H c Hc)). }
  split; [exact Hall |].
  destruct w as [| c w']; [discriminate |].
  exists c, w'. split; [reflexivity |].
  cbn in Hall. apply andb_prop in Hall. destruct Hall as [Hc _].
  now apply negb_true_iff in Hc.
Qed.

Lemma columns_head first rest :
  word first = true ->
  exists c s, columns first rest = String c s /\ is_space c = false.
Proof.
  intros H. destruct (word_solid _ H) as (_ & c & w' & -> & Hc).
  destruct rest as [| [g col] rest].
  - now exists c, w'.
  - cbn. now eexists c, _.
Qed.

Lemma split_spaces_columns first rest :
  word first = true ->
  forallb (fun gc => gap (fst gc) && word (snd gc)) rest = true ->
  split_spaces (columns first rest) = first :: map snd rest.
Proof.
  unfold split_spaces. revert first.
  induction rest as [| [g col] rest IH]; intros first Hf Hr.
  - cbn [columns map].
    destruct (word_solid _ Hf) as (Hsolid & _).
    rewrite <- (append_nil_r first) at 1.
    rewrite (split_spaces_solid first "" false Hsolid) by now right.
    cbn. now rewrite append_nil_r.
  - cbn in Hr. apply andb_prop in Hr. destruct Hr as [Hgc Hr].
    apply andb_prop in Hgc. destruct Hgc as [Hg Hcol].
    cbn [columns map snd].
    destruct (word_solid _ Hf) as (Hsolid & _).
    rewrite (split_spaces_solid first _ false Hsolid) by now right.
    destruct (columns_head col rest Hcol) as (c & s & E & Hc).
    destruct (gap_margin _ Hg) as (Hm & Hne).
    rewrite E, (split_spaces_gap g c s Hm Hne Hc), <- E.
    rewrite (IH col Hcol Hr). now rewrite append_nil_r.
Qed.

(** *** Trimming *)

Lemma trimStart_margin lead s :
  margin lead = true -> trimStart (lead ++ s) = trimStart s.
Proof.
  unfold margin. induction lead as [| c lead IH]; intros H; [reflexivity |].
  cbn in *. apply andb_prop in H. destruct H as [Hc H]. rewrite Hc. now apply IH.
Qed.

Lemma trimStart_margin_only s : margin s = true -> trimStart s = "".
Proof.
  intros H. rewrite <- (append_nil_r s). now rewrite trimStart_margin.
Qed.

Lemma trim_margin s : margin s = true -> trim s = "".
Proof.
  intros H. unfold trim. now rewrite (trimStart_margin_only s H).
Qed.

Lemma split_spaces_margin s : margin s = true -> split_spaces (trim s) = [""].
Proof. intros H. now rewrite trim_margin. Qed.

Lemma string_of_list_app l1 l2 :
  string_of_list_ascii (l1 ++ l2) = string_of_list_ascii l1 ++ string_of_list_ascii l2.
Proof. induction l1 as [| x l1 IH]; cbn; [reflexivity | now rewrite IH]. Qed.

Lemma reverse_app a b : reverse (a ++ b) = reverse b ++ reverse a.
Proof. unfold reverse. now rewrite chars_app, rev_app_distr, string_of_list_app. Qed.

Lemma reverse_involutive s : reverse (reverse s) = s.
Proof.
  unfold reverse. rewrite list_ascii_of_string_of_list_ascii, rev_involutive.
  apply string_of_list_ascii_of_string.
Qed.

Lemma margin_reverse s : margin (reverse s) = margin s.
Proof.
  unfold margin, reverse. rewrite list_ascii_of_string_of_list_ascii.
  induction (list_ascii_of_string s) as [| c l IH]; [reflexivity |].
  cbn. rewrite forallb_app, IH. cbn. rewrite andb_true_r. apply andb_comm.
Qed.

Lemma trim_solid lead s trail :
  margin lead = true -> margin trail = true -> solid s ->
  trim (lead ++ s ++ trail) = s.
Proof.
  intros Hl Ht ((c & s' & E & Hc) & (d & r' & Er & Hd)).
  unfold trim. rewrite trimStart_margin by assumption.
  assert (H1 : trimStart (s ++ trail) = s ++ trail).
  { rewrite E. cbn. now rewrite Hc. }
  rewrite H1, reverse_app, trimStart_margin by now rewrite margin_reverse.
  assert (H2 : trimStart (reverse s) = reverse s).
  { rewrite Er. cbn. now rewrite Hd. }
  rewrite H2. apply reverse_involutive.
Qed.

Lemma solid_word w : word w = true -> solid w.
Proof.
  intros H. destruct (word_solid _ H) as (Hall & c & w' & E & Hc).
  split; [now exists c, w' |].
  unfold reverse.
  assert (Hrev : forallb (fun c => negb (is_space c)) (rev (list_ascii_of_string w)) = true).
  { rewrite forallb_forall in *. intros x Hx. apply Hall. now apply in_rev. }
  destruct (rev (list_ascii_of_string w)) as [| x l] eqn:El.
  - apply (f_equal (@List.length _)) in El. rewrite length_rev in El.
    rewrite E in El. discriminate.
  - cbn in Hrev. apply andb_prop in Hrev. destruct Hrev as [Hx _].
    exists x, (string_of_list_ascii l). split; [reflexivity |].
    now apply negb_true_iff in Hx.
Qed.

Lemma solid_app a m b : solid a -> solid b -> solid (a ++ m ++ b).
Proof.
  intros ((c & a' & Ea & Hc) & _) (_ & (d & b' & Eb & Hd)).
  split.
  - exists c, (a' ++ m ++ b). split; [now rewrite Ea | assumption].
  - exists d, (b' ++ reverse m ++ reverse a). split; [| assumption].
    now rewrite !reverse_app, Eb, append_assoc.
Qed.

Lemma solid_columns first rest :
  word first = true ->
  forallb (fun gc => gap (fst gc) && word (snd gc)) rest = true ->
  solid (columns first rest).
Proof.
  revert first. induction rest as [| [g col] rest IH]; intros first Hf Hr.
  - now apply solid_word.
  - cbn in Hr. apply andb_prop in Hr. destruct Hr as [Hgc Hr].
    apply andb_prop in Hgc. destruct Hgc as [Hg Hcol].
    cbn [columns]. apply solid_app; [now apply solid_word | now apply IH].
Qed.

Lemma processOfLine_recordOf line :
  processOfLine line = recordOf (split_spaces (trim line)).
Proof. reflexivity. Qed.

Lemma processOfLine_row lead first rest trail :
  word first = true ->
  forallb (fun gc => gap (fst gc) && word (snd gc)) rest = true ->
  margin lead = true -> margin trail = true ->
  processOfLine (lead ++ columns first rest ++ trail) =
  recordOf (first :: map snd rest).
Proof.
  intros Hf Hr Hl Ht.
  rewrite processOfLine_recordOf, trim_solid by (auto using solid_columns).
  now rewrite split_spaces_columns.
Qed.

(** X1. A row of [ps aux]: whatever the margins around it and the gaps
    between its columns, the record holds the first ten columns as they are
    and the remaining ones, joined by single spaces, as the command; a row
    of fewer than 11 columns is dropped. *)
Theorem processOfLine_columns lead first rest trail :
  word first = true ->
  forallb (fun gc => gap (fst gc) && word (snd gc)) rest = true ->
  margin lead = true -> margin trail = true ->
  let parts := first :: map snd rest in
  processOfLine (lead ++ columns first rest ++ trail) =
  if (11 <=? List.length parts)%nat then
    Some {| user := nth 0 parts "";
            pid := nth 1 parts "";
            cpu := parseFloat (nth 2 parts "");
            mem := parseFloat (nth 3 parts "");
            vsz := nth 4 parts "";
            rss := nth 5 parts "";
            tty := nth 6 parts "";
            stat := nth 7 parts "";
            start := nth 8 parts "";
            time := nth 9 parts "";
            command := concat " " (skipn 10 parts) |}
  else None.
Proof.
  intros Hf Hr Hl Ht parts.
  rewrite processOfLine_recordOf.
  rewrite trim_solid by (auto using solid_columns).
  rewrite split_spaces_columns by assumption.
  reflexivity.
Qed.

Lemma processOfLine_columns_witness :
  word "user1" = true /\
  forallb (fun gc => gap (fst gc) && word (snd gc)) aligned_row = true /\
  margin "  " = true /\ margin nl = true /\
  processOfLine ("  " ++ columns "user1" aligned_row ++ nl) = Some node_process /\
  processOfLine ("user1 1234 25.5 10.2") = None.
Proof.
  assert (H1 : word "user1" = true) by reflexivity.
  assert (H2 : forallb (fun gc => gap (fst gc) && word (snd gc)) aligned_row = true)
    by reflexivity.
  assert (H3 : margin "  " = true) by reflexivity.
  assert (H4 : margin nl = true) by reflexivity.
  split; [exact H1 |]. split; [exact H2 |]. split; [exact H3 |]. split; [exact H4 |].
  split.
  - exact (processOfLine_columns "  " "user1" aligned_row nl H1 H2 H3 H4).
  - exact (processOfLine_columns "" "user1"
             [(" ", "1234"); (" ", "25.5"); (" ", "10.2")] ""
             eq_refl eq_refl eq_refl eq_refl).
Defined.

Lemma split_on_one_line sep s :
  forallb (fun c => negb (c =? sep)%char) (list_ascii_of_string s) = true ->
  split_on sep s = [s].
Proof.
  induction s as [| c s IH]; intros H; [reflexivity |].
  cbn in H. apply andb_prop in H. destruct H as [Hc H].
  apply negb_true_iff in Hc. cbn. rewrite Hc, (IH H). reflexivity.
Qed.

Lemma split_on_app sep a b :
  forallb (fun c => negb (c =? sep)%char) (list_ascii_of_string a) = true ->
  split_on sep (a ++ String sep b) = a :: split_on sep b.
Proof.
  induction a as [| c a IH]; intros H.
  - cbn. now rewrite Ascii.eqb_refl.
  - cbn in H. apply andb_prop in H. destruct H as [Hc H].
    apply negb_true_iff in Hc. cbn. rewrite Hc, (IH H). reflexivity.
Qed.

Lemma one_line_app a b : one_line (a ++ b) = one_line a && one_line b.
Proof.
  unfold one_line. induction a as [| c a IH]; cbn; [reflexivity |].
  now rewrite IH, andb_assoc.
Qed.

Lemma word_one_line w : word w = true -> one_line w = true.
Proof.
  unfold word, one_line. intros H. apply andb_prop in H. destruct H as [_ H].
  rewrite forallb_forall in *. intros c Hc. specialize (H c Hc).
  destruct (Ascii.eqb_spec c "010"); [subst; discriminate | reflexivity].
Qed.

Lemma gap_one_line g : gap g = true -> one_line g = true.
Proof.
  unfold gap, one_line. intros H. apply andb_prop in H. destruct H as [_ H].
  rewrite forallb_forall in *. intros c Hc. specialize (H c Hc).
  apply orb_prop in H. destruct H as [H | H]; apply Ascii.eqb_eq in H; now subst.
Qed.

Lemma row_one_line r : row_ok r = true -> one_line (row r) = true.
Proof.
  destruct r as [first rest]. unfold row_ok, row. cbn [fst snd].
  revert first. induction rest as [| [g col] rest IH]; intros first H;
    apply andb_prop in H; destruct H as [Hf Hr].
  - now apply word_one_line.
  - cbn in Hr. apply andb_prop in Hr. destruct Hr as [Hgc Hr].
    apply andb_prop in Hgc. destruct Hgc as [Hg Hcol].
    cbn [columns]. rewrite !one_line_app, (word_one_line _ Hf), (gap_one_line _ Hg).
    cbn. apply IH. now rewrite Hcol, Hr.
Qed.

Lemma row_solid r : row_ok r = true -> solid (row r).
Proof.
  destruct r as [first rest]. unfold row_ok, row. cbn [fst snd]. intros H.
  apply andb_prop in H. destruct H as [Hf Hr]. now apply solid_columns.
Qed.

Lemma split_on_rows r rows :
  forallb row_ok (r :: rows) = true ->
  split_on "010" (concat nl (map row (r :: rows))) = map row (r :: rows) /\
  solid (concat nl (map row (r :: rows))).
Proof.
  revert r. induction rows as [| r' rows IH]; intros r H;
    cbn [forallb] in H; apply andb_prop in H; destruct H as [Hr H].
  - change (concat nl (map row [r])) with (row r).
    split; [| now apply row_solid].
    apply split_on_one_line. apply (row_one_line r Hr).
  - specialize (IH r' H). destruct IH as [IH1 IH2].
    change (concat nl (map row (r :: r' :: rows)))
      with (row r ++ nl ++ concat nl (map row (r' :: rows))).
    split.
    + unfold nl at 1. cbn [append].
      rewrite split_on_app by now apply row_one_line.
      now rewrite IH1.
    + apply solid_app; [now apply row_solid | assumption].
Qed.

Lemma map_processOfLine_rows rows :
  forallb row_ok rows = true ->
  map processOfLine (map row rows) = map (fun r => recordOf (cells r)) rows.
Proof.
  induction rows as [| [first rest] rows IH]; intros H; [reflexivity |].
  cbn [forallb] in H. apply andb_prop in H. destruct H as [Hr H].
  cbn [map]. rewrite (IH H). f_equal.
  unfold row_ok in Hr. cbn [fst snd] in Hr. apply andb_prop in Hr. destruct Hr as [Hf Hr].
  unfold row, cells. cbn [fst snd].
  rewrite <- (append_nil_r (columns first rest)).
  now apply (processOfLine_row "" first rest "").
Qed.

Lemma processesOf_rows rows trail :
  forallb row_ok rows = true -> margin trail = true ->
  processesOf (concat nl (map row rows) ++ trail) =
  compact (map (fun r => recordOf (cells r)) rows).
Proof.
  intros H Ht. unfold processesOf.
  destruct rows as [| r rows].
  - cbn [map concat append]. now rewrite trim_margin.
  - destruct (split_on_rows r rows H) as [Hsplit Hsolid].
    change (concat nl (map row (r :: rows)) ++ trail)
      with ("" ++ concat nl (map row (r :: rows)) ++ trail).
    rewrite trim_solid by auto.
    now rewrite Hsplit, map_processOfLine_rows.
Qed.

(** X2. The process tables: when the pipeline prints rows of columns, one
    per line, the provider returns the records of the rows that have at
    least 11 columns, in the order of the rows, however many they are, and
    logs nothing; when the pipeline fails it returns the empty list and
    logs the failure. *)
Theorem top_processes_are_the_rows limit env w :
  (forall rows trail,
     forallb row_ok rows = true -> margin trail = true ->
     exec env at_top_cpu (top_command "cpu" limit) =
       Returns (concat nl (map row rows) ++ trail) ->
     getTopCpuProcesses limit env w =
     (Ok (compact (map (fun r => recordOf (cells r)) rows)), w)) /\
  (forall rows trail,
     forallb row_ok rows = true -> margin trail = true ->
     exec env at_top_mem (top_command "mem" limit) =
       Returns (concat nl (map row rows) ++ trail) ->
     getTopMemoryProcesses limit env w =
     (Ok (compact (map (fun r => recordOf (cells r)) rows)), w)) /\
  (forall e,
     exec env at_top_cpu (top_command "cpu" limit) = Throws e ->
     getTopCpuProcesses limit env w =
     (Ok [], logs w [(stderr, "Error getting top CPU processes: " ++ e)])) /\
  (forall e,
     exec env at_top_mem (top_command "mem" limit) = Throws e ->
     getTopMemoryProcesses limit env w =
     (Ok [], logs w [(stderr, "Error getting top memory processes: " ++ e)])).
Proof.
  repeat split.
  - intros rows trail H Ht E. unfold getTopCpuProcesses.
    rewrite provider_run, E. cbn [failure_line]. now rewrite logs_nil, processesOf_rows.
  - intros rows trail H Ht E. unfold getTopMemoryProcesses.
    rewrite provider_run, E. cbn [failure_line]. now rewrite logs_nil, processesOf_rows.
  - intros e E. unfold getTopCpuProcesses. now rewrite provider_run, E.
  - intros e E. unfold getTopMemoryProcesses. now rewrite provider_run, E.
Qed.

Lemma top_processes_are_the_rows_witness :
  forallb row_ok ps_rows = true /\ margin nl = true /\
  exec all_high at_top_cpu (top_command "cpu" 8) =
    Returns (concat nl (map row ps_rows) ++ nl) /\
  getTopCpuProcesses 8 all_high (initial None) =
    (Ok (compact (map (fun r => recordOf (cells r)) ps_rows)), initial None) /\
  compact (map (fun r => recordOf (cells r)) ps_rows) = [node_process; long_process].
Proof.
  assert (H1 : forallb row_ok ps_rows = true) by reflexivity.
  assert (H2 : margin nl = true) by reflexivity.
  assert (H3 : exec all_high at_top_cpu (top_command "cpu" 8) =
               Returns (concat nl (map row ps_rows) ++ nl)) by reflexivity.
  split; [exact H1 |]. split; [exact H2 |]. split; [exact H3 |].
  split; [| reflexivity].
  exact (proj1 (top_processes_are_the_rows 8 all_high (initial None)) ps_rows nl H1 H2 H3).
Defined.

(** ** The load averages *)

Lemma substring_0_length s : substring 0 (length s) s = s.
Proof. induction s as [| c s IH]; cbn; [reflexivity | now rewrite IH]. Qed.

Lemma drop_app a b : drop (length a) (a ++ b) = b.
Proof.
  unfold drop. induction a as [| c a IH].
  - cbn [append length]. rewrite Nat.sub_0_r. apply substring_0_length.
  - cbn [append length substring Nat.sub]. exact IH.
Qed.

Lemma prefix_app a b : prefix a (a ++ b) = true.
Proof.
  induction a as [| c a IH]; cbn; [now destruct b |].
  destruct (ascii_dec c c); [assumption | congruence].
Qed.

Lemma span_load_group g r :
  forallb (fun c => is_digit c || (c =? ".")%char) (list_ascii_of_string g) = true ->
  ends_group r = true ->
  span_load (g ++ r) = (g, r).
Proof.
  intros Hg Hr. induction g as [| c g IH].
  - cbn [append]. destruct r as [| c r]; [reflexivity |].
    cbn in *. apply negb_true_iff in Hr. now rewrite Hr.
  - cbn in Hg. apply andb_prop in Hg. destruct Hg as [Hc Hg].
    cbn [append span_load]. rewrite Hc, (IH Hg). reflexivity.
Qed.

Lemma load_groups_read g1 g2 g3 post :
  load_group g1 = true -> load_group g2 = true -> load_group g3 = true ->
  ends_group post = true ->
  load_groups (g1 ++ ", " ++ g2 ++ ", " ++ g3 ++ post) = Some (g1, g2, g3).
Proof.
  unfold load_group. intros H1 H2 H3 Hp.
  apply andb_prop in H1, H2, H3.
  destruct H1 as [N1 H1], H2 as [N2 H2], H3 as [N3 H3].
  unfold load_groups.
  rewrite (span_load_group g1 _ H1) by reflexivity.
  rewrite (drop_app ", " _).
  rewrite (span_load_group g2 _ H2) by reflexivity.
  rewrite (drop_app ", " _).
  rewrite (span_load_group g3 _ H3) by assumption.
  rewrite !(prefix_app ", " _).
  destruct g1; [discriminate |]. destruct g2; [discriminate |].
  destruct g3; [discriminate |]. reflexivity.
Qed.

Lemma match_load_step c s :
  match_load (String c s) =
  match (if prefix "load average: " (String c s)
         then load_groups (drop 14 (String c s)) else None) with
  | Some groups => Some groups
  | None => match_load s
  end.
Proof. reflexivity. Qed.

(** The pattern matches nowhere in a string that does not hold the
    phrase. *)
Lemma match_load_absent s :
  index 0 "load average: " s = None -> match_load s = None.
Proof.
  induction s as [| c s IH]; intros H; [reflexivity |].
  cbn [index] in H. rewrite match_load_step.
  destruct (prefix "load average: " (String c s)); [discriminate |].
  apply IH. now destruct (index 0 "load average: " s).
Qed.

(** The match is at the first occurrence of the phrase when groups follow
    it. *)
Lemma match_load_first pre g1 g2 g3 post :
  index 0 "load average: "
        (pre ++ "load average: " ++ g1 ++ ", " ++ g2 ++ ", " ++ g3 ++ post) =
    Some (length pre) ->
  load_group g1 = true -> load_group g2 = true -> load_group g3 = true ->
  ends_group post = true ->
  match_load (pre ++ "load average: " ++ g1 ++ ", " ++ g2 ++ ", " ++ g3 ++ post) =
  Some (g1, g2, g3).
Proof.
  intros Hi H1 H2 H3 Hp. induction pre as [| c pre IH].
  - set (tail := g1 ++ ", " ++ g2 ++ ", " ++ g3 ++ post) in *.
    pose proof (prefix_app "load average: " tail) as P.
    pose proof (drop_app "load average: " tail) as D.
    cbn [length] in D.
    change ("" ++ "load average: " ++ tail)
      with (String "l" ("oad average: " ++ tail)) in *.
    change ("load average: " ++ tail)
      with (String "l" ("oad average: " ++ tail)) in P, D.
    rewrite match_load_step, P, D.
    unfold tail. now rewrite load_groups_read.
  - cbn [append length] in *. cbn [index] in Hi. rewrite match_load_step.
    destruct (prefix "load average: " (String c _)); [discriminate |].
    apply IH.
    destruct (index 0 "load average: " _) as [n |]; [| discriminate].
    now injection Hi as ->.
Qed.

(** X3. The load averages: [getSystemLoad] returns the three numbers that
    follow the first "load average: " of the output of [uptime], and null,
    without logging, when the output does not hold the phrase; when the
    command fails it returns null and logs the failure. *)
Theorem getSystemLoad_reads_the_load_averages env w :
  (forall pre g1 g2 g3 post,
     exec env at_load "uptime" =
       Returns (pre ++ "load average: " ++ g1 ++ ", " ++ g2 ++ ", " ++ g3 ++ post) ->
     index 0 "load average: "
           (pre ++ "load average: " ++ g1 ++ ", " ++ g2 ++ ", " ++ g3 ++ post) =
       Some (length pre) ->
     load_group g1 = true -> load_group g2 = true -> load_group g3 = true ->
     ends_group post = true ->
     getSystemLoad env w =
     (Ok (Some {| load_1min := parseFloat g1;
                  load_5min := parseFloat g2;
                  load_15min := parseFloat g3 |}), w)) /\
  (forall output,
     exec env at_load "uptime" = Returns output ->
     index 0 "load average: " output = None ->
     getSystemLoad env w = (Ok None, w)) /\
  (forall e,
     exec env at_load "uptime" = Throws e ->
     getSystemLoad env w =
     (Ok None, logs w [(stderr, "Error getting system load: " ++ e)])).
Proof.
  repeat split.
  - intros pre g1 g2 g3 post E Hi H1 H2 H3 Hp.
    unfold getSystemLoad. rewrite provider_run, E. cbn [failure_line].
    now rewrite logs_nil, match_load_first.
  - intros output E Hi.
    unfold getSystemLoad. rewrite provider_run, E. cbn [failure_line].
    now rewrite logs_nil, match_load_absent.
  - intros e E. unfold getSystemLoad. now rewrite provider_run, E.
Qed.

Lemma getSystemLoad_reads_the_load_averages_witness :
  exec all_high at_load "uptime" =
    Returns (" 10:45:30 up 2 days,  3:45,  2 users,  " ++ "load average: " ++
             "1.25" ++ ", " ++ "1.15" ++ ", " ++ "0.95" ++ nl) /\
  getSystemLoad all_high (initial None) =
    (Ok (Some {| load_1min := parseFloat "1.25";
                 load_5min := parseFloat "1.15";
                 load_15min := parseFloat "0.95" |}), initial None).
Proof.
  assert (H : exec all_high at_load "uptime" =
              Returns (" 10:45:30 up 2 days,  3:45,  2 users,  " ++ "load average: " ++
                       "1.25" ++ ", " ++ "1.15" ++ ", " ++ "0.95" ++ nl))
    by reflexivity.
  split; [exact H |].
  exact (proj1 (getSystemLoad_reads_the_load_averages all_high (initial None))
           " 10:45:30 up 2 days,  3:45,  2 users,  " "1.25" "1.15" "0.95" nl
           H eq_refl eq_refl eq_refl eq_refl eq_refl).
Defined.

(** ** The breakdowns of memory and swap *)

Lemma length_split_on sep s :
  List.length (split_on sep s) = S (count_occ ascii_dec (list_ascii_of_string s) sep).
Proof.
  induction s as [| c s IH]; [reflexivity |].
  cbn [split_on list_ascii_of_string count_occ].
  destruct (Ascii.eqb_spec c sep) as [-> | Hne].
  - destruct (ascii_dec sep sep); [| congruence]. cbn. now rewrite IH.
  - destruct (ascii_dec c sep); [congruence |].
    destruct (split_on sep s); cbn in *; [discriminate | assumption].
Qed.

Lemma nth_error_split_on sep s n :
  (exists line, nth_error (split_on sep s) n = Some line) <->
  (n <= count_occ ascii_dec (list_ascii_of_string s) sep)%nat.
Proof.
  pose proof (length_split_on sep s) as L.
  split.
  - intros [line H].
    assert (n < List.length (split_on sep s))%nat
      by (apply nth_error_Some; congruence).
    lia.
  - intros H. destruct (nth_error (split_on sep s) n) eqn:E; [now eexists |].
    apply nth_error_None in E. lia.
Qed.

Lemma detailed_lookup {B} place label (f : string -> B) n env w :
  try_catch
    (freeOutput <- execSync place "free -h" ;;
     match nth_error (split_on "010" freeOutput) n with
     | Some line => ret (Some (f line))
     | None => throw no_line
     end)
    (fun error => console_error (label ++ error) ;; ret None) env w =
  match exec env place "free -h" with
  | Returns out =>
      match nth_error (split_on "010" out) n with
      | Some line => (Ok (Some (f line)), w)
      | None => (Ok None, logs w [(stderr, label ++ no_line)])
      end
  | Throws e => (Ok None, logs w [(stderr, label ++ e)])
  end.
Proof.
  unfold try_catch, bind, execSync, call, ret, throw, console_error, console_write.
  destruct (exec env place "free -h") as [out | e]; cbv beta iota; [| reflexivity].
  destruct (nth_error (split_on "010" out) n); reflexivity.
Qed.

(** X4. The breakdowns: [getDetailedMemoryInfo] reads the second line of
    the output of [free -h] and [getDetailedSwapInfo] the third; an output
    without that line makes them return null and log the TypeError, any
    other output gives an object, whose fields are the columns of the line
    by position, after the label, whatever the gaps between them, and
    undefined where the line has no such column (all of them on a blank
    line). *)
Theorem detailed_info_needs_its_line env w :
  (forall out,
     exec env at_free_mem "free -h" = Returns out ->
     (line_feeds out < 1)%nat ->
     getDetailedMemoryInfo env w =
     (Ok None,
      logs w [(stderr, "Error getting detailed memory info: " ++
                       "Cannot read properties of undefined (reading 'trim')")])) /\
  (forall out,
     exec env at_free_mem "free -h" = Returns out ->
     (1 <= line_feeds out)%nat ->
     exists line,
       nth_error (split_on "010" out) 1 = Some line /\
       getDetailedMemoryInfo env w = (Ok (Some (memoryInfoOf line)), w)) /\
  (forall out,
     exec env at_free_swap "free -h" = Returns out ->
     (line_feeds out < 2)%nat ->
     getDetailedSwapInfo env w =
     (Ok None,
      logs w [(stderr, "Error getting detailed swap info: " ++
                       "Cannot read properties of undefined (reading 'trim')")])) /\
  (forall out,
     exec env at_free_swap "free -h" = Returns out ->
     (2 <= line_feeds out)%nat ->
     exists line,
       nth_error (split_on "010" out) 2 = Some line /\
       getDetailedSwapInfo env w = (Ok (Some (swapInfoOf line)), w)) /\
  (forall line,
     margin line = true ->
     memoryInfoOf line = memory_unknown /\
     swapInfoOf line = {| swap_total := None; swap_used := None; swap_free := None |}) /\
  (forall lead first rest trail,
     word first = true ->
     forallb (fun gc => gap (fst gc) && word (snd gc)) rest = true ->
     margin lead = true -> margin trail = true ->
     let column := nth_error (first :: map snd rest) in
     memoryInfoOf (lead ++ columns first rest ++ trail) =
       {| mem_total := column 1%nat; mem_used := column 2%nat; mem_free := column 3%nat;
          mem_shared := column 4%nat; mem_cache := column 5%nat;
          mem_available := column 6%nat |} /\
     swapInfoOf (lead ++ columns first rest ++ trail) =
       {| swap_total := column 1%nat; swap_used := column 2%nat;
          swap_free := column 3%nat |}).
Proof.
  unfold line_feeds, getDetailedMemoryInfo, getDetailedSwapInfo.
  split; [| split; [| split; [| split; [| split]]]].
  - intros out E H. rewrite detailed_lookup, E.
    destruct (nth_error (split_on "010" out) 1) as [line |] eqn:N; [| reflexivity].
    assert (1 <= count_occ ascii_dec (list_ascii_of_string out) "010"%char)%nat
      by (apply nth_error_split_on; now exists line).
    lia.
  - intros out E H. rewrite detailed_lookup, E.
    apply nth_error_split_on in H. destruct H as [line H].
    exists line. now rewrite H.
  - intros out E H. rewrite detailed_lookup, E.
    destruct (nth_error (split_on "010" out) 2) as [line |] eqn:N; [| reflexivity].
    assert (2 <= count_occ ascii_dec (list_ascii_of_string out) "010"%char)%nat
      by (apply nth_error_split_on; now exists line).
    lia.
  - intros out E H. rewrite detailed_lookup, E.
    apply nth_error_split_on in H. destruct H as [line H].
    exists line. now rewrite H.
  - intros line H. unfold memoryInfoOf, swapInfoOf.
    now rewrite (split_spaces_margin line H).
  - intros lead first rest trail Hf Hr Hl Ht. cbv zeta.
    unfold memoryInfoOf, swapInfoOf.
    rewrite trim_solid by (auto using solid_columns).
    now rewrite split_spaces_columns.
Qed.

Lemma detailed_info_needs_its_line_witness :
  exec free_one_line at_free_mem "free -h" = Returns "free: not supported" /\
  (line_feeds "free: not supported" < 1)%nat /\
  getDetailedMemoryInfo free_one_line (initial None) =
    (Ok None,
     logs (initial None)
          [(stderr, "Error getting detailed memory info: " ++
                    "Cannot read properties of undefined (reading 'trim')")]) /\
  map (fun a => map field_value (match fields a with Some fs => fs | None => [] end))
      (titled MEM_TITLE (alerts_of free_one_line (initial None))) =
    [["Memory details unavailable";
      "High memory usage may lead to swapping, system slowdown, and potential out-of-memory errors."]].
Proof.
  assert (H1 : exec free_one_line at_free_mem "free -h" = Returns "free: not supported")
    by reflexivity.
  assert (H2 : (line_feeds "free: not supported" < 1)%nat) by (vm_compute; lia).
  split; [exact H1 |]. split; [exact H2 |]. split; [| vm_compute; reflexivity].
  exact (proj1 (detailed_info_needs_its_line free_one_line (initial None))
           "free: not supported" H1 H2).
Defined.

(** ** Providers never throw *)

Lemma guarded_provider {B} place command (g : string -> B) label sentinel :
  guarded
    (try_catch (output <- execSync place command ;; ret (g output))
               (fun error => console_error (label ++ error) ;; ret sentinel))
    place command label sentinel.
Proof.
  intros env w. rewrite provider_run.
  destruct (exec env place command) as [out | e]; cbn [failure_line].
  - split; [| discriminate]. left. exists (g out). now rewrite logs_nil.
  - split; [right; now exists e |]. intros e' E. now injection E as <-.
Qed.

Lemma guarded_detailed {B} place label (f : string -> B) n :
  guarded
    (try_catch
       (freeOutput <- execSync place "free -h" ;;
        match nth_error (split_on "010" freeOutput) n with
        | Some line => ret (Some (f line))
        | None => throw no_line
        end)
       (fun error => console_error (label ++ error) ;; ret None))
    place "free -h" label None.
Proof.
  intros env w. rewrite detailed_lookup.
  destruct (exec env place "free -h") as [out | e].
  - split; [| discriminate].
    destruct (nth_error (split_on "010" out) n) as [line |].
    + left. now eexists.
    + right. now exists no_line.
  - split; [right; now exists e |]. intros e' E. now injection E as <-.
Qed.

(** X5. No provider throws: each of the ten returns, with its sentinel
    (null, or the empty list for the process tables) and one line on the
    error stream when its command fails, and without touching anything
    otherwise. *)
Theorem providers_never_throw :
  guarded getCpuUsage at_cpu cpu_command "Error getting CPU usage: " None /\
  guarded getMemUsage at_mem mem_command "Error getting memory usage: " None /\
  guarded getSwapUsage at_swap swap_command "Error getting swap usage: " None /\
  (forall limit,
     guarded (getTopCpuProcesses limit) at_top_cpu (top_command "cpu" limit)
             "Error getting top CPU processes: " []) /\
  (forall limit,
     guarded (getTopMemoryProcesses limit) at_top_mem (top_command "mem" limit)
             "Error getting top memory processes: " []) /\
  guarded getDetailedMemoryInfo at_free_mem "free -h"
          "Error getting detailed memory info: " None /\
  guarded getDetailedSwapInfo at_free_swap "free -h"
          "Error getting detailed swap info: " None /\
  guarded getSystemLoad at_load "uptime" "Error getting system load: " None /\
  guarded getUptime at_uptime "uptime -p" "Error getting uptime: " None /\
  guarded getDiskUsage at_disk "df -h / | tail -1" "Error getting disk usage: " None.
Proof.
  repeat split; try intros limit;
    first [ apply guarded_provider | apply guarded_detailed ].
Qed.

Lemma providers_never_throw_witness :
  exec context_down at_disk "df -h / | tail -1" = Throws "Command failed" /\
  getDiskUsage context_down (initial None) =
    (Ok None, logs (initial None) [(stderr, "Error getting disk usage: Command failed")]).
Proof.
  assert (H : exec context_down at_disk "df -h / | tail -1" = Throws "Command failed")
    by reflexivity.
  split; [exact H |].
  destruct providers_never_throw as (_ & _ & _ & _ & _ & _ & _ & _ & _ & Hdisk).
  exact (proj2 (Hdisk context_down (initial None)) "Command failed" H).
Defined.

(** ** The gate over time *)

Lemma check_step env w :
  exists text lines,
    posted (snd (checkSystemHealth env w)) =
      (if dispatches env w then
         posted w ++
         [(SLACK_WEBHOOK_URL env,
           {| msg_text := text;
              attachments := mapi (attachment_of env) (descriptors env w) |})]
       else posted w)%list /\
    last_alert_file (snd (checkSystemHealth env w)) =
      (if dispatches env w then file_after_send env w else last_alert_file w) /\
    console (snd (checkSystemHealth env w)) = (console w ++ lines)%list.
Proof.
  destruct (checkSystemHealth_run env w) as (text & lines & H & _).
  exists text, lines. rewrite H. cbn. auto.
Qed.

(** X6. Writing the time and reading it back: after [setLastAlertTime] has
    written, [getLastAlertTime] returns the very time of the clock, for
    every integral time, without logging. *)
Theorem last_alert_time_round_trip env next w :
  write_error env = None -> read_error next = None ->
  last_alert_file (snd (setLastAlertTime env w)) =
    Some (int_toString (clock_write env)) /\
  getLastAlertTime next (snd (setLastAlertTime env w)) =
    (Ok (Some (clock_write env)), snd (setLastAlertTime env w)).
Proof.
  intros Hw Hr. rewrite setLastAlertTime_run, Hw. cbn [snd last_alert_file].
  split; [reflexivity |].
  unfold getLastAlertTime, try_catch, bind, fs_existsSync, fs_readFileSync, ret.
  cbn [last_alert_file]. rewrite Hr. now rewrite parseInt_int_toString.
Qed.

Lemma last_alert_time_round_trip_witness :
  write_error memory_alarm = None /\ read_error all_high = None /\
  last_alert_file (snd (setLastAlertTime memory_alarm (initial None))) =
    Some "1700002100150" /\
  fst (getLastAlertTime all_high (snd (setLastAlertTime memory_alarm (initial None)))) =
    Ok (Some 1700002100150).
Proof.
  destruct (last_alert_time_round_trip memory_alarm all_high (initial None)
              eq_refl eq_refl) as [H1 H2].
  split; [reflexivity |]. split; [reflexivity |].
  split; [exact H1 |]. now rewrite H2.
Defined.

(** A run only adds to the requests and to the console, one request for
    each check that passes the gate. *)
Lemma run_requests envs : forall w,
  exists requests lines,
    posted (run envs w) = (posted w ++ requests)%list /\
    console (run envs w) = (console w ++ lines)%list /\
    List.length requests = List.length (sends envs w) /\
    (List.length requests <= List.length envs)%nat /\
    Forall (fun request =>
              exists env, In env envs /\ fst request = SLACK_WEBHOOK_URL env)
           requests.
Proof.
  induction envs as [| env envs IH]; intros w.
  - exists [], []. cbn. rewrite !app_nil_r. auto.
  - destruct (check_step env w) as (text & lines & Hp & _ & Hc).
    destruct (IH (snd (checkSystemHealth env w)))
      as (requests & lines' & Hp' & Hc' & Hlen & Hle & Hall).
    cbn [run sends]. rewrite Hp', Hc', Hp, Hc.
    assert (Hin : Forall (fun request =>
              exists e, In e (env :: envs) /\ fst request = SLACK_WEBHOOK_URL e)
              requests).
    { eapply Forall_impl; [| exact Hall].
      intros r (e & He & Hr). exists e. split; [now right | assumption]. }
    destruct (dispatches env w).
    + eexists (_ :: requests), (lines ++ lines')%list.
      rewrite <- !app_assoc. cbn [app List.length].
      repeat split; try lia.
      constructor; [| assumption].
      exists env. split; [now left | reflexivity].
    + exists requests, (lines ++ lines')%list.
      rewrite <- !app_assoc. cbn [app List.length].
      repeat split; try lia. assumption.
Qed.

(** X7. A run of checks never throws and only adds: every check returns
    normally, the console and the list of requests only grow, and a run
    sends one request for each check that passes the gate (the checks that
    [sends] lists are those that add a request), so at most one per check,
    each to the webhook of its check. *)
Theorem run_sends_at_most_one_request_per_check envs w :
  (forall env w0, fst (checkSystemHealth env w0) = Ok tt) /\
  (forall env w0,
     dispatches env w0 = true <->
     posted (snd (checkSystemHealth env w0)) <> posted w0) /\
  exists requests lines,
    posted (run envs w) = (posted w ++ requests)%list /\
    console (run envs w) = (console w ++ lines)%list /\
    List.length requests = List.length (sends envs w) /\
    (List.length requests <= List.length envs)%nat /\
    Forall (fun request =>
              exists env, In env envs /\ fst request = SLACK_WEBHOOK_URL env)
           requests.
Proof.
  split; [| split].
  - intros env w0.
    destruct (checkSystemHealth_run env w0) as (text & lines & H & _).
    now rewrite H.
  - intros env w0.
    destruct (check_step env w0) as (text & lines & Hp & _).
    rewrite Hp. destruct (dispatches env w0).
    + split; [intros _; apply snoc_neq | reflexivity].
    + split; [discriminate | congruence].
  - destruct (run_requests envs w) as (requests & lines & H).
    now exists requests, lines.
Qed.

Lemma dispatches_gate env w :
  dispatches env w = true ->
  cooldown_over (clock_check env) (lastAlertTime env w) = true.
Proof.
  unfold dispatches. now destruct (descriptors env w).
Qed.

Lemma recorded_spec env :
  recorded env = true ->
  read_error env = None /\ write_error env = None /\ post_error env = None.
Proof.
  unfold recorded.
  destruct (read_error env), (write_error env), (post_error env);
    try discriminate; auto.
Qed.

(** While every send is recorded, the time read back is the one written
    last. *)
Lemma sends_spaced_from envs : forall w t,
  forallb recorded envs = true ->
  last_alert_file w = Some (int_toString t) ->
  spaced (Some t) (sends envs w).
Proof.
  induction envs as [| env envs IH]; intros w t Hrec Hfile; [exact I |].
  cbn [forallb] in Hrec. apply andb_prop in Hrec. destruct Hrec as [Hr Hrec].
  destruct (recorded_spec env Hr) as (Hread & Hwrite & Hpost).
  destruct (check_step env w) as (text & lines & _ & Hf & _).
  cbn [sends].
  destruct (dispatches env w) eqn:Hd.
  - cbn [app spaced]. split.
    + apply dispatches_gate in Hd.
      unfold lastAlertTime in Hd. rewrite Hfile, Hread, parseInt_int_toString in Hd.
      unfold cooldown_over in Hd. now apply Z.leb_le.
    + apply IH; [assumption |].
      rewrite Hf. unfold file_after_send. now rewrite Hpost, Hwrite.
  - cbn [app]. apply IH; [assumption |]. now rewrite Hf.
Qed.

Lemma sends_spaced envs : forall w,
  forallb recorded envs = true -> spaced None (sends envs w).
Proof.
  induction envs as [| env envs IH]; intros w Hrec; [exact I |].
  pose proof Hrec as Hall.
  cbn [forallb] in Hrec. apply andb_prop in Hrec. destruct Hrec as [Hr Hrec].
  destruct (recorded_spec env Hr) as (Hread & Hwrite & Hpost).
  destruct (check_step env w) as (text & lines & _ & Hf & _).
  cbn [sends].
  destruct (dispatches env w) eqn:Hd.
  - cbn [app spaced]. split; [exact I |].
    apply sends_spaced_from; [assumption |].
    rewrite Hf. unfold file_after_send. now rewrite Hpost, Hwrite.
  - cbn [app]. now apply IH.
Qed.

Lemma spaced_nth l : forall last i e1 e2,
  spaced last l ->
  nth_error l i = Some e1 -> nth_error l (S i) = Some e2 ->
  ALERT_COOLDOWN <= clock_check e2 - clock_write e1.
Proof.
  induction l as [| e l IH]; intros last i e1 e2 Hs H1 H2; [destruct i; discriminate |].
  destruct Hs as [_ Hs].
  destruct i as [| i].
  - cbn in H1. injection H1 as <-.
    destruct l as [| e' l]; [discriminate |].
    cbn in H2. injection H2 as <-. now destruct Hs.
  - cbn in H1, H2. now apply (IH _ i e1 e2 Hs).
Qed.

(** X8. The rate of the alerts: in a run of checks in which the file system
    and the webhook work, a check that sends a request comes at least the
    cooldown after the time that the sending check before it wrote,
    whatever the file held at the start. *)
Theorem requests_are_a_cooldown_apart envs w i earlier later :
  forallb recorded envs = true ->
  nth_error (sends envs w) i = Some earlier ->
  nth_error (sends envs w) (S i) = Some later ->
  ALERT_COOLDOWN <= clock_check later - clock_write earlier.
Proof.
  intros Hrec. apply (spaced_nth _ None). now apply sends_spaced.
Qed.

Lemma requests_are_a_cooldown_apart_witness :
  forallb recorded three_alarms = true /\
  nth_error (sends three_alarms (initial None)) 0 = Some (swap_alarm t0) /\
  nth_error (sends three_alarms (initial None)) 1 = Some (swap_alarm (t0 + 2100000)) /\
  ALERT_COOLDOWN <= clock_check (swap_alarm (t0 + 2100000)) - clock_write (swap_alarm t0).
Proof.
  assert (H : forallb recorded three_alarms = true) by reflexivity.
  assert (H0 : nth_error (sends three_alarms (initial None)) 0 = Some (swap_alarm t0))
    by (vm_compute; reflexivity).
  assert (H1 : nth_error (sends three_alarms (initial None)) 1 =
               Some (swap_alarm (t0 + 2100000)))
    by (vm_compute; reflexivity).
  split; [exact H |]. split; [exact H0 |]. split; [exact H1 |].
  exact (requests_are_a_cooldown_apart three_alarms (initial None) 0
           (swap_alarm t0) (swap_alarm (t0 + 2100000)) H H0 H1).
Defined.

(** X9. A last-alert file that holds no number silences the monitor: while
    the file can be read, no check sends a request, whatever it measures,
    and the file stays as it is. *)
Theorem unparsable_file_silences_the_monitor envs w content :
  last_alert_file w = Some content -> parseInt content = None ->
  Forall (fun env => read_error env = None) envs ->
  posted (run envs w) = posted w /\
  last_alert_file (run envs w) = Some content /\
  sends envs w = [].
Proof.
  intros Hfile Hnan Hall. revert w Hfile.
  induction Hall as [| env envs Hread _ IH]; intros w Hfile; [now split |].
  destruct (check_step env w) as (text & lines & Hp & Hf & _).
  assert (Hd : dispatches env w = false).
  { unfold dispatches, lastAlertTime. rewrite Hfile, Hread, Hnan.
    now destruct (descriptors env w). }
  rewrite Hd in Hp, Hf.
  cbn [run sends]. rewrite Hd. cbn [app].
  destruct (IH (snd (checkSystemHealth env w))) as (IH1 & IH2 & IH3); [congruence |].
  now rewrite IH1, IH2, IH3.
Qed.

Lemma unparsable_file_silences_the_monitor_witness :
  last_alert_file garbled = Some "not a timestamp" /\
  parseInt "not a timestamp" = None /\
  Forall (fun env => read_error env = None) three_alarms /\
  map (fun env => alerts_of env garbled <> []) three_alarms <> [] /\
  posted (run three_alarms garbled) = [].
Proof.
  assert (H1 : last_alert_file garbled = Some "not a timestamp") by reflexivity.
  assert (H2 : parseInt "not a timestamp" = None) by reflexivity.
  assert (H3 : Forall (fun env => read_error env = None) three_alarms)
    by (repeat constructor).
  split; [exact H1 |]. split; [exact H2 |]. split; [exact H3 |].
  split; [discriminate |].
  exact (proj1 (unparsable_file_silences_the_monitor three_alarms garbled
                  "not a timestamp" H1 H2 H3)).
Defined.

(** ** The text of a message *)

Lemma sendSlackAlert_text alerts env w :
  sendSlackAlert alerts env w =
  (Ok tt, {| cpuOverThresholdSince := cpuOverThresholdSince w;
             last_alert_file := file_after_send env w;
             console := console w ++ context_lines env ++ send_lines env alerts;
             posted := posted w ++
               [(SLACK_WEBHOOK_URL env,
                 {| msg_text := header env ++ uptime_part env ++ load_part env ++
                                disk_part env;
                    attachments := mapi (attachment_of env) alerts |})] |}).
Proof.
  unfold sendSlackAlert.
  unfold bind at 1, ask at 1.
  rewrite (bind_run _ _ _ _ _ _ (provider_run at_uptime "uptime -p"
             (fun output => Some (trim output)) "Error getting uptime: " None env w)).
  unfold getSystemLoad.
  match goal with |- context [bind (try_catch ?b ?h) ?k env ?w0] =>
    rewrite (bind_run (try_catch b h) k env w0 _ _
               (provider_run at_load "uptime" _ "Error getting system load: " None env w0))
  end.
  unfold getDiskUsage.
  match goal with |- context [bind (try_catch ?b ?h) ?k env ?w0] =>
    rewrite (bind_run (try_catch b h) k env w0 _ _
               (provider_run at_disk "df -h / | tail -1" _
                  "Error getting disk usage: " None env w0))
  end.
  unfold bind at 1, ask at 1.
  etransitivity; [apply post_run |].
  unfold logs, file_after_send, context_lines, header, uptime_part, load_part, disk_part.
  cbn [cpuOverThresholdSince last_alert_file console posted].
  rewrite <- !app_assoc.
  f_equal. f_equal. f_equal. f_equal. f_equal. f_equal.
  destruct (exec env at_uptime "uptime -p") as [u | e1];
    destruct (exec env at_load "uptime") as [l | e2];
    destruct (exec env at_disk "df -h / | tail -1") as [d | e3];
    try destruct (trim u); try destruct (match_load l) as [[[g1 g2] g3] |];
    cbn [load_1min load_5min load_15min diskInfoOf disk_used size usagePercent];
    rewrite ?append_nil_r, ?append_assoc; cbn [append]; rewrite ?append_assoc;
    reflexivity.
Qed.

(** X10. The text of a message: the header with the host name, then a line
    for the uptime, the load and the root disk, each left out when its
    command fails (the uptime also when it is blank, the load also when the
    pattern does not match); when all three commands fail the alert still
    goes out, with the header alone.  A disk line is there as soon as [df]
    answers: it shows the third, the second and the fifth column of the
    answer, and on a blank answer it reads undefined three times. *)
Theorem alert_text_is_header_and_context alerts env w :
  sendSlackAlert alerts env w =
  (Ok tt, {| cpuOverThresholdSince := cpuOverThresholdSince w;
             last_alert_file := file_after_send env w;
             console := console w ++ context_lines env ++ send_lines env alerts;
             posted := posted w ++
               [(SLACK_WEBHOOK_URL env,
                 {| msg_text := header env ++ uptime_part env ++ load_part env ++
                                disk_part env;
                    attachments := mapi (attachment_of env) alerts |})] |}) /\
  (forall e1 e2 e3,
     exec env at_uptime "uptime -p" = Throws e1 ->
     exec env at_load "uptime" = Throws e2 ->
     exec env at_disk "df -h / | tail -1" = Throws e3 ->
     header env ++ uptime_part env ++ load_part env ++ disk_part env =
       "🚨 *System Health Alert on " ++ hostname env ++ "*" /\
     context_lines env =
       [(stderr, "Error getting uptime: " ++ e1);
        (stderr, "Error getting system load: " ++ e2);
        (stderr, "Error getting disk usage: " ++ e3)]) /\
  (forall output,
     exec env at_uptime "uptime -p" = Returns output -> margin output = true ->
     uptime_part env = "") /\
  (forall output,
     exec env at_disk "df -h / | tail -1" = Returns output -> margin output = true ->
     disk_part env = nl ++ "💾 Root Disk: undefined/undefined (undefined)") /\
  (forall lead first rest trail,
     exec env at_disk "df -h / | tail -1" = Returns (lead ++ columns first rest ++ trail) ->
     word first = true ->
     forallb (fun gc => gap (fst gc) && word (snd gc)) rest = true ->
     margin lead = true -> margin trail = true ->
     let column := nth_error (first :: map snd rest) in
     disk_part env =
       nl ++ "💾 Root Disk: " ++ template (column 2%nat) ++ "/" ++
       template (column 1%nat) ++ " (" ++ template (column 4%nat) ++ ")").
Proof.
  split; [apply sendSlackAlert_text |]. split; [| split; [| split]].
  - intros e1 e2 e3 H1 H2 H3.
    unfold uptime_part, load_part, disk_part, context_lines, header.
    rewrite H1, H2, H3. cbn [failure_line app]. now rewrite !append_nil_r.
  - intros output E H. unfold uptime_part. rewrite E.
    now rewrite (trim_margin output H).
  - intros output E H. unfold disk_part. rewrite E.
    now rewrite (split_spaces_margin output H).
  - intros lead first rest trail E Hf Hr Hl Ht. unfold disk_part. rewrite E.
    cbv zeta. rewrite trim_solid by (auto using solid_columns).
    now rewrite split_spaces_columns.
Qed.

Lemma alert_text_is_header_and_context_witness :
  exec context_down at_uptime "uptime -p" = Throws "Command failed" /\
  exec context_down at_load "uptime" = Throws "Command failed" /\
  exec context_down at_disk "df -h / | tail -1" = Throws "Command failed" /\
  map (fun request => msg_text (snd request))
      (posted (snd (checkSystemHealth context_down alerted_at_t0))) =
    ["🚨 *System Health Alert on web-01*"] /\
  header all_high ++ uptime_part all_high ++ load_part all_high ++ disk_part all_high =
    "🚨 *System Health Alert on web-01*" ++ nl ++
    "⏰ Uptime: up 2 days, 3 hours" ++ nl ++
    "📊 Load: 1.25 (1m), 1.15 (5m), 0.95 (15m)" ++ nl ++
    "💾 Root Disk: 75G/100G (79%)" /\
  header context_down ++ uptime_part context_down ++ load_part context_down ++
  disk_part context_down = "🚨 *System Health Alert on " ++ hostname context_down ++ "*".
Proof.
  assert (H1 : exec context_down at_uptime "uptime -p" = Throws "Command failed")
    by reflexivity.
  assert (H2 : exec context_down at_load "uptime" = Throws "Command failed")
    by reflexivity.
  assert (H3 : exec context_down at_disk "df -h / | tail -1" = Throws "Command failed")
    by reflexivity.
  split; [exact H1 |]. split; [exact H2 |]. split; [exact H3 |].
  split; [vm_compute; reflexivity |]. split; [vm_compute; reflexivity |].
  exact (proj1 (proj1 (proj2 (alert_text_is_header_and_context [] context_down
                                (initial None)))
                  "Command failed" "Command failed" "Command failed" H1 H2 H3)).
Defined.

(** ** A file that cannot be written *)

Lemma run_app before after w : run (before ++ after) w = run after (run before w).
Proof. revert w. induction before as [| e before IH]; intros w; [reflexivity | apply IH]. Qed.




(** ** Dates *)

Lemma DayFromYear_step y :
  365 <= JSDate.DayFromYear (y + 1) - JSDate.DayFromYear y <= 366.
Proof.
  unfold JSDate.DayFromYear.
  replace (y + 1 - 1969) with (y - 1969 + 1) by lia.
  replace (y + 1 - 1901) with (y - 1901 + 1) by lia.
  replace (y + 1 - 1601) with (y - 1601 + 1) by lia.
  Z.to_euclidean_division_equations; lia.
Qed.

Lemma year_from_spec fuel : forall day y,
  JSDate.DayFromYear y <= day < JSDate.DayFromYear y + 365 * Z.of_nat fuel ->
  JSDate.DayFromYear (JSDate.year_from fuel day y) <= day <
  JSDate.DayFromYear (JSDate.year_from fuel day y + 1).
Proof.
  induction fuel as [| fuel IH]; intros day y H; [lia |].
  cbn [JSDate.year_from].
  destruct (Z.leb_spec (JSDate.DayFromYear (y + 1)) day) as [Hle | Hgt]; [| lia].
  apply IH. pose proof (DayFromYear_step y). lia.
Qed.

(** The year of a day is the one ECMAScript defines, the last that starts
    on or before the day, for every day of a time value (the days from
    -10^8 to 10^8). *)
Lemma YearFromDay_spec day :
  -100000000 <= day <= 100000000 ->
  JSDate.DayFromYear (JSDate.YearFromDay day) <= day <
  JSDate.DayFromYear (JSDate.YearFromDay day + 1).
Proof.
  intros H. unfold JSDate.YearFromDay. apply year_from_spec.
  change (Z.of_nat 1000) with 1000.
  unfold JSDate.DayFromYear.
  destruct (Z.leb_spec 0 day); Z.to_euclidean_division_equations; lia.
Qed.

(** ** The lines of a check *)

Lemma checkCpu_lines env w :
  checkCpu (cpuPercent env) (clock_check env) env w =
  (Ok (cpu_alerts env w), logs (with_since w (since_after env w)) (cpu_lines env w)).
Proof.
  assert (Hsustained : forall c since w0,
    (if CPU_OVER_THRESHOLD_DURATION <=? clock_check env - since then
       topProcesses <- getTopCpuProcesses 8 ;;
       ret [cpuAlert c (clock_check env - since)
              (formatProcessList (Some topProcesses) "cpu")]
     else
       console_log ("CPU over threshold, but not for 5 minutes yet (" ++
                    minutes (clock_check env - since) ++ " min)") ;;
       ret []) env w0 =
    (Ok (if CPU_OVER_THRESHOLD_DURATION <=? clock_check env - since
         then [cpuAlert c (clock_check env - since)
                 (formatProcessList (Some (topCpu env 8)) "cpu")]
         else []),
     logs w0
       (if CPU_OVER_THRESHOLD_DURATION <=? clock_check env - since
        then failure_line "Error getting top CPU processes: "
               (exec env at_top_cpu (top_command "cpu" 8))
        else [(stdout, "CPU over threshold, but not for 5 minutes yet (" ++
                       minutes (clock_check env - since) ++ " min)")]))).
  { intros c since w0.
    destruct (CPU_OVER_THRESHOLD_DURATION <=? clock_check env - since); [| reflexivity].
    unfold getTopCpuProcesses, bind at 1. rewrite provider_run.
    unfold topCpu. reflexivity. }
  unfold checkCpu, cpu_alerts, cpu_lines, elapsed, since_after, over.
  destruct (cpuPercent env) as [c |]; [destruct (ge c (of_Z CPU_THRESHOLD)) |].
  - cbn [andb since_value].
    unfold bind at 1 2 3, get_cpuOverThresholdSince.
    destruct (cpuOverThresholdSince w) as [t |] eqn:Hs; cbn [unset since_value].
    + destruct (t =? 0) eqn:Ht.
      * unfold set_cpuOverThresholdSince at 1. cbn [cpuOverThresholdSince since_value].
        apply Hsustained.
      * unfold ret at 1. rewrite Hs. cbn [since_value].
        replace (with_since w (Some t)) with w
          by (now rewrite <- Hs, with_since_same).
        apply Hsustained.
    + unfold set_cpuOverThresholdSince at 1. cbn [cpuOverThresholdSince since_value].
      apply Hsustained.
  - now rewrite logs_nil.
  - now rewrite logs_nil.
Qed.

Lemma breakdown_run {B} place label (f : string -> B) n env w :
  try_catch
    (freeOutput <- execSync place "free -h" ;;
     match nth_error (split_on "010" freeOutput) n with
     | Some line => ret (Some (f line))
     | None => throw no_line
     end)
    (fun error => console_error (label ++ error) ;; ret None) env w =
  (Ok (match exec env place "free -h" with
       | Returns out => option_map f (nth_error (split_on "010" out) n)
       | Throws _ => None
       end),
   logs w (breakdown_lines label n (exec env place "free -h"))).
Proof.
  rewrite detailed_lookup. unfold breakdown_lines.
  destruct (exec env place "free -h") as [out | e]; [| reflexivity].
  destruct (nth_error (split_on "010" out) n); [| reflexivity].
  now rewrite logs_nil.
Qed.

Lemma checkMem_lines env w :
  checkMem (memPercent env) env w = (Ok (mem_alerts env), logs w (mem_lines env)).
Proof.
  unfold checkMem, mem_alerts, mem_lines, over.
  destruct (memPercent env) as [m |]; [destruct (ge m (of_Z MEM_THRESHOLD)) |];
    try (now rewrite logs_nil).
  unfold getDetailedMemoryInfo, bind at 1. rewrite breakdown_run.
  unfold getTopMemoryProcesses, bind at 1. rewrite provider_run.
  rewrite logs_logs. reflexivity.
Qed.

Lemma checkSwap_lines env w :
  checkSwap (swapPercent env) env w = (Ok (swap_alerts env), logs w (swap_lines env)).
Proof.
  unfold checkSwap, swap_alerts, swap_lines, over.
  destruct (swapPercent env) as [s |]; [destruct (ge s (of_Z SWAP_THRESHOLD)) |];
    try (now rewrite logs_nil).
  unfold getDetailedSwapInfo, bind at 1. rewrite breakdown_run.
  reflexivity.
Qed.

Lemma logs_with_since w since l :
  logs (with_since w since) l = with_since (logs w l) since.
Proof. reflexivity. Qed.

Lemma evaluateThresholds_lines env w :
  evaluateThresholds env w =
  (Ok (clock_check env, descriptors env w),
   logs (with_since w (since_after env w))
        (sample_lines env ++ cpu_lines env w ++ mem_lines env ++ swap_lines env)).
Proof.
  unfold evaluateThresholds.
  unfold getCpuUsage, bind at 1. rewrite provider_run.
  unfold getMemUsage, bind at 1. rewrite provider_run.
  unfold getSwapUsage, bind at 1. rewrite provider_run.
  unfold bind at 1, ask at 1.
  fold (sample (exec env at_cpu cpu_command)) (sample (exec env at_mem mem_command))
       (sample (exec env at_swap swap_command)).
  fold (exec_cpu env) (exec_mem env) (exec_swap env).
  fold (cpuPercent env) (memPercent env) (swapPercent env).
  rewrite !logs_logs.
  unfold bind at 1.
  match goal with |- context [checkCpu _ _ env ?w0] =>
    pose proof (checkCpu_lines env w0) as Hc
  end.
  change (cpu_alerts env (logs w _)) with (cpu_alerts env w) in Hc.
  change (cpu_lines env (logs w _)) with (cpu_lines env w) in Hc.
  change (since_after env (logs w _)) with (since_after env w) in Hc.
  rewrite Hc. clear Hc.
  unfold bind at 1. rewrite checkMem_lines.
  unfold bind at 1. rewrite checkSwap_lines.
  unfold ret, descriptors, sample_lines.
  rewrite <- !logs_with_since, !logs_logs, <- !app_assoc. reflexivity.
Qed.

Lemma getLastAlertTime_lines env w :
  getLastAlertTime env w = (Ok (lastAlertTime env w), logs w (read_lines env w)).
Proof.
  unfold getLastAlertTime, lastAlertTime, read_lines, try_catch, bind,
    fs_existsSync, fs_readFileSync, ret, console_error, console_write.
  destruct (last_alert_file w) as [content |] eqn:Hfile; cbn.
  - destruct (read_error env) as [e |]; cbn.
    + reflexivity.
    + rewrite Hfile. now rewrite logs_nil.
  - now rewrite logs_nil.
Qed.

Lemma checkSystemHealth_lines env w :
  console (snd (checkSystemHealth env w)) = (console w ++ check_lines env w)%list.
Proof.
  unfold checkSystemHealth, bind at 1. rewrite evaluateThresholds_lines.
  cbn [fst snd]. unfold check_lines, gate_lines, dispatch.
  destruct (descriptors env w) as [| a alerts] eqn:Hd.
  - unfold console_log, console_write. cbn. now rewrite <- !app_assoc.
  - unfold bind at 1. rewrite getLastAlertTime_lines.
    change (lastAlertTime env (logs (with_since w _) _)) with (lastAlertTime env w).
    change (read_lines env (logs (with_since w _) _)) with (read_lines env w).
    destruct (cooldown_over (clock_check env) (lastAlertTime env w)).
    + rewrite sendSlackAlert_text. cbn. now rewrite <- !app_assoc.
    + unfold console_log, console_write. cbn. now rewrite <- !app_assoc.
Qed.

Lemma failure_line_stderr {A} label (o : outcome A) :
  Forall (fun line => fst line = stderr) (failure_line label o).
Proof. destruct o; repeat constructor. Qed.

Lemma breakdown_lines_stderr label n o :
  Forall (fun line => fst line = stderr) (breakdown_lines label n o).
Proof.
  unfold breakdown_lines. destruct o as [out | e]; [| repeat constructor].
  destruct (nth_error (split_on "010" out) n); repeat constructor.
Qed.

Lemma read_lines_stderr env w :
  Forall (fun line => fst line = stderr) (read_lines env w).
Proof.
  unfold read_lines. destruct (last_alert_file w), (read_error env); repeat constructor.
Qed.

Lemma context_lines_stderr env :
  Forall (fun line => fst line = stderr) (context_lines env).
Proof. unfold context_lines. rewrite !Forall_app. auto using failure_line_stderr. Qed.

(** No line of a check but the one of the healthy case reads
    "System health OK.". *)
Lemma not_the_healthy_line l :
  Forall (fun line => fst line = stderr \/
                      exists c d rest, snd line = String c (String d rest) /\
                                       (c <> "S"%char \/ d <> "y"%char)) l ->
  ~ In (stdout, "System health OK.") l.
Proof.
  intros H Hin. rewrite Forall_forall in H. destruct (H _ Hin) as [Hs | (c & d & rest & E & Hne)].
  - discriminate Hs.
  - cbn in E. injection E as <- <- _. destruct Hne as [Hne | Hne]; congruence.
Qed.

Lemma stderr_or_other l :
  Forall (fun line => fst line = stderr) l ->
  Forall (fun line => fst line = stderr \/
                      exists c d rest, snd line = String c (String d rest) /\
                                       (c <> "S"%char \/ d <> "y"%char)) l.
Proof. intros H. eapply Forall_impl; [| exact H]. intros line Hl. now left. Qed.

(** X17. The console of a check: the error lines of what failed, the age
    of a CPU excursion that is younger than five minutes, and then either
    "System health OK.", exactly when the check has no descriptor, or the
    lines of the gate.  A check in which nothing fails writes on the
    standard output only. *)
Theorem lines_of_a_check env w :
  console (snd (checkSystemHealth env w)) = (console w ++ check_lines env w)%list /\
  (In (stdout, "System health OK.") (check_lines env w) <-> alerts_of env w = []) /\
  (forall x,
     cpuPercent env = Some x -> ge x (of_Z CPU_THRESHOLD) = true ->
     elapsed env w < CPU_OVER_THRESHOLD_DURATION ->
     cpu_lines env w =
       [(stdout, "CPU over threshold, but not for 5 minutes yet (" ++
                 toFixed (div (of_Z (elapsed env w)) (of_Z 60000)) 1 ++ " min)")] /\
     (0 <= elapsed env w ->
      one_decimal (toFixed (div (of_Z (elapsed env w)) (of_Z 60000)) 1) = true)) /\
  (nothing_fails env = true ->
   Forall (fun line => fst line = stdout) (check_lines env w)).
Proof.
  split; [apply checkSystemHealth_lines |]. split; [| split].
  - rewrite alerts_of_descriptors. unfold check_lines, gate_lines.
    destruct (descriptors env w) as [| a alerts] eqn:Hd.
    + split; [reflexivity |]. intros _.
      rewrite !in_app_iff. do 4 right. now left.
    + split; [| discriminate]. intros Hin. exfalso.
      revert Hin. apply not_the_healthy_line.
      rewrite !Forall_app. repeat split.
      * unfold sample_lines. rewrite !Forall_app.
        repeat split; apply stderr_or_other, failure_line_stderr.
      * unfold cpu_lines. destruct (over (cpuPercent env) CPU_THRESHOLD); [| constructor].
        destruct (CPU_OVER_THRESHOLD_DURATION <=? elapsed env w).
        -- apply stderr_or_other, failure_line_stderr.
        -- constructor; [| constructor]. right.
           eexists _, _, _. split; [reflexivity |]. left. discriminate.
      * unfold mem_lines. destruct (over (memPercent env) MEM_THRESHOLD); [| constructor].
        rewrite Forall_app. split; apply stderr_or_other;
          [apply breakdown_lines_stderr | apply failure_line_stderr].
      * unfold swap_lines. destruct (over (swapPercent env) SWAP_THRESHOLD); [| constructor].
        apply stderr_or_other, breakdown_lines_stderr.
      * apply stderr_or_other, read_lines_stderr.
      * destruct (cooldown_over (clock_check env) (lastAlertTime env w)).
        -- rewrite Forall_app. split; [apply stderr_or_other, context_lines_stderr |].
           unfold send_lines. destruct (post_error env) as [e |].
           ++ constructor; [now left | constructor].
           ++ constructor.
              ** right. eexists _, _, _. split; [reflexivity |]. right. discriminate.
              ** destruct (write_error env); repeat constructor.
        -- constructor; [| constructor]. right.
           eexists _, _, _. split; [reflexivity |]. left. discriminate.
  - intros x Hx Hge Hyoung. unfold cpu_lines, over. rewrite Hx, Hge.
    destruct (Z.leb_spec CPU_OVER_THRESHOLD_DURATION (elapsed env w)) as [H | H]; [lia |].
    split; [reflexivity |].
    intros H0. apply minutes_one_decimal.
    unfold CPU_OVER_THRESHOLD_DURATION in Hyoung. lia.
  - unfold nothing_fails, returns, has_lines. intros H.
    repeat (apply andb_prop in H; destruct H as [H ?]).
    destruct (recorded_spec env) as (Hread & Hwrite & Hpost); [assumption |].
    unfold check_lines, sample_lines, cpu_lines, mem_lines, swap_lines, gate_lines,
      read_lines, context_lines, send_lines, breakdown_lines.
    rewrite Hread, Hwrite, Hpost.
    destruct (exec_cpu env); [| discriminate].
    destruct (exec_mem env); [| discriminate].
    destruct (exec_swap env); [| discriminate].
    destruct (exec env at_top_cpu (top_command "cpu" 8)); [| discriminate].
    destruct (exec env at_top_mem (top_command "mem" 8)); [| discriminate].
    destruct (exec env at_free_mem "free -h") as [fm |]; [| discriminate].
    destruct (exec env at_free_swap "free -h") as [fs |]; [| discriminate].
    destruct (exec env at_uptime "uptime -p"); [| discriminate].
    destruct (exec env at_load "uptime"); [| discriminate].
    destruct (exec env at_disk "df -h / | tail -1"); [| discriminate].
    destruct (proj2 (nth_error_split_on "010" fm 1)) as [l1 ->];
      [unfold line_feeds in *; now apply Nat.leb_le |].
    destruct (proj2 (nth_error_split_on "010" fs 2)) as [l2 ->];
      [unfold line_feeds in *; now apply Nat.leb_le |].
    cbn [failure_line app].
    rewrite !Forall_app. repeat split.
    + destruct (over _ _); [| constructor].
      destruct (_ <=? _); repeat constructor.
    + destruct (over _ _); constructor.
    + destruct (over _ _); constructor.
    + destruct (descriptors env w); [repeat constructor |].
      destruct (last_alert_file w); cbn [app];
        destruct (cooldown_over _ _); repeat constructor.
Qed.

Lemma lines_of_a_check_witness :
  cpuPercent (reading "95.0" "75.0" "25.0" (t0 + 297000)) = Some (parseFloat "95.0") /\
  ge (parseFloat "95.0") (of_Z CPU_THRESHOLD) = true /\
  elapsed (reading "95.0" "75.0" "25.0" (t0 + 297000)) six_minutes_in <
    CPU_OVER_THRESHOLD_DURATION /\
  nothing_fails (reading "95.0" "75.0" "25.0" (t0 + 297000)) = true /\
  console (snd (checkSystemHealth (reading "95.0" "75.0" "25.0" (t0 + 297000))
                  six_minutes_in)) =
    [(stdout, "CPU over threshold, but not for 5 minutes yet (5.0 min)");
     (stdout, "System health OK.")] /\
  cpu_lines (reading "95.0" "75.0" "25.0" (t0 + 297000)) six_minutes_in =
    [(stdout, "CPU over threshold, but not for 5 minutes yet (" ++
              toFixed (div (of_Z (elapsed (reading "95.0" "75.0" "25.0" (t0 + 297000))
                                          six_minutes_in)) (of_Z 60000)) 1 ++ " min)")].
Proof.
  assert (H1 : cpuPercent (reading "95.0" "75.0" "25.0" (t0 + 297000)) =
               Some (parseFloat "95.0")) by reflexivity.
  assert (H2 : ge (parseFloat "95.0") (of_Z CPU_THRESHOLD) = true) by reflexivity.
  assert (H3 : elapsed (reading "95.0" "75.0" "25.0" (t0 + 297000)) six_minutes_in <
               CPU_OVER_THRESHOLD_DURATION) by reflexivity.
  split; [exact H1 |]. split; [exact H2 |]. split; [exact H3 |].
  split; [reflexivity |]. split; [vm_compute; reflexivity |].
  destruct (lines_of_a_check (reading "95.0" "75.0" "25.0" (t0 + 297000)) six_minutes_in)
    as (_ & _ & Hyoung & _).
  exact (proj1 (Hyoung (parseFloat "95.0") H1 H2 H3)).
Defined.

(** ** Starting and stopping *)

Lemma start_run url env w :
  Startup.start url env w =
  if Startup.unconfigured url
  then (Ok (Some 1),
        logs w [(stderr, "Please set your Slack webhook URL in the SLACK_WEBHOOK_URL variable")])
  else (Ok None, snd (checkSystemHealth env (logs w banner))).
Proof.
  unfold Startup.start. destruct (Startup.unconfigured url); [reflexivity |].
  assert (H5 : Startup.in_minutes CHECK_INTERVAL = "5") by (vm_compute; reflexivity).
  assert (H30 : Startup.in_minutes ALERT_COOLDOWN = "30") by (vm_compute; reflexivity).
  rewrite H5, H30.
  change (int_toString CPU_THRESHOLD) with "90".
  change (int_toString MEM_THRESHOLD) with "90".
  change (int_toString SWAP_THRESHOLD) with "50".
  unfold bind, console_log, console_write, ret.
  cbn [cpuOverThresholdSince last_alert_file console posted append].
  match goal with |- context [checkSystemHealth env ?w0] =>
    replace w0 with (logs w banner)
      by (unfold logs, banner; rewrite <- !app_assoc; reflexivity)
  end.
  destruct (checkSystemHealth_run env (logs w banner)) as (text & lines & H & _).
  now rewrite H.
Qed.

Lemma unconfigured_spec url :
  Startup.unconfigured url = true <->
  url = None \/ url = Some "" \/ url = Some Startup.PLACEHOLDER.
Proof.
  unfold Startup.unconfigured. split.
  - destruct url as [[| c u] |]; auto.
    intros H. apply String.eqb_eq in H. right. right. now rewrite H.
  - intros [-> | [-> | ->]]; reflexivity.
Qed.

(** X12. Starting: a monitor whose webhook URL is not set, empty or the
    placeholder writes one line on the error stream and exits with code 1
    before any check, so that it leaves no request and no file; any other
    one writes its banner, runs the first check at once and keeps running,
    and every request of a process goes to the URL it was started with. *)
Theorem monitor_starts_only_when_configured url first ticks w :
  (Startup.unconfigured url = true <->
   url = None \/ url = Some "" \/ url = Some "YOUR_SLACK_WEBHOOK_URL_HERE") /\
  (Startup.unconfigured url = true ->
   Startup.monitor url first ticks w =
   (Some 1,
    logs w [(stderr, "Please set your Slack webhook URL in the SLACK_WEBHOOK_URL variable")])) /\
  (Startup.unconfigured url = false ->
   Startup.monitor url first ticks w = (None, run (first :: ticks) (logs w banner))) /\
  (forall u,
     url = Some u ->
     Forall (fun env => SLACK_WEBHOOK_URL env = u) (first :: ticks) ->
     exists requests,
       posted (snd (Startup.monitor url first ticks w)) = (posted w ++ requests)%list /\
       Forall (fun request =>
                 fst request = u /\ u <> "" /\ u <> "YOUR_SLACK_WEBHOOK_URL_HERE")
              requests) /\
  Startup.on_SIGINT first w =
    (Ok (Some 0), logs w [(stdout, nl ++ "System health monitor stopped")]).
Proof.
  split; [apply unconfigured_spec |].
  split; [| split; [| split; [| reflexivity]]].
  - intros H. unfold Startup.monitor. now rewrite start_run, H.
  - intros H. unfold Startup.monitor. now rewrite start_run, H.
  - intros u -> Hall. unfold Startup.monitor. rewrite start_run.
    destruct (Startup.unconfigured (Some u)) eqn:Hu.
    + exists []. cbn. rewrite app_nil_r. auto.
    + destruct (run_requests (first :: ticks) (logs w banner))
        as (requests & lines & Hp & _ & _ & _ & Hreq).
      exists requests. split; [exact Hp |].
      rewrite Forall_forall in *. intros r Hr.
      destruct (Hreq r Hr) as (env & Hin & Hurl).
      split; [now rewrite Hurl, (Hall env Hin) |].
      split; intros ->; discriminate.
Qed.

Lemma monitor_starts_only_when_configured_witness :
  Startup.unconfigured None = true /\
  Startup.unconfigured (Some webhook) = false /\
  Forall (fun env => SLACK_WEBHOOK_URL env = webhook) [swap_alarm t0; swap_alarm (t0 + 900000)] /\
  Startup.monitor None (swap_alarm t0) [swap_alarm (t0 + 900000)] (initial None) =
    (Some 1,
     logs (initial None)
       [(stderr, "Please set your Slack webhook URL in the SLACK_WEBHOOK_URL variable")]) /\
  map fst
    (posted (snd (Startup.monitor (Some webhook) (swap_alarm t0)
                    [swap_alarm (t0 + 900000)] (initial None)))) = [webhook].
Proof.
  assert (H1 : Startup.unconfigured None = true) by reflexivity.
  assert (H2 : Startup.unconfigured (Some webhook) = false) by reflexivity.
  assert (H3 : Forall (fun env => SLACK_WEBHOOK_URL env = webhook)
                 [swap_alarm t0; swap_alarm (t0 + 900000)])
    by (repeat constructor).
  split; [exact H1 |]. split; [exact H2 |]. split; [exact H3 |].
  split; [| vm_compute; reflexivity].
  exact (proj1 (proj2 (monitor_starts_only_when_configured None (swap_alarm t0)
                         [swap_alarm (t0 + 900000)] (initial None))) H1).
Defined.

(** ** The disk monitor *)

Lemma disk_logs_nil w : disk_logs w [] = w.
Proof. destruct w; unfold disk_logs; cbn. now rewrite app_nil_r. Qed.

Lemma disk_logs_logs w l1 l2 : disk_logs (disk_logs w l1) l2 = disk_logs w (l1 ++ l2).
Proof. unfold disk_logs; cbn. now rewrite app_assoc. Qed.

Lemma disk_getDiskUsage_run env w :
  DiskMonitor.getDiskUsage env w =
  (Ok (diskUsage env),
   disk_logs w (failure_line "Error getting disk usage: "
                  (DiskMonitor.exec env DiskMonitor.disk_command))).
Proof.
  unfold DiskMonitor.getDiskUsage, DiskMonitor.try_catch, DiskMonitor.bind,
    DiskMonitor.execSync, DiskMonitor.ret, DiskMonitor.console_error,
    DiskMonitor.console_write, diskUsage.
  destruct (DiskMonitor.exec env DiskMonitor.disk_command) as [out | e]; cbn.
  - now rewrite disk_logs_nil.
  - reflexivity.
Qed.

Lemma disk_getLastAlertTime_run env w :
  DiskMonitor.getLastAlertTime env w =
  (Ok (disk_lastAlertTime env w), disk_logs w (disk_read_lines env w)).
Proof.
  unfold DiskMonitor.getLastAlertTime, DiskMonitor.try_catch, DiskMonitor.bind,
    DiskMonitor.fs_existsSync, DiskMonitor.fs_readFileSync, DiskMonitor.ret,
    DiskMonitor.console_error, DiskMonitor.console_write,
    disk_lastAlertTime, disk_read_lines.
  destruct (DiskMonitor.last_alert_file w) as [content |] eqn:Hfile; cbn.
  - destruct (DiskMonitor.read_error env) as [e |]; cbn.
    + reflexivity.
    + rewrite Hfile. now rewrite disk_logs_nil.
  - now rewrite disk_logs_nil.
Qed.

Lemma disk_setLastAlertTime_run env w :
  DiskMonitor.setLastAlertTime env w =
  match DiskMonitor.write_error env with
  | None =>
      (Ok tt, {| DiskMonitor.last_alert_file :=
                   Some (int_toString (DiskMonitor.clock_write env));
                 DiskMonitor.console := DiskMonitor.console w;
                 DiskMonitor.posted := DiskMonitor.posted w |})
  | Some e => (Ok tt, disk_logs w [(stderr, "Error writing last alert time: " ++ e)])
  end.
Proof.
  unfold DiskMonitor.setLastAlertTime, DiskMonitor.try_catch, DiskMonitor.bind,
    DiskMonitor.ask, DiskMonitor.fs_writeFileSync, DiskMonitor.console_error,
    DiskMonitor.console_write.
  now destruct (DiskMonitor.write_error env).
Qed.

Lemma disk_sendSlackAlert_run usage env w :
  DiskMonitor.sendSlackAlert usage env w =
  (Ok tt,
   disk_sent env w usage
     {| DiskMonitor.text := "🚨 Disk Usage Alert";
        DiskMonitor.attachments :=
          [ {| DiskMonitor.color := "danger";
               DiskMonitor.fields :=
                 [ {| DiskMonitor.title := "Server";
                      DiskMonitor.value := DiskMonitor.hostname env;
                      DiskMonitor.short := true |};
                   {| DiskMonitor.title := "Disk Usage";
                      DiskMonitor.value := DiskMonitor.shown usage ++ "%";
                      DiskMonitor.short := true |};
                   {| DiskMonitor.title := "Threshold";
                      DiskMonitor.value := "80%";
                      DiskMonitor.short := true |};
                   {| DiskMonitor.title := "Time";
                      DiskMonitor.value :=
                        JSDate.toISOString (DiskMonitor.clock_message env);
                      DiskMonitor.short := true |} ] |} ] |}).
Proof.
  unfold DiskMonitor.sendSlackAlert, DiskMonitor.try_catch, DiskMonitor.bind,
    DiskMonitor.ask, DiskMonitor.axios_post, DiskMonitor.console_log,
    DiskMonitor.console_error, DiskMonitor.console_write, disk_sent.
  change (int_toString DiskMonitor.DISK_THRESHOLD) with "80".
  destruct (DiskMonitor.post_error env) as [e |]; cbn; [reflexivity |].
  rewrite disk_setLastAlertTime_run.
  destruct (DiskMonitor.write_error env) as [e |]; cbn.
  - unfold disk_logs; cbn. rewrite <- app_assoc. reflexivity.
  - reflexivity.
Qed.

Lemma disk_over_spec usage :
  DiskMonitor.over usage = true <-> exists n, usage = Some n /\ 80 <= n.
Proof.
  unfold DiskMonitor.over, DiskMonitor.DISK_THRESHOLD. split.
  - destruct usage as [n |]; [| discriminate].
    intros H. exists n. split; [reflexivity | now apply Z.leb_le].
  - intros (n & -> & H). now apply Z.leb_le.
Qed.

(** What [checkDiskUsage] does once the usage is there. *)
Lemma disk_check_run env w :
  DiskMonitor.checkDiskUsage env w =
  match DiskMonitor.exec env DiskMonitor.disk_command with
  | Throws e =>
      (Ok tt, disk_logs w [(stderr, "Error getting disk usage: " ++ e);
                           (stdout, "Could not retrieve disk usage")])
  | Returns output =>
      let usage := parseInt (trim output) in
      let current := (stdout, "Current disk usage: " ++ DiskMonitor.shown usage ++ "%") in
      if DiskMonitor.over usage then
        if DiskMonitor.cooldown_over (DiskMonitor.clock_check env)
                                     (disk_lastAlertTime env w)
        then DiskMonitor.sendSlackAlert usage env
               (disk_logs w (current :: disk_read_lines env w))
        else
          (Ok tt,
           disk_logs w
             (current :: disk_read_lines env w ++
              [(stdout, "Disk usage over threshold, but alert cooldown still active")]))
      else (Ok tt, disk_logs w [current])
  end.
Proof.
  unfold DiskMonitor.checkDiskUsage.
  unfold DiskMonitor.bind at 1. rewrite disk_getDiskUsage_run. unfold diskUsage.
  destruct (DiskMonitor.exec env DiskMonitor.disk_command) as [out | e];
    cbn [failure_line].
  2: { unfold DiskMonitor.console_log, DiskMonitor.console_write, disk_logs; cbn.
       now rewrite <- app_assoc. }
  rewrite disk_logs_nil. cbv zeta.
  unfold DiskMonitor.bind at 1, DiskMonitor.console_log at 1, DiskMonitor.console_write at 1.
  fold (disk_logs w [(stdout, "Current disk usage: " ++
                              DiskMonitor.shown (parseInt (trim out)) ++ "%")]).
  destruct (DiskMonitor.over (parseInt (trim out))); [| reflexivity].
  unfold DiskMonitor.bind at 1. rewrite disk_getLastAlertTime_run.
  unfold DiskMonitor.bind at 1, DiskMonitor.ask at 1.
  change (disk_lastAlertTime env (disk_logs w _)) with (disk_lastAlertTime env w).
  change (disk_read_lines env (disk_logs w _)) with (disk_read_lines env w).
  rewrite disk_logs_logs. cbn [app].
  destruct (DiskMonitor.cooldown_over _ _); [reflexivity |].
  unfold DiskMonitor.console_log, DiskMonitor.console_write, disk_logs; cbn.
  now rewrite <- !app_assoc.
Qed.

(** X13. The disk check: a failing command is logged twice and nothing
    else happens; a usage that is not a number (shown as NaN) or is below
    80 is logged and nothing else happens; a usage of 80 or more sends the
    alert when the last alert is at least the cooldown ago and is logged as
    held back otherwise.  The check never throws. *)
Theorem disk_alert_iff_over_and_cooled env w :
  (forall e,
     DiskMonitor.exec env DiskMonitor.disk_command = Throws e ->
     DiskMonitor.checkDiskUsage env w =
     (Ok tt, disk_logs w [(stderr, "Error getting disk usage: " ++ e);
                          (stdout, "Could not retrieve disk usage")])) /\
  (forall output,
     DiskMonitor.exec env DiskMonitor.disk_command = Returns output ->
     parseInt (trim output) = None ->
     DiskMonitor.checkDiskUsage env w =
     (Ok tt, disk_logs w [(stdout, "Current disk usage: NaN%")])) /\
  (forall output n,
     DiskMonitor.exec env DiskMonitor.disk_command = Returns output ->
     parseInt (trim output) = Some n -> - 2 ^ 53 < n < 80 ->
     DiskMonitor.checkDiskUsage env w =
     (Ok tt, disk_logs w [(stdout, "Current disk usage: " ++ int_toString n ++ "%")])) /\
  (forall output n,
     DiskMonitor.exec env DiskMonitor.disk_command = Returns output ->
     parseInt (trim output) = Some n -> 80 <= n < 2 ^ 53 ->
     (forall t, disk_lastAlertTime env w = Some t ->
                DiskMonitor.clock_check env - t < 30 * 60 * 1000) ->
     DiskMonitor.checkDiskUsage env w =
     (Ok tt,
      disk_logs w
        ((stdout, "Current disk usage: " ++ int_toString n ++ "%") ::
         disk_read_lines env w ++
         [(stdout, "Disk usage over threshold, but alert cooldown still active")]))) /\
  (forall output n t,
     DiskMonitor.exec env DiskMonitor.disk_command = Returns output ->
     parseInt (trim output) = Some n -> 80 <= n < 2 ^ 53 ->
     disk_lastAlertTime env w = Some t ->
     30 * 60 * 1000 <= DiskMonitor.clock_check env - t ->
     DiskMonitor.checkDiskUsage env w =
     DiskMonitor.sendSlackAlert (Some n) env
       (disk_logs w ((stdout, "Current disk usage: " ++ int_toString n ++ "%") ::
                     disk_read_lines env w)) /\
     exists message,
       DiskMonitor.posted (snd (DiskMonitor.checkDiskUsage env w)) =
       (DiskMonitor.posted w ++ [(DiskMonitor.SLACK_WEBHOOK_URL env, message)])%list) /\
  fst (DiskMonitor.checkDiskUsage env w) = Ok tt.
Proof.
  rewrite disk_check_run.
  split; [| split; [| split; [| split; [| split]]]].
  - intros e ->. reflexivity.
  - intros output -> ->. reflexivity.
  - intros output n -> -> Hn. cbv zeta.
    assert (Ho : DiskMonitor.over (Some n) = false).
    { unfold DiskMonitor.over, DiskMonitor.DISK_THRESHOLD. apply Z.leb_gt. lia. }
    now rewrite Ho.
  - intros output n -> -> Hn Hcool. cbv zeta.
    assert (Ho : DiskMonitor.over (Some n) = true).
    { apply disk_over_spec. exists n. split; [reflexivity | lia]. }
    assert (Hc : DiskMonitor.cooldown_over (DiskMonitor.clock_check env)
                   (disk_lastAlertTime env w) = false).
    { unfold DiskMonitor.cooldown_over, DiskMonitor.ALERT_COOLDOWN.
      destruct (disk_lastAlertTime env w) as [t |]; [| reflexivity].
      apply Z.leb_gt. now apply Hcool. }
    now rewrite Ho, Hc.
  - intros output n t -> -> Hn Ht Hcool. cbv zeta.
    assert (Ho : DiskMonitor.over (Some n) = true).
    { apply disk_over_spec. exists n. split; [reflexivity | lia]. }
    assert (Hc : DiskMonitor.cooldown_over (DiskMonitor.clock_check env)
                   (disk_lastAlertTime env w) = true).
    { rewrite Ht. unfold DiskMonitor.cooldown_over, DiskMonitor.ALERT_COOLDOWN.
      now apply Z.leb_le. }
    rewrite Ho, Hc. split; [reflexivity |].
    rewrite disk_sendSlackAlert_run. eexists. reflexivity.
  - destruct (DiskMonitor.exec env DiskMonitor.disk_command) as [out | e];
      [| reflexivity].
    cbv zeta. destruct (DiskMonitor.over _); [| reflexivity].
    destruct (DiskMonitor.cooldown_over _ _); [| reflexivity].
    now rewrite disk_sendSlackAlert_run.
Qed.

Lemma disk_alert_iff_over_and_cooled_witness :
  DiskMonitor.exec (disk_reading ("85" ++ nl) t0) DiskMonitor.disk_command =
    Returns ("85" ++ nl) /\
  parseInt (trim ("85" ++ nl)) = Some 85 /\ 80 <= 85 < 2 ^ 53 /\
  disk_lastAlertTime (disk_reading ("85" ++ nl) t0) (DiskMonitor.initial None) = Some 0 /\
  30 * 60 * 1000 <= DiskMonitor.clock_check (disk_reading ("85" ++ nl) t0) - 0 /\
  exists message,
    DiskMonitor.posted
      (snd (DiskMonitor.checkDiskUsage (disk_reading ("85" ++ nl) t0)
              (DiskMonitor.initial None))) =
    [(webhook, message)].
Proof.
  assert (H1 : DiskMonitor.exec (disk_reading ("85" ++ nl) t0) DiskMonitor.disk_command =
               Returns ("85" ++ nl)) by reflexivity.
  assert (H2 : parseInt (trim ("85" ++ nl)) = Some 85) by reflexivity.
  assert (H3 : 80 <= 85 < 2 ^ 53) by lia.
  assert (H4 : disk_lastAlertTime (disk_reading ("85" ++ nl) t0)
                 (DiskMonitor.initial None) = Some 0) by reflexivity.
  assert (H5 : 30 * 60 * 1000 <=
               DiskMonitor.clock_check (disk_reading ("85" ++ nl) t0) - 0)
    by (vm_compute; discriminate).
  split; [exact H1 |]. split; [exact H2 |]. split; [exact H3 |].
  split; [exact H4 |]. split; [exact H5 |].
  destruct (disk_alert_iff_over_and_cooled (disk_reading ("85" ++ nl) t0)
              (DiskMonitor.initial None)) as (_ & _ & _ & _ & Hsend & _).
  exact (proj2 (Hsend ("85" ++ nl) 85 0 H1 H2 H3 H4 H5)).
Defined.

(** X14. The disk alert: one attachment in the colour danger with the
    fields Server, Disk Usage, Threshold (80%) and Time, all short; the
    request goes out once; the time is written after a successful request
    only, and read back as written; a rejected request is logged and
    leaves the file as it was.  The function never throws. *)
Theorem disk_alert_is_sent_and_recorded usage env w :
  DiskMonitor.sendSlackAlert usage env w =
  (Ok tt,
   disk_sent env w usage
     {| DiskMonitor.text := "🚨 Disk Usage Alert";
        DiskMonitor.attachments :=
          [ {| DiskMonitor.color := "danger";
               DiskMonitor.fields :=
                 [ {| DiskMonitor.title := "Server";
                      DiskMonitor.value := DiskMonitor.hostname env;
                      DiskMonitor.short := true |};
                   {| DiskMonitor.title := "Disk Usage";
                      DiskMonitor.value := DiskMonitor.shown usage ++ "%";
                      DiskMonitor.short := true |};
                   {| DiskMonitor.title := "Threshold";
                      DiskMonitor.value := "80%";
                      DiskMonitor.short := true |};
                   {| DiskMonitor.title := "Time";
                      DiskMonitor.value :=
                        JSDate.toISOString (DiskMonitor.clock_message env);
                      DiskMonitor.short := true |} ] |} ] |}) /\
  (forall e,
     DiskMonitor.post_error env = Some e ->
     DiskMonitor.last_alert_file (snd (DiskMonitor.sendSlackAlert usage env w)) =
       DiskMonitor.last_alert_file w /\
     DiskMonitor.console (snd (DiskMonitor.sendSlackAlert usage env w)) =
       (DiskMonitor.console w ++
        [(stderr, ("Error sending Slack message: " ++ e)%string)])%list) /\
  (DiskMonitor.post_error env = None -> DiskMonitor.write_error env = None ->
   DiskMonitor.last_alert_file (snd (DiskMonitor.sendSlackAlert usage env w)) =
     Some (int_toString (DiskMonitor.clock_write env)) /\
   forall next,
     DiskMonitor.read_error next = None ->
     fst (DiskMonitor.getLastAlertTime next
            (snd (DiskMonitor.sendSlackAlert usage env w))) =
       Ok (Some (DiskMonitor.clock_write env))).
Proof.
  rewrite disk_sendSlackAlert_run. split; [reflexivity |]. split.
  - intros e He. unfold disk_sent. cbn. now rewrite He.
  - intros Hp Hw. unfold disk_sent. cbn [snd DiskMonitor.last_alert_file].
    rewrite Hp, Hw. split; [reflexivity |].
    intros next Hr. rewrite disk_getLastAlertTime_run.
    unfold disk_lastAlertTime. cbn [fst DiskMonitor.last_alert_file].
    now rewrite Hr, parseInt_int_toString.
Qed.

Lemma disk_alert_is_sent_and_recorded_witness :
  DiskMonitor.post_error (disk_failing (disk_reading "85" t0)
                            (Some "Request failed with status code 500")) =
    Some "Request failed with status code 500" /\
  DiskMonitor.last_alert_file
    (snd (DiskMonitor.sendSlackAlert (Some 85)
            (disk_failing (disk_reading "85" t0)
               (Some "Request failed with status code 500"))
            (DiskMonitor.initial (Some "1700000000000")))) = Some "1700000000000" /\
  map (fun request =>
         map (fun a => map DiskMonitor.value (DiskMonitor.fields a))
             (DiskMonitor.attachments (snd request)))
      (DiskMonitor.posted
         (snd (DiskMonitor.sendSlackAlert (Some 85) (disk_reading "85" t0)
                 (DiskMonitor.initial None)))) =
    [[["web-01"; "85%"; "80%"; "2023-11-14T22:13:20.001Z"]]].
Proof.
  assert (H : DiskMonitor.post_error (disk_failing (disk_reading "85" t0)
                (Some "Request failed with status code 500")) =
              Some "Request failed with status code 500") by reflexivity.
  split; [exact H |]. split; [| vm_compute; reflexivity].
  exact (proj1 (proj1 (proj2 (disk_alert_is_sent_and_recorded (Some 85)
                  (disk_failing (disk_reading "85" t0)
                     (Some "Request failed with status code 500"))
                  (DiskMonitor.initial (Some "1700000000000"))))
                  "Request failed with status code 500" H)).
Defined.

(** X15. The cooldown of the disk monitor: after a check that sent an
    alert and wrote the time, a later check that finds the usage at 80 or
    more sends again exactly when it comes at least the cooldown after the
    time written. *)
Theorem disk_cooldown_after_a_send env next w output n t output' n' :
  DiskMonitor.exec env DiskMonitor.disk_command = Returns output ->
  parseInt (trim output) = Some n -> 80 <= n ->
  disk_lastAlertTime env w = Some t ->
  30 * 60 * 1000 <= DiskMonitor.clock_check env - t ->
  DiskMonitor.post_error env = None -> DiskMonitor.write_error env = None ->
  DiskMonitor.read_error next = None ->
  DiskMonitor.exec next DiskMonitor.disk_command = Returns output' ->
  parseInt (trim output') = Some n' -> 80 <= n' ->
  DiskMonitor.last_alert_file (snd (DiskMonitor.checkDiskUsage env w)) =
    Some (int_toString (DiskMonitor.clock_write env)) /\
  (DiskMonitor.posted
     (snd (DiskMonitor.checkDiskUsage next (snd (DiskMonitor.checkDiskUsage env w)))) <>
   DiskMonitor.posted (snd (DiskMonitor.checkDiskUsage env w)) <->
   30 * 60 * 1000 <= DiskMonitor.clock_check next - DiskMonitor.clock_write env).
Proof.
  intros He Hn Hge Ht Hcool Hpost Hwrite Hread He' Hn' Hge'.
  assert (Ho : DiskMonitor.over (Some n) = true)
    by (apply disk_over_spec; now exists n).
  assert (Ho' : DiskMonitor.over (Some n') = true)
    by (apply disk_over_spec; now exists n').
  assert (Hfile : DiskMonitor.last_alert_file (snd (DiskMonitor.checkDiskUsage env w)) =
                  Some (int_toString (DiskMonitor.clock_write env))).
  { rewrite disk_check_run, He. cbv zeta. rewrite Hn, Ho, Ht.
    unfold DiskMonitor.cooldown_over, DiskMonitor.ALERT_COOLDOWN.
    rewrite (proj2 (Z.leb_le _ _) Hcool), disk_sendSlackAlert_run.
    unfold disk_sent. cbn [snd DiskMonitor.last_alert_file]. now rewrite Hpost, Hwrite. }
  split; [exact Hfile |].
  set (w1 := snd (DiskMonitor.checkDiskUsage env w)) in *.
  assert (Htime : disk_lastAlertTime next w1 = Some (DiskMonitor.clock_write env)).
  { unfold disk_lastAlertTime. now rewrite Hfile, Hread, parseInt_int_toString. }
  rewrite disk_check_run, He'. cbv zeta. rewrite Hn', Ho', Htime.
  unfold DiskMonitor.cooldown_over, DiskMonitor.ALERT_COOLDOWN.
  destruct (Z.leb_spec (30 * 60 * 1000)
              (DiskMonitor.clock_check next - DiskMonitor.clock_write env)) as [H | H].
  - rewrite disk_sendSlackAlert_run. unfold disk_sent, disk_logs.
    cbn [snd DiskMonitor.posted]. split; [intros _; exact H |].
    intros _. apply snoc_neq.
  - unfold disk_logs. cbn [snd DiskMonitor.posted]. split; [congruence | lia].
Qed.

Lemma disk_cooldown_after_a_send_witness :
  DiskMonitor.posted
    (snd (DiskMonitor.checkDiskUsage (disk_reading "91" (t0 + 900000))
            (snd (DiskMonitor.checkDiskUsage (disk_reading "85" t0)
                    (DiskMonitor.initial None))))) =
  DiskMonitor.posted
    (snd (DiskMonitor.checkDiskUsage (disk_reading "85" t0) (DiskMonitor.initial None))) /\
  DiskMonitor.posted
    (snd (DiskMonitor.checkDiskUsage (disk_reading "91" (t0 + 2100000))
            (snd (DiskMonitor.checkDiskUsage (disk_reading "85" t0)
                    (DiskMonitor.initial None))))) <>
  DiskMonitor.posted
    (snd (DiskMonitor.checkDiskUsage (disk_reading "85" t0) (DiskMonitor.initial None))).
Proof.
  assert (Hcool : 30 * 60 * 1000 <= DiskMonitor.clock_check (disk_reading "85" t0) - 0)
    by (vm_compute; discriminate).
  assert (Hlate : 30 * 60 * 1000 <=
                  DiskMonitor.clock_check (disk_reading "91" (t0 + 2100000)) -
                  DiskMonitor.clock_write (disk_reading "85" t0))
    by (vm_compute; discriminate).
  split; [vm_compute; reflexivity |].
  exact (proj2 (proj2 (disk_cooldown_after_a_send (disk_reading "85" t0)
                         (disk_reading "91" (t0 + 2100000)) (DiskMonitor.initial None)
                         "85" 85 0 "91" 91
                         eq_refl eq_refl ltac:(lia) eq_refl Hcool eq_refl eq_refl
                         eq_refl eq_refl eq_refl ltac:(lia))) Hlate).
Defined.

(** What a check of the disk monitor does to the requests. *)
Lemma disk_check_posted env w :
  fst (DiskMonitor.checkDiskUsage env w) = Ok tt /\
  (DiskMonitor.posted (snd (DiskMonitor.checkDiskUsage env w)) = DiskMonitor.posted w \/
   exists message,
     DiskMonitor.posted (snd (DiskMonitor.checkDiskUsage env w)) =
     (DiskMonitor.posted w ++ [(DiskMonitor.SLACK_WEBHOOK_URL env, message)])%list).
Proof.
  rewrite disk_check_run.
  destruct (DiskMonitor.exec env DiskMonitor.disk_command) as [out | e];
    [| split; [reflexivity | now left]].
  cbv zeta. destruct (DiskMonitor.over _); [| split; [reflexivity | now left]].
  destruct (DiskMonitor.cooldown_over _ _); [| split; [reflexivity | now left]].
  rewrite disk_sendSlackAlert_run. split; [reflexivity |]. right. now eexists.
Qed.

Lemma disk_run_requests envs : forall w,
  exists requests,
    DiskMonitor.posted (DiskMonitor.run envs w) = (DiskMonitor.posted w ++ requests)%list /\
    (List.length requests <= List.length envs)%nat /\
    Forall (fun request =>
              exists env, In env envs /\ fst request = DiskMonitor.SLACK_WEBHOOK_URL env)
           requests.
Proof.
  induction envs as [| env envs IH]; intros w.
  - exists []. cbn. rewrite app_nil_r. auto.
  - destruct (IH (snd (DiskMonitor.checkDiskUsage env w))) as (requests & Hp & Hle & Hall).
    assert (Hin : Forall (fun request =>
              exists e, In e (env :: envs) /\ fst request = DiskMonitor.SLACK_WEBHOOK_URL e)
              requests).
    { eapply Forall_impl; [| exact Hall].
      intros r (e & He & Hr). exists e. split; [now right | assumption]. }
    cbn [DiskMonitor.run]. rewrite Hp.
    destruct (disk_check_posted env w) as (_ & [H | [message H]]); rewrite H.
    + exists requests. cbn [List.length]. repeat split; [lia | assumption].
    + eexists (_ :: requests). rewrite <- app_assoc. cbn [app List.length].
      repeat split; [lia |].
      constructor; [| assumption].
      exists env. split; [now left | reflexivity].
Qed.

Lemma disk_start_run url env w :
  DiskMonitor.start url env w =
  if DiskMonitor.unconfigured url
  then (Ok (Some 1),
        disk_logs w [(stderr, "Please set your Slack webhook URL in the SLACK_WEBHOOK_URL variable")])
  else (Ok None, snd (DiskMonitor.checkDiskUsage env (disk_logs w disk_banner))).
Proof.
  unfold DiskMonitor.start. destruct (DiskMonitor.unconfigured url); [reflexivity |].
  assert (H5 : DiskMonitor.in_minutes DiskMonitor.CHECK_INTERVAL = "5")
    by (vm_compute; reflexivity).
  assert (H30 : DiskMonitor.in_minutes DiskMonitor.ALERT_COOLDOWN = "30")
    by (vm_compute; reflexivity).
  rewrite H5, H30.
  change (int_toString DiskMonitor.DISK_THRESHOLD) with "80".
  unfold DiskMonitor.bind, DiskMonitor.console_log, DiskMonitor.console_write,
    DiskMonitor.ret.
  cbn [DiskMonitor.last_alert_file DiskMonitor.console DiskMonitor.posted append].
  match goal with |- context [DiskMonitor.checkDiskUsage env ?w0] =>
    replace w0 with (disk_logs w disk_banner)
      by (unfold disk_logs, disk_banner; rewrite <- !app_assoc; reflexivity)
  end.
  destruct (disk_check_posted env (disk_logs w disk_banner)) as (H & _).
  destruct (DiskMonitor.checkDiskUsage env (disk_logs w disk_banner)) as [r w'].
  cbn in H. now rewrite H.
Qed.

(** X16. Starting the disk monitor: without a webhook URL (not set, empty
    or the placeholder) it writes one line on the error stream and exits
    with code 1 before any check; otherwise it writes its banner, checks at
    once and keeps checking; it sends at most one request per check, each
    to the URL it was started with. *)
Theorem disk_monitor_starts_only_when_configured url first ticks w :
  (DiskMonitor.unconfigured url = true <->
   url = None \/ url = Some "" \/ url = Some "YOUR_SLACK_WEBHOOK_URL_HERE") /\
  (DiskMonitor.unconfigured url = true ->
   DiskMonitor.monitor url first ticks w =
   (Some 1,
    disk_logs w [(stderr, "Please set your Slack webhook URL in the SLACK_WEBHOOK_URL variable")])) /\
  (DiskMonitor.unconfigured url = false ->
   DiskMonitor.monitor url first ticks w =
   (None, DiskMonitor.run (first :: ticks) (disk_logs w disk_banner))) /\
  (forall u,
     url = Some u ->
     Forall (fun env => DiskMonitor.SLACK_WEBHOOK_URL env = u) (first :: ticks) ->
     exists requests,
       DiskMonitor.posted (snd (DiskMonitor.monitor url first ticks w)) =
         (DiskMonitor.posted w ++ requests)%list /\
       (List.length requests <= S (List.length ticks))%nat /\
       Forall (fun request =>
                 fst request = u /\ u <> "" /\ u <> "YOUR_SLACK_WEBHOOK_URL_HERE")
              requests) /\
  DiskMonitor.on_SIGINT first w =
    (Ok (Some 0), disk_logs w [(stdout, nl ++ "Disk monitor stopped")]).
Proof.
  split.
  { unfold DiskMonitor.unconfigured. split.
    - destruct url as [[| c u] |]; auto.
      intros H. apply String.eqb_eq in H. right. right. now rewrite H.
    - intros [-> | [-> | ->]]; reflexivity. }
  split; [| split; [| split; [| reflexivity]]].
  - intros H. unfold DiskMonitor.monitor. now rewrite disk_start_run, H.
  - intros H. unfold DiskMonitor.monitor. now rewrite disk_start_run, H.
  - intros u -> Hall. unfold DiskMonitor.monitor. rewrite disk_start_run.
    destruct (DiskMonitor.unconfigured (Some u)) eqn:Hu.
    + exists []. cbn. rewrite app_nil_r. repeat split; [lia | constructor].
    + destruct (disk_run_requests (first :: ticks) (disk_logs w disk_banner))
        as (requests & Hp & Hle & Hreq).
      exists requests. split; [exact Hp |]. split; [exact Hle |].
      rewrite Forall_forall in *. intros r Hr.
      destruct (Hreq r Hr) as (env & Hin & Hurl).
      split; [now rewrite Hurl, (Hall env Hin) |].
      split; intros ->; discriminate.
Qed.

Lemma disk_monitor_starts_only_when_configured_witness :
  DiskMonitor.unconfigured (Some "") = true /\
  DiskMonitor.unconfigured (Some webhook) = false /\
  DiskMonitor.monitor (Some "") (disk_reading "85" t0) [disk_reading "91" (t0 + 900000)]
    (DiskMonitor.initial None) =
    (Some 1,
     disk_logs (DiskMonitor.initial None)
       [(stderr, "Please set your Slack webhook URL in the SLACK_WEBHOOK_URL variable")]) /\
  map fst
    (DiskMonitor.posted
       (snd (DiskMonitor.monitor (Some webhook) (disk_reading "85" t0)
               [disk_reading "91" (t0 + 900000)] (DiskMonitor.initial None)))) =
    [webhook].
Proof.
  assert (H1 : DiskMonitor.unconfigured (Some "") = true) by reflexivity.
  split; [exact H1 |]. split; [reflexivity |].
  split; [| vm_compute; reflexivity].
  exact (proj1 (proj2 (disk_monitor_starts_only_when_configured (Some "")
                         (disk_reading "85" t0) [disk_reading "91" (t0 + 900000)]
                         (DiskMonitor.initial None))) H1).
Defined.

(** ** Known values and scenarios *)

(** The runtime on values whose JavaScript results are known. *)
Example toString_known :
  map (fun s => toString (parseFloat s))
      ["25.5"; "25.0"; "0.1"; "1e21"; "5e-324"; "0.000001"; "1e-7";
       "0.30000000000000004"; "9007199254740993"; "-0"; "abc"; "  95.0 "] =
  ["25.5"; "25"; "0.1"; "1e+21"; "5e-324"; "0.000001"; "1e-7";
   "0.30000000000000004"; "9007199254740992"; "0"; "NaN"; "95"].
Proof. vm_compute. reflexivity. Qed.

Example toFixed_known :
  map (fun s => toFixed (parseFloat s) 1)
      ["95"; "94.95"; "0.05"; "1.25"; "1.45"; "99.96"; "1e21"; "Infinity"; ""] =
  ["95.0"; "95.0"; "0.1"; "1.3"; "1.4"; "100.0"; "1e+21"; "Infinity"; "NaN"].
Proof. vm_compute. reflexivity. Qed.

(** 5.05 is not a binary64 value, and the one nearest to it is below it. *)
Example minutes_known :
  map minutes [0; 297000; 300000; 303000; 360000; 1000000] =
  ["0.0"; "5.0"; "5.0"; "5.0"; "6.0"; "16.7"].
Proof. vm_compute. reflexivity. Qed.

Example parseInt_known :
  map parseInt ["1700000000000"; " 42"; "-17"; "0x1F"; "12abc"; "3.9"; ""; "abc"] =
  [Some 1700000000000; Some 42; Some (-17); Some 31; Some 12; Some 3; None; None].
Proof. vm_compute. reflexivity. Qed.

(** A check always returns normally. *)
Lemma checkSystemHealth_returns env w : fst (checkSystemHealth env w) = Ok tt.
Proof.
  destruct (checkSystemHealth_run env w) as (text & lines & H & _). now rewrite H.
Qed.

(** The providers on the outputs that the tests of the repository feed
    them, well-formed and malformed. *)
Example processes_known :
  processesOf ps_output = [node_process; long_process] /\
  processesOf "invalid output format" = [] /\
  topCpu all_high 8 = [node_process; long_process].
Proof. vm_compute. repeat split. Qed.

Example context_known :
  fst (getSystemLoad all_high (initial None)) =
    Ok (Some {| load_1min := parseFloat "1.25"; load_5min := parseFloat "1.15";
                load_15min := parseFloat "0.95" |}) /\
  fst (getUptime all_high (initial None)) = Ok (Some "up 2 days, 3 hours") /\
  fst (getDiskUsage all_high (initial None)) =
    Ok (Some {| filesystem := Some "/dev/sda1"; size := Some "100G";
                disk_used := Some "75G"; disk_available := Some "20G";
                usagePercent := Some "79%"; mountpoint := Some "/" |}) /\
  detailedSwap all_high =
    Some {| swap_total := Some "8.0Gi"; swap_used := Some "6.0Gi";
            swap_free := Some "2.0Gi" |}.
Proof. vm_compute. repeat split. Qed.

(** The end-to-end scenario: CPU at 95.0 percent, over the threshold for six
    minutes, no alert recorded before: exactly one request goes out, with one
    section, whose body shows 95.0 and 6.0. *)
Example end_to_end :
  map (fun request =>
         map (fun section => (att_title section,
                              displayed "*Current CPU Usage: " (text section),
                              between "*Duration: " " minutes*" (text section)))
             (attachments (snd request)))
      (posted (snd (checkSystemHealth (reading "95.0" "75.0" "25.0" (t0 + 360000))
                                      six_minutes_in))) =
  [[(CPU_TITLE, Some "95.0", Some "6.0")]].
Proof. vm_compute. reflexivity. Qed.

(** The cooldown example: an alert recorded 35 minutes ago lets the next
    one out, one recorded 15 minutes ago holds it back. *)
Example cooldown_35_and_15 :
  List.length (posted (snd (checkSystemHealth memory_alarm alerted_at_t0))) = 1%nat /\
  posted (snd (checkSystemHealth (reading "12.0" "95.0" "25.0" (t0 + 900000))
                                 alerted_at_t0)) = [].
Proof. vm_compute. split; reflexivity. Qed.

(** A last-alert file that is there and readable but holds no number is
    neither of the cases in which the time reads as 0: the time is NaN, and
    the gate stays shut. *)
Example unparsable_time_closes_gate :
  lastAlertTime memory_alarm garbled = None /\
  alerts_of memory_alarm garbled <> [] /\
  posted (snd (checkSystemHealth memory_alarm garbled)) = [].
Proof. vm_compute. repeat split. discriminate. Qed.

(** Times whose ISO forms are known: the epoch, a leap day, the ends of the
    range of four-digit years and of the range of time values. *)
Example toISOString_known :
  map JSDate.toISOString
      [0; 1700000000000; -1; 951782400000; 1709251199999; 1709251200000;
       4102444800000; 253402300799999; 253402300800000; -62167219200000;
       -62198755200000; 8640000000000000; -8640000000000000] =
  ["1970-01-01T00:00:00.000Z"; "2023-11-14T22:13:20.000Z"; "1969-12-31T23:59:59.999Z";
   "2000-02-29T00:00:00.000Z"; "2024-02-29T23:59:59.999Z"; "2024-03-01T00:00:00.000Z";
   "2100-01-01T00:00:00.000Z"; "9999-12-31T23:59:59.999Z"; "+010000-01-01T00:00:00.000Z";
   "0000-01-01T00:00:00.000Z"; "-000001-01-01T00:00:00.000Z";
   "+275760-09-13T00:00:00.000Z"; "-271821-04-20T00:00:00.000Z"].
Proof. vm_compute. reflexivity. Qed.

(** The disk monitor end to end: 85 percent with no alert recorded sends
    one request; 79 percent and an output that is not a number send
    none. *)
Example disk_end_to_end :
  map (fun output =>
         (DiskMonitor.console
            (snd (DiskMonitor.checkDiskUsage (disk_reading output t0)
                    (DiskMonitor.initial None))),
          List.length
            (DiskMonitor.posted
               (snd (DiskMonitor.checkDiskUsage (disk_reading output t0)
                       (DiskMonitor.initial None))))))
      ["85" ++ nl; "79" ++ nl; "df: /: No such file or directory"] =
  [ ([(stdout, "Current disk usage: 85%");
      (stdout, "Slack alert sent: Disk usage at 85%")], 1%nat);
    ([(stdout, "Current disk usage: 79%")], 0%nat);
    ([(stdout, "Current disk usage: NaN%")], 0%nat) ].
Proof. vm_compute. reflexivity. Qed.
